(** * Recipe controller: a shallow embedding and its checked properties

    The development follows [src/controllers/recipe.controller.js]
    together with the Recipe schema.  JavaScript values, strings and
    numbers are embedded as data; the document store, the generative-AI
    client, [JSON.parse] and [jsonrepair] are collaborators of the
    controller and appear as parameters of the handlers. *)

From Stdlib Require Import ZArith NArith QArith Qreduction String Ascii List Lia.
From Stdlib Require Import SpecFloat.
From stdpp Require Import gmap strings list.

Local Open Scope N_scope.

(** ** Strings

    A JavaScript string is a sequence of UTF-16 code units. *)

Abbreviation jsstring := (list N).

Definition js (s : string) : jsstring :=
  map N_of_ascii (list_ascii_of_string s).

Arguments js : simpl never.

Definition dquote : jsstring := [34].
Definition newline : jsstring := [10].

(** [String.prototype.toLowerCase].  The letters A-Z move to a-z.  Two
    other code points have a lower-case mapping that reaches a-z: U+0130
    (to i followed by U+0307) and U+212A (to k).  The remaining code
    units are left as they are here: their lower-case forms all lie
    outside a-z, and the only caller deletes everything outside a-z
    right after lowering. *)
Definition lowerUnit (c : N) : jsstring :=
  if (65 <=? c) && (c <=? 90) then [c + 32]
  else if c =? 304 then [105; 775]
  else if c =? 8490 then [107]
  else [c].

Definition toLowerCase (s : jsstring) : jsstring := flat_map lowerUnit s.

(** Character classes of the regular expressions in the controller. *)
Definition isLowerAZ (c : N) : bool := (97 <=? c) && (c <=? 122).
Definition isDigit (c : N) : bool := (48 <=? c) && (c <=? 57).
Definition isDot (c : N) : bool := c =? 46.

(** [\s], also the set removed by [trim]: WhiteSpace and LineTerminator. *)
Definition isSpace (c : N) : bool :=
  ((9 <=? c) && (c <=? 13)) || (c =? 32) || (c =? 160) || (c =? 5760)
  || ((8192 <=? c) && (c <=? 8202)) || (c =? 8232) || (c =? 8233)
  || (c =? 8239) || (c =? 8287) || (c =? 12288) || (c =? 65279).

(** [s.replace(/[^...]/g, "")] for a one-character negated class keeps
    exactly the code units of the class. *)
Definition removeOutside (keep : N -> bool) (s : jsstring) : jsstring :=
  List.filter keep s.

Fixpoint dropWhile (p : N -> bool) (s : jsstring) : jsstring :=
  match s with
  | [] => []
  | c :: s' => if p c then dropWhile p s' else s
  end.

Definition trimStart (s : jsstring) : jsstring := dropWhile isSpace s.
Definition trim (s : jsstring) : jsstring :=
  rev (dropWhile isSpace (rev (dropWhile isSpace s))).

Fixpoint startsWith (p s : jsstring) : bool :=
  match p, s with
  | [], _ => true
  | _ :: _, [] => false
  | a :: p', b :: s' => (a =? b) && startsWith p' s'
  end.

(** [Array.prototype.includes] on an array of primitives. *)
Definition includes {A} `{EqDecision A} (l : list A) (x : A) : bool :=
  bool_decide (x ∈ l).

(** ** Exceptions and results *)

Inductive exn :=
| TypeError              (* property of undefined, call of a non-function *)
| CastError              (* malformed ObjectId given to the store *)
| SaveError              (* validation or write failure inside [save] *)
| AiError (msg : jsstring)       (* failure of the generative client *)
| SyntaxError (msg : jsstring).  (* thrown by [JSON.parse] or [jsonrepair] *)

Inductive result (A : Type) :=
| Ok (a : A)
| Throw (e : exn).
Arguments Ok {A} a.
Arguments Throw {A} e.

Definition rbind {A B} (r : result A) (k : A -> result B) : result B :=
  match r with
  | Ok a => k a
  | Throw e => Throw e
  end.

#[global] Instance result_ret : MRet result := fun _ a => Ok a.
#[global] Instance result_bind : MBind result := fun _ _ k r => rbind r k.

(** ** Numbers and values

    A Number is an IEEE 754 binary64 value, in the Standard Library's
    specification of floating-point arithmetic. *)

Abbreviation number := spec_float.
Definition prec : Z := 53.
Definition emax : Z := 1024.

Definition posZero : number := S754_zero false.
Definition isNaN (x : number) : bool :=
  match x with S754_nan => true | _ => false end.
Definition isZero (x : number) : bool :=
  match x with S754_zero _ => true | _ => false end.

(** The values that [JSON.parse] and [express.json] produce, and
    [undefined] for what is missing. *)
#[warnings="-register-all"] Inductive value :=
| VUndefined
| VNull
| VBool (b : bool)
| VNumber (x : number)
| VString (s : jsstring)
| VArray (xs : list value)
| VObject (props : list (jsstring * value)).

(** ToBoolean. *)
Definition truthy (v : value) : bool :=
  match v with
  | VUndefined | VNull => false
  | VBool b => b
  | VNumber x => negb (isZero x || isNaN x)
  | VString s => match s with [] => false | _ => true end
  | VArray _ | VObject _ => true
  end.

(** ** Category normalisation *)

Definition normalizeCategory (cat : value) : result jsstring :=
  if negb (truthy cat) then Ok (js "other") else
  match cat with
  | VString cat =>
      let cleaned := removeOutside isLowerAZ (toLowerCase cat) in
      if includes [js "veg"; js "vegetarian"] cleaned then Ok (js "vegetarian")
      else if includes [js "nonveg"; js "nonvegetarian"] cleaned
           then Ok (js "non-vegetarian")
      else if includes [js "vegan"] cleaned then Ok (js "vegan")
      else if includes [js "spicy"] cleaned then Ok (js "spicy")
      else Ok (js "other")
  | _ => Throw TypeError   (* no [toLowerCase] method *)
  end.

(** The lookup table, as the specification words it. *)
Definition categoryTable (cleaned : jsstring) : jsstring :=
  if decide (cleaned = js "veg" \/ cleaned = js "vegetarian") then js "vegetarian"
  else if decide (cleaned = js "nonveg" \/ cleaned = js "nonvegetarian")
       then js "non-vegetarian"
  else if decide (cleaned = js "vegan") then js "vegan"
  else if decide (cleaned = js "spicy") then js "spicy"
  else js "other".

Definition categoryTags : list jsstring :=
  [js "vegetarian"; js "non-vegetarian"; js "vegan"; js "spicy"; js "other"].

(** ** Decimal numerals and binary64

    [roundQ] is the Number value of an exact rational: the nearest
    binary64, ties to even, overflowing to an infinity.  The quotient of
    numerator by denominator is rounded once, by the Standard Library's
    [SFdiv]. *)
Definition roundQ (q : Q) : number :=
  let q := Qred q in
  match Qnum q with
  | Z0 => S754_zero false
  | Zpos p => SFdiv prec emax (S754_finite false p 0) (S754_finite false (Qden q) 0)
  | Zneg p => SFdiv prec emax (S754_finite true p 0) (S754_finite false (Qden q) 0)
  end.

(** The rational [d * 10^t]. *)
Definition decimalQ (d : N) (t : Z) : Q :=
  match t with
  | Zneg p => Qmake (Z.of_N d) (10 ^ p)%positive
  | _ => Qmake (Z.of_N d * 10 ^ t) 1
  end.

Fixpoint spanDigits (s : jsstring) : jsstring * jsstring :=
  match s with
  | [] => ([], [])
  | c :: s' =>
      if isDigit c then let (d, r) := spanDigits s' in (c :: d, r)
      else ([], s)
  end.

Definition digitsValue (ds : jsstring) : N :=
  fold_left (fun acc c => 10 * acc + (c - 48)) ds 0.

(** ExponentPart: [e] or [E], an optional sign, at least one digit.
    Without a well-formed exponent the literal ends before the [e]. *)
Definition exponentPart (s : jsstring) : Z :=
  match s with
  | c :: r =>
      if (c =? 101) || (c =? 69) then
        match r with
        | 45 :: r' =>
            match fst (spanDigits r') with
            | [] => 0%Z
            | ds => (- Z.of_N (digitsValue ds))%Z
            end
        | 43 :: r' => Z.of_N (digitsValue (fst (spanDigits r')))
        | _ => Z.of_N (digitsValue (fst (spanDigits r)))
        end
      else 0%Z
  | [] => 0%Z
  end.

(** The longest prefix that is a StrUnsignedDecimalLiteral, and its
    value; [None] when no prefix is one. *)
Definition parseUnsigned (s : jsstring) : option number :=
  if startsWith (js "Infinity") s then Some (S754_infinity false)
  else
    let (ip, r1) := spanDigits s in
    match r1 with
    | 46 :: r =>
        let (fp, r2) := spanDigits r in
        match ip, fp with
        | [], [] => None
        | _, _ =>
            Some (roundQ (decimalQ (digitsValue (ip ++ fp))
                                   (exponentPart r2 - Z.of_nat (length fp))))
        end
    | _ =>
        match ip with
        | [] => None
        | _ => Some (roundQ (decimalQ (digitsValue ip) (exponentPart r1)))
        end
    end.

(** The global [parseFloat], on a string argument. *)
Definition parseFloat (s : jsstring) : number :=
  let t := trimStart s in
  match t with
  | 45 :: u =>
      match parseUnsigned u with Some x => SFopp x | None => S754_nan end
  | 43 :: u =>
      match parseUnsigned u with Some x => x | None => S754_nan end
  | _ =>
      match parseUnsigned t with Some x => x | None => S754_nan end
  end.

(** Decimal digits of a natural number, most significant first. *)
Fixpoint digitsFuel (fuel : nat) (n : N) : jsstring :=
  match fuel with
  | O => [48 + n mod 10]
  | S fuel' =>
      if n <? 10 then [48 + n]
      else digitsFuel fuel' (n / 10) ++ [48 + n mod 10]
  end.

Definition decimalDigits (n : N) : jsstring :=
  digitsFuel (N.to_nat (N.size n)) n.

(** The digits of [n] with a dot before the last [f] of them, padded
    with zeros on the left to [f + 1] digits: steps 9b-9c of
    [Number.prototype.toFixed]. *)
Definition fixedDigits (n : N) (f : nat) : jsstring :=
  let m := decimalDigits n in
  match f with
  | O => m
  | _ =>
      let m := repeat 48 (f + 1 - length m)%nat ++ m in
      let k := length m in
      take (k - f)%nat m ++ [46] ++ drop (k - f)%nat m
  end.

(** [m * 2^e >= 10^21], exactly. *)
Definition atLeast1e21 (m : positive) (e : Z) : bool :=
  match e with
  | Zneg p => (10 ^ 21 * 2 ^ Zpos p <=? Zpos m)%Z
  | _ => (10 ^ 21 <=? Zpos m * 2 ^ e)%Z
  end.

(** The integer [n] for which [n / 10^f] is closest to [m * 2^e], the
    larger one on a tie. *)
Definition scaledNearest (m : positive) (e : Z) (f : nat) : N :=
  let a := (Zpos m * 10 ^ Z.of_nat f)%Z in
  match e with
  | Zneg p => Z.to_N ((2 * a + 2 ^ Zpos p) / 2 ^ (Zpos p + 1))%Z
  | _ => Z.to_N (a * 2 ^ e)%Z
  end.

(** ** Documents of the store

    A Recipe follows the schema of the Recipe model, field by field.
    The identifiers in [savedBy] are ObjectIds.  A document made by
    [new Recipe] holds its fields as the schema casts them (see
    [newRecipe]); a field assigned later to a loaded document holds the
    value the controller assigns. *)
Record Recipe := {
  title : value;
  description : value;
  ingredients : value;
  instructions : value;
  portionSize : value;
  category : value;
  difficulty : value;
  image : value;
  ratings : value;
  averageRating : value;
  savedBy : list N;
  nutritionalInfo : value;
  tags : value;
  cuisine : value
}.

(** Modelled from the spec: the User model file is not part of the
    sources at hand.  The specification gives a User a set of recipe
    references, [savedRecipes]; the controller allows it to be missing.
    The rest of the account is carried along untouched. *)
Record User := {
  savedRecipes : option (list N);
  account : value
}.

(** What the generative client answers: the text of the response (its
    accessor may throw) and the candidates with their parts. *)
Record InlineData := { mimeType : jsstring; data : jsstring }.
Record Part := { text : option jsstring; inlineData : option InlineData }.
Record Candidate := { parts : list Part }.
Record AiResponse := {
  responseText : result jsstring;
  candidates : option (list Candidate)
}.

(** ** Collaborators

    The run-time library and the services the controller calls.
    - [digitsOfFinite m e] is Number::toString on the positive finite
      number [m * 2^e] (the shortest digits that read back as it);
    - [JSON_parse] and [jsonrepair] are the two parsers;
    - [generateContent model prompt] is one request to the generative
      service;
    - [recipeSaveOk] and [userSaveOk] tell whether [save] of a document
      goes through (schema validation and the write itself). *)
Class Runtime := {
  digitsOfFinite : positive -> Z -> jsstring;
  JSON_parse : jsstring -> result value;
  jsonrepair : jsstring -> result jsstring;
  generateContent : jsstring -> jsstring -> result AiResponse;
  recipeSaveOk : Recipe -> bool;
  userSaveOk : User -> bool
}.

Section Values.
Context `{Runtime}.

(** Number::toString. *)
Definition numberToString (x : number) : jsstring :=
  match x with
  | S754_nan => js "NaN"
  | S754_zero _ => js "0"
  | S754_infinity s => if s then js "-Infinity" else js "Infinity"
  | S754_finite s m e => (if s then js "-" else []) ++ digitsOfFinite m e
  end.

(** [Number.prototype.toFixed(f)]. *)
Definition toFixed (x : number) (f : nat) : jsstring :=
  match x with
  | S754_nan | S754_infinity _ => numberToString x
  | S754_zero _ => fixedDigits 0 f
  | S754_finite s m e =>
      (if s then js "-" else [])
      ++ (if atLeast1e21 m e then digitsOfFinite m e
          else fixedDigits (scaledNearest m e f) f)
  end.

Fixpoint lookupKey (k : jsstring) (props : list (jsstring * value)) : option value :=
  match props with
  | [] => None
  | (k', v) :: rest => if decide (k = k') then Some v else lookupKey k rest
  end.

(** Reading a property whose name no prototype defines: the own
    property of an object, [undefined] on other values, a TypeError on
    [undefined] and [null]. *)
Definition getProp (v : value) (k : string) : result value :=
  match v with
  | VUndefined | VNull => Throw TypeError
  | VObject props => Ok (default VUndefined (lookupKey (js k) props))
  | _ => Ok VUndefined
  end.

(** Optional chaining [v?.k]. *)
Definition getPropOpt (v : value) (k : string) : result value :=
  match v with
  | VUndefined | VNull => Ok VUndefined
  | _ => getProp v k
  end.

(** ToString.  An object answers "[object Object]" unless it carries a
    property named [toString], which for these values is never a
    function: the conversion then throws. *)
Fixpoint ToString (v : value) : result jsstring :=
  match v with
  | VUndefined => Ok (js "undefined")
  | VNull => Ok (js "null")
  | VBool b => Ok (if b then js "true" else js "false")
  | VNumber x => Ok (numberToString x)
  | VString s => Ok s
  | VArray xs =>
      (fix join (first : bool) (l : list value) : result jsstring :=
         match l with
         | [] => Ok []
         | x :: l' =>
             sx ← match x with
                  | VUndefined | VNull => Ok []
                  | _ => ToString x
                  end;
             rest ← join false l';
             Ok ((if first then [] else js ",") ++ sx ++ rest)
         end) true xs
  | VObject props =>
      match lookupKey (js "toString") props with
      | Some _ => Throw TypeError
      | None => Ok (js "[object Object]")
      end
  end.

(** [xs.join(sep)]. *)
Fixpoint joinWith (sep : jsstring) (first : bool) (xs : list value) : result jsstring :=
  match xs with
  | [] => Ok []
  | x :: xs' =>
      sx ← match x with
           | VUndefined | VNull => Ok []
           | _ => ToString x
           end;
      rest ← joinWith sep false xs';
      Ok ((if first then [] else sep) ++ sx ++ rest)
  end.

(** The method call [v.toString()]. *)
Definition callToString (v : value) : result jsstring :=
  match v with
  | VUndefined | VNull => Throw TypeError
  | _ => ToString v
  end.

(** ** Nutrition values *)

Definition parseNutrition (v : value) : result number :=
  if negb (truthy v) then Ok posZero else
  s ← callToString v;
  let num := parseFloat (removeOutside (fun c => isDigit c || isDot c) s) in
  Ok (if isNaN num then posZero else parseFloat (toFixed num 2)).

End Values.

(** ** The world of a request

    The two collections of the store, and the calls made so far to the
    generative service and to the two JSON functions, oldest first. *)
Inductive Event :=
| EvGenerate (model prompt : jsstring)
| EvJsonRepair (input : jsstring)
| EvJsonParse (input : jsstring).

Record World := {
  recipes : gmap N Recipe;
  users : gmap N User;
  events : list Event
}.

Definition M (A : Type) : Type := World -> result A * World.

#[global] Instance M_ret : MRet M := fun _ a w => (Ok a, w).
#[global] Instance M_bind : MBind M := fun _ _ k m w =>
  match m w with
  | (Ok a, w') => k a w'
  | (Throw e, w') => (Throw e, w')
  end.

Definition throw {A} (e : exn) : M A := fun w => (Throw e, w).
Definition lift {A} (r : result A) : M A := fun w => (r, w).

(** [try { m } catch (error) { h error }]. *)
Definition tryCatch {A} (m : M A) (h : exn -> M A) : M A := fun w =>
  match m w with
  | (Ok a, w') => (Ok a, w')
  | (Throw e, w') => h e w'
  end.

(** A [try] block whose [catch] leaves the handler: the outcome is
    handed to the code that follows. *)
Definition attempt {A} (m : M A) : M (result A) := fun w =>
  let (r, w') := m w in (Ok r, w').

Definition emit (ev : Event) : M unit := fun w =>
  (Ok tt, {| recipes := recipes w; users := users w; events := events w ++ [ev] |}).

(** ** Requests and responses *)

Inductive ParamId :=
| Malformed            (* not the text of an ObjectId *)
| Oid (n : N).

Record Request := {
  params_id : ParamId;   (* [req.params.id] *)
  body : value;          (* [req.body] *)
  user_id : N            (* [req.user._id], set by the route guard *)
}.

Inductive BodyVal :=
| BText (s : jsstring)
| BMessageOf (e : exn)                 (* [error.message] *)
| BRecipe (r : Recipe)
| BIds (ids : option (list N)).

Record Response := {
  status : Z;
  payload : list (string * BodyVal)
}.

Definition respond (code : Z) (fields : list (string * BodyVal)) : M Response :=
  mret {| status := code; payload := fields |}.

(** ** Field assignment on a Recipe document *)

Definition set_title (v : value) (r : Recipe) : Recipe :=
  {| title := v; description := description r; ingredients := ingredients r;
     instructions := instructions r; portionSize := portionSize r;
     category := category r; difficulty := difficulty r; image := image r;
     ratings := ratings r; averageRating := averageRating r; savedBy := savedBy r;
     nutritionalInfo := nutritionalInfo r; tags := tags r; cuisine := cuisine r |}.

Definition set_description (v : value) (r : Recipe) : Recipe :=
  {| title := title r; description := v; ingredients := ingredients r;
     instructions := instructions r; portionSize := portionSize r;
     category := category r; difficulty := difficulty r; image := image r;
     ratings := ratings r; averageRating := averageRating r; savedBy := savedBy r;
     nutritionalInfo := nutritionalInfo r; tags := tags r; cuisine := cuisine r |}.

Definition set_ingredients (v : value) (r : Recipe) : Recipe :=
  {| title := title r; description := description r; ingredients := v;
     instructions := instructions r; portionSize := portionSize r;
     category := category r; difficulty := difficulty r; image := image r;
     ratings := ratings r; averageRating := averageRating r; savedBy := savedBy r;
     nutritionalInfo := nutritionalInfo r; tags := tags r; cuisine := cuisine r |}.

Definition set_instructions (v : value) (r : Recipe) : Recipe :=
  {| title := title r; description := description r; ingredients := ingredients r;
     instructions := v; portionSize := portionSize r;
     category := category r; difficulty := difficulty r; image := image r;
     ratings := ratings r; averageRating := averageRating r; savedBy := savedBy r;
     nutritionalInfo := nutritionalInfo r; tags := tags r; cuisine := cuisine r |}.

Definition set_portionSize (v : value) (r : Recipe) : Recipe :=
  {| title := title r; description := description r; ingredients := ingredients r;
     instructions := instructions r; portionSize := v;
     category := category r; difficulty := difficulty r; image := image r;
     ratings := ratings r; averageRating := averageRating r; savedBy := savedBy r;
     nutritionalInfo := nutritionalInfo r; tags := tags r; cuisine := cuisine r |}.

Definition set_category (v : value) (r : Recipe) : Recipe :=
  {| title := title r; description := description r; ingredients := ingredients r;
     instructions := instructions r; portionSize := portionSize r;
     category := v; difficulty := difficulty r; image := image r;
     ratings := ratings r; averageRating := averageRating r; savedBy := savedBy r;
     nutritionalInfo := nutritionalInfo r; tags := tags r; cuisine := cuisine r |}.

Definition set_difficulty (v : value) (r : Recipe) : Recipe :=
  {| title := title r; description := description r; ingredients := ingredients r;
     instructions := instructions r; portionSize := portionSize r;
     category := category r; difficulty := v; image := image r;
     ratings := ratings r; averageRating := averageRating r; savedBy := savedBy r;
     nutritionalInfo := nutritionalInfo r; tags := tags r; cuisine := cuisine r |}.

Definition set_image (v : value) (r : Recipe) : Recipe :=
  {| title := title r; description := description r; ingredients := ingredients r;
     instructions := instructions r; portionSize := portionSize r;
     category := category r; difficulty := difficulty r; image := v;
     ratings := ratings r; averageRating := averageRating r; savedBy := savedBy r;
     nutritionalInfo := nutritionalInfo r; tags := tags r; cuisine := cuisine r |}.

Definition set_nutritionalInfo (v : value) (r : Recipe) : Recipe :=
  {| title := title r; description := description r; ingredients := ingredients r;
     instructions := instructions r; portionSize := portionSize r;
     category := category r; difficulty := difficulty r; image := image r;
     ratings := ratings r; averageRating := averageRating r; savedBy := savedBy r;
     nutritionalInfo := v; tags := tags r; cuisine := cuisine r |}.

Definition set_savedBy (l : list N) (r : Recipe) : Recipe :=
  {| title := title r; description := description r; ingredients := ingredients r;
     instructions := instructions r; portionSize := portionSize r;
     category := category r; difficulty := difficulty r; image := image r;
     ratings := ratings r; averageRating := averageRating r; savedBy := l;
     nutritionalInfo := nutritionalInfo r; tags := tags r; cuisine := cuisine r |}.

Definition set_savedRecipes (l : option (list N)) (u : User) : User :=
  {| savedRecipes := l; account := account u |}.

(** [if (v) r.field = v]. *)
Definition assignIf (v : value) (set : value -> Recipe -> Recipe) (r : Recipe) : Recipe :=
  if truthy v then set v r else r.

Definition isArray (v : value) : bool :=
  match v with VArray _ => true | _ => false end.

Definition defaultImage : jsstring :=
  js "https://res.cloudinary.com/duxeqhtxe/image/upload/v1756270305/1cee65777195641ae9c270cd3970346b_ehwhce.jpg".

(** ** Text helpers of the controller *)

(** [s.replace(/```json|```/g, "")]: at each position the longer fence
    is tried first; [skip] counts the code units of a fence still to
    drop. *)
Fixpoint stripFencesFrom (skip : nat) (s : jsstring) : jsstring :=
  match s with
  | [] => []
  | c :: s' =>
      match skip with
      | S k => stripFencesFrom k s'
      | O =>
          if startsWith (js "```json") s then stripFencesFrom 6 s'
          else if startsWith (js "```") s then stripFencesFrom 2 s'
          else c :: stripFencesFrom 0 s'
      end
  end.

Definition stripFences (s : jsstring) : jsstring := stripFencesFrom 0 s.

Fixpoint takeWhile (p : N -> bool) (s : jsstring) : jsstring :=
  match s with
  | [] => []
  | c :: s' => if p c then c :: takeWhile p s' else []
  end.

(** [s.replace(/,\s*X/g, "X")] for a closing bracket [X]. *)
Fixpoint dropCommaBefore (close : N) (skip : nat) (s : jsstring) : jsstring :=
  match s with
  | [] => []
  | c :: s' =>
      match skip with
      | S k => dropCommaBefore close k s'
      | O =>
          if c =? 44 then
            let ws := length (takeWhile isSpace s') in
            match drop ws s' with
            | d :: _ =>
                if d =? close then close :: dropCommaBefore close (S ws) s'
                else c :: dropCommaBefore close 0 s'
            | [] => c :: dropCommaBefore close 0 s'
            end
          else c :: dropCommaBefore close 0 s'
      end
  end.

Definition quoted (s : string) : jsstring := dquote ++ js s ++ dquote.

Section Handlers.
Context `{Runtime}.

(** ** The store *)

Definition Recipe_findById (id : ParamId) : M (option Recipe) := fun w =>
  match id with
  | Malformed => (Throw CastError, w)
  | Oid n => (Ok (recipes w !! n), w)
  end.

Definition User_findById (n : N) : M (option User) := fun w =>
  (Ok (users w !! n), w).

(** [recipe.save()] on a document loaded under the identifier [n]. *)
Definition Recipe_save (n : N) (r : Recipe) : M unit := fun w =>
  if recipeSaveOk r
  then (Ok tt, {| recipes := <[n := r]> (recipes w); users := users w;
                  events := events w |})
  else (Throw SaveError, w).

Definition User_save (n : N) (u : User) : M unit := fun w =>
  if userSaveOk u
  then (Ok tt, {| recipes := recipes w; users := <[n := u]> (users w);
                  events := events w |})
  else (Throw SaveError, w).

(** [save()] of a document made by [new Recipe]: it enters the
    collection under an identifier not in use. *)
Definition Recipe_create (r : Recipe) : M unit := fun w =>
  Recipe_save (fresh (dom (recipes w))) r w.

(** ** The generative client *)

Definition callModel (model prompt : jsstring) : M AiResponse :=
  emit (EvGenerate model prompt);; lift (generateContent model prompt).

(** ** JSON from the model's text *)

(** The inner [try] of [createRecipe]. *)
Definition repairAndParse (cleanText : jsstring) : M value :=
  emit (EvJsonRepair cleanText);;
  repaired ← lift (jsonrepair cleanText);
  emit (EvJsonParse repaired);;
  lift (JSON_parse repaired).

Definition parseLogged (s : jsstring) : M value :=
  emit (EvJsonParse s);; lift (JSON_parse s).

(** [safeJsonParse], which no handler calls. *)
Definition safeJsonParse (str : jsstring) : M value :=
  tryCatch (parseLogged str)
    (fun _ =>
       let repaired := dropCommaBefore 93 0 (dropCommaBefore 125 0 str) in
       parseLogged repaired).

(** The parsing step in the words of the specification: a strict parse
    first; only when it fails, one repair pass and one more parse. *)
Definition strictThenRepair (cleanText : jsstring) : M value :=
  tryCatch (parseLogged cleanText) (fun _ => repairAndParse cleanText).

(** ** createRecipe *)

Definition arrayJoin (v : value) (sep : jsstring) : result jsstring :=
  match v with
  | VArray xs => joinWith sep true xs
  | _ => Throw TypeError
  end.

Definition recipePrompt (portionSize category difficulty ingredients : value)
  : result jsstring :=
  p ← ToString portionSize;
  c ← ToString category;
  d ← ToString difficulty;
  i ← arrayJoin ingredients (js ", ");
  let ind := js "      " in
  let line (s : jsstring) := ind ++ s ++ newline in
  let field (k : string) (v : jsstring) (last : bool) :=
    ind ++ js "  " ++ quoted k ++ js ": " ++ v
    ++ (if last then [] else js ",") ++ newline in
  Ok (newline
      ++ line (js "Generate a detailed recipe with the following details:")
      ++ line (js "- Portion size: " ++ p)
      ++ line (js "- Category: " ++ c)
      ++ line (js "- Difficulty: " ++ d)
      ++ line (js "- Ingredients: " ++ i)
      ++ newline
      ++ line (js "Format the response as **valid JSON** only, including nested nutritionalInfo object:")
      ++ line (js "{")
      ++ field "title" (quoted "Recipe title") false
      ++ field "description"
           (js "[" ++ quoted "bullet point 1" ++ js ", " ++ quoted "bullet point 2" ++ js "]")
           false
      ++ field "ingredients"
           (js "[{ " ++ quoted "item" ++ js ": " ++ quoted "x" ++ js ", "
            ++ quoted "amount" ++ js ": " ++ quoted "y" ++ js ", "
            ++ quoted "unit" ++ js ": " ++ quoted "z" ++ js " }]")
           false
      ++ field "instructions"
           (js "[" ++ quoted "step 1" ++ js ", " ++ quoted "step 2" ++ js ", "
            ++ quoted "step 3" ++ js "]")
           false
      ++ field "nutritionalInfo"
           (js "{ " ++ quoted "calories" ++ js ": 0, " ++ quoted "protein" ++ js ": 0, "
            ++ quoted "fat" ++ js ": 0, " ++ quoted "carbs" ++ js ": 0 }")
           true
      ++ line (js "}")
      ++ js "    ").

(** One entry of [parsedRecipe.ingredients]: a string is kept, anything
    else is laid out as amount, unit and item. *)
Definition formatIngredient (i : value) : result value :=
  match i with
  | VString _ => Ok i
  | _ =>
      amount ← getProp i "amount";
      a ← ToString (if truthy amount then amount else VString []);
      unit ← getProp i "unit";
      u ← ToString (if truthy unit then unit else VString []);
      item ← getProp i "item";
      it ← ToString item;
      Ok (VString (a ++ js " " ++ u ++ js " " ++ it))
  end.

Fixpoint mapResult {A B} (f : A -> result B) (l : list A) : result (list B) :=
  match l with
  | [] => Ok []
  | x :: l' => y ← f x; ys ← mapResult f l'; Ok (y :: ys)
  end.

Definition arrayMap (v : value) (f : value -> result value) : result value :=
  match v with
  | VArray xs => xs' ← mapResult f xs; Ok (VArray xs')
  | _ => Throw TypeError
  end.

Definition nutritionField (parsedRecipe : value) (k : string) : result value :=
  info ← getProp parsedRecipe "nutritionalInfo";
  raw ← getPropOpt info k;
  x ← parseNutrition raw;
  Ok (VNumber x).

(** The casts of the Recipe schema.  A path of type String keeps
    [undefined], [null] and strings, takes the text of a number or a
    boolean, and takes the [_id] of an object whose [_id] is a string
    that is not empty; arrays and other objects cannot be cast.  A
    cast that fails is recorded in the document and makes [save]
    reject it: it shows as the error of [save]. *)
Definition castString (v : value) : result value :=
  match v with
  | VUndefined | VNull | VString _ => Ok v
  | VNumber x => Ok (VString (numberToString x))
  | VBool b => Ok (VString (if b then js "true" else js "false"))
  | VArray _ => Throw SaveError
  | VObject props =>
      match lookupKey (js "_id") props with
      | Some (VString (c :: id)) => Ok (VString (c :: id))
      | _ => Throw SaveError
      end
  end.

(** A path of type [String]: its default is the empty array, which
    stays when the constructor is given [undefined]; [null] is kept; the
    entries of an array are cast one by one; any other value is cast
    and put into an array of its own. *)
Definition castStringArray (v : value) : result value :=
  match v with
  | VUndefined => Ok (VArray [])
  | VNull => Ok VNull
  | VArray xs => xs' ← mapResult castString xs; Ok (VArray xs')
  | _ => x ← castString v; Ok (VArray [x])
  end.

(** A document with the given fields and the defaults of the schema
    for the others. *)
Definition recipeDocument (title description ingredients instructions portionSize
                           category difficulty nutritionalInfo : value) : Recipe :=
  {| title := title; description := description; ingredients := ingredients;
     instructions := instructions; portionSize := portionSize;
     category := category; difficulty := difficulty;
     image := VString defaultImage;
     ratings := VArray []; averageRating := VNumber posZero; savedBy := [];
     nutritionalInfo := nutritionalInfo; tags := VArray []; cuisine := VUndefined |}.

(** [new Recipe({...})]: each given field cast to the type the schema
    declares for it ([title], [portionSize], [difficulty]: String;
    [description], [ingredients], [instructions], [category]:
    [String]), the defaults of the schema for the others.  The
    nutrition values that the controller passes are Numbers, which the
    schema keeps as they are. *)
Definition newRecipe (title description ingredients instructions portionSize
                      category difficulty nutritionalInfo : value) : result Recipe :=
  title ← castString title;
  description ← castStringArray description;
  ingredients ← castStringArray ingredients;
  instructions ← castStringArray instructions;
  portionSize ← castString portionSize;
  category ← castStringArray category;
  difficulty ← castString difficulty;
  Ok (recipeDocument title description ingredients instructions portionSize
        category difficulty nutritionalInfo).

(** Lines 91 to 115 of the controller: the document built from the
    parsed answer and the request. *)
Definition assembleRecipe (parsedRecipe portionSize category difficulty : value)
  : result Recipe :=
  rawIngredients ← getProp parsedRecipe "ingredients";
  formattedIngredients ← arrayMap rawIngredients formatIngredient;
  title ← getProp parsedRecipe "title";
  description ← getProp parsedRecipe "description";
  instructions ← getProp parsedRecipe "instructions";
  tag ← normalizeCategory category;
  calories ← nutritionField parsedRecipe "calories";
  protein ← nutritionField parsedRecipe "protein";
  fat ← nutritionField parsedRecipe "fat";
  carbs ← nutritionField parsedRecipe "carbs";
  newRecipe title description formattedIngredients instructions
    portionSize (VString tag) difficulty
    (VObject [(js "calories", calories); (js "protein", protein);
              (js "fat", fat); (js "carbs", carbs)]).

Definition keyMissing (apiKey : option jsstring) : bool :=
  match apiKey with
  | None | Some [] => true
  | Some _ => false
  end.

Definition createRecipe (env : gmap string jsstring) (req : Request) : M Response :=
  let apiKey := env !! "GOOGLE_API_KEY"%string in
  if keyMissing apiKey
  then respond 500 [("error"%string, BText (js "GOOGLE_API_KEY not found"))]
  else
  tryCatch
    (ingredients ← lift (getProp (body req) "ingredients");
     portionSize ← lift (getProp (body req) "portionSize");
     category ← lift (getProp (body req) "category");
     difficulty ← lift (getProp (body req) "difficulty");
     prompt ← lift (recipePrompt portionSize category difficulty ingredients);
     result ← callModel (js "gemini-1.5-flash") prompt;
     aiText ← lift (responseText result);
     let cleanText := trim (stripFences aiText) in
     parsed ← attempt (repairAndParse cleanText);
     match parsed with
     | Throw err =>
         respond 500 [("error"%string, BText (js "AI response JSON invalid"));
                      ("raw"%string, BText aiText)]
     | Ok parsedRecipe =>
         recipe ← lift (assembleRecipe parsedRecipe portionSize category difficulty);
         Recipe_create recipe;;
         respond 201 [("message"%string, BText (js "Recipe created successfully"));
                      ("recipe"%string, BRecipe recipe)]
     end)
    (fun error =>
       respond 500 [("error"%string, BText (js "Failed to generate recipe"));
                    ("details"%string, BMessageOf error)]).

(** ** updateRecipe *)

(** Lines 171 to 181 of the controller. *)
Definition applyUpdates (title description ingredients instructions portionSize
                         category difficulty nutritionalInfo image : value)
                        (recipe : Recipe) : Recipe :=
  let recipe := assignIf title set_title recipe in
  let recipe := assignIf description set_description recipe in
  let recipe := assignIf ingredients set_ingredients recipe in
  let recipe := assignIf instructions set_instructions recipe in
  let recipe := assignIf portionSize set_portionSize recipe in
  let recipe :=
    if truthy category
    then set_category (if isArray category then category
                       else VArray [category]) recipe
    else recipe in
  let recipe := assignIf difficulty set_difficulty recipe in
  let recipe := assignIf nutritionalInfo set_nutritionalInfo recipe in
  let recipe := assignIf image set_image recipe in
  recipe.

Definition updateRecipe (req : Request) : M Response :=
  tryCatch
    (let id := params_id req in
     title ← lift (getProp (body req) "title");
     description ← lift (getProp (body req) "description");
     ingredients ← lift (getProp (body req) "ingredients");
     instructions ← lift (getProp (body req) "instructions");
     portionSize ← lift (getProp (body req) "portionSize");
     category ← lift (getProp (body req) "category");
     difficulty ← lift (getProp (body req) "difficulty");
     nutritionalInfo ← lift (getProp (body req) "nutritionalInfo");
     image ← lift (getProp (body req) "image");
     found ← Recipe_findById id;
     match found, id with
     | Some recipe, Oid n =>
         let recipe :=
           applyUpdates title description ingredients instructions portionSize
             category difficulty nutritionalInfo image recipe in
         Recipe_save n recipe;;
         respond 200 [("message"%string, BText (js "Recipe updated successfully"));
                      ("recipe"%string, BRecipe recipe)]
     | _, _ =>
         respond 404 [("message"%string, BText (js "Recipe not found"))]
     end)
    (fun error =>
       respond 500 [("message"%string, BText (js "Failed to update recipe"));
                    ("error"%string, BMessageOf error)]).

(** ** saveRecipe *)

Definition saveRecipe (req : Request) : M Response :=
  tryCatch
    (let recipeId := params_id req in
     let userId := user_id req in
     found ← Recipe_findById recipeId;
     match found, recipeId with
     | Some recipe, Oid rid =>
         user ← User_findById userId;
         match user with
         | None => throw TypeError        (* [user] is null *)
         | Some user =>
             let user :=
               match savedRecipes user with
               | None => set_savedRecipes (Some []) user
               | Some _ => user
               end in
             let saved := default [] (savedRecipes user) in
             user ← (if negb (includes saved rid)
                     then let user := set_savedRecipes (Some (saved ++ [rid])) user in
                          User_save userId user;; mret user
                     else mret user);
             recipe ← (if negb (includes (savedBy recipe) userId)
                       then let recipe := set_savedBy (savedBy recipe ++ [userId]) recipe in
                            Recipe_save rid recipe;; mret recipe
                       else mret recipe);
             respond 200 [("message"%string, BText (js "Recipe saved successfully"));
                          ("savedRecipes"%string, BIds (savedRecipes user))]
         end
     | _, _ =>
         respond 404 [("error"%string, BText (js "Recipe not found"))]
     end)
    (fun error =>
       respond 500 [("message"%string, BText (js "Failed to save recipe"));
                    ("error"%string, BMessageOf error)]).

(** ** generateRecipeImage *)

(** The two nested loops over candidates and parts: every part with
    inline data assigns [imageBase64]. *)
Definition scanParts (imageBase64 : option jsstring) (ps : list Part) : option jsstring :=
  fold_left (fun acc part =>
               match inlineData part with
               | Some d => Some (data d)
               | None => acc
               end) ps imageBase64.

Definition scanCandidates (cs : list Candidate) : option jsstring :=
  fold_left (fun acc candidate => scanParts acc (parts candidate)) cs None.

Definition imagePrompt (title : value) : result jsstring :=
  t ← ToString title;
  Ok (js "Create a professional, restaurant-quality food photo of the dish: "
      ++ t ++ js "." ++ newline
      ++ js "    Style: realistic, appetizing, high resolution, well-lit.").

Definition generateRecipeImage (env : gmap string jsstring) (req : Request) : M Response :=
  let apiKey := env !! "GOOGLE_API_KEY"%string in
  if keyMissing apiKey
  then respond 500 [("error"%string, BText (js "GOOGLE_API_KEY not found"))]
  else
  tryCatch
    (let id := params_id req in
     found ← Recipe_findById id;
     match found, id with
     | Some recipe, Oid n =>
         prompt ← lift (imagePrompt (title recipe));
         response ← callModel (js "gemini-2.5-flash-image-preview") prompt;
         match candidates response with
         | None => throw TypeError       (* [candidates] is not iterable *)
         | Some cs =>
             match scanCandidates cs with
             | None | Some [] =>
                 respond 500 [("message"%string, BText (js "No image returned by AI"))]
             | Some imageBase64 =>
                 let base64Url := js "data:image/png;base64," ++ imageBase64 in
                 let recipe := set_image (VString base64Url) recipe in
                 Recipe_save n recipe;;
                 respond 200 [("message"%string, BText (js "Image generated successfully"));
                              ("recipe"%string, BRecipe recipe)]
             end
         end
     | _, _ =>
         respond 404 [("message"%string, BText (js "Recipe not found"))]
     end)
    (fun error =>
       respond 500 [("message"%string, BText (js "Failed to generate recipe image"));
                    ("error"%string, BMessageOf error)]).

End Handlers.

(** ** The handlers that read, and deletion

    [getAllRecipes], [getRecipeById] and [getSavedRecipes] send arrays
    of documents and, in one [catch], the caught error itself; their
    answers are of the wider type [Reply]. *)

Inductive ReplyVal :=
| RVal (b : BodyVal)
| RDocs (docs : list (N * Recipe))   (* documents, each with its [_id] *)
| RError (e : exn).                  (* [error], not [error.message] *)

Record Reply := {
  replyStatus : Z;
  replyPayload : list (string * ReplyVal)
}.

Definition reply (code : Z) (fields : list (string * ReplyVal)) : M Reply :=
  mret {| replyStatus := code; replyPayload := fields |}.

(** [Recipe.find(filter)]: the stored documents that pass the filter.
    The store does not promise an order; the one of the map is used. *)
Definition Recipe_find (keep : Recipe -> bool) : M (list (N * Recipe)) := fun w =>
  (Ok (List.filter (fun doc => keep (snd doc)) (map_to_list (recipes w))), w).

Definition Recipe_findByIdAndDelete (id : ParamId) : M unit := fun w =>
  match id with
  | Malformed => (Throw CastError, w)
  | Oid n => (Ok tt, {| recipes := delete n (recipes w); users := users w;
                        events := events w |})
  end.

Definition getAllRecipes (req : Request) : M Reply :=
  tryCatch
    (recipes ← Recipe_find (fun _ => true);
     reply 200 [("message"%string, RVal (BText (js "Here are the recipes")));
                ("recipes"%string, RDocs recipes)])
    (fun error =>
       reply 400 [("message"%string, RVal (BText (js "Error in finding recipes")));
                  ("error"%string, RError error)]).

Definition getRecipeById (req : Request) : M Reply :=
  tryCatch
    (let id := params_id req in
     found ← Recipe_findById id;
     match found with
     | None =>
         reply 404 [("message"%string, RVal (BText (js "Recipe not found")))]
     | Some recipe =>
         reply 200 [("message"%string, RVal (BText (js "Here is the recipe")));
                    ("recipe"%string, RVal (BRecipe recipe))]
     end)
    (fun error =>
       reply 400 [("message"%string, RVal (BText (js "Error in finding recipe")));
                  ("error"%string, RError error)]).

Definition deleteRecipe (req : Request) : M Response :=
  tryCatch
    (let id := params_id req in
     found ← Recipe_findById id;
     match found with
     | None =>
         respond 404 [("message"%string, BText (js "Recipe not found"))]
     | Some recipe =>
         Recipe_findByIdAndDelete id;;
         respond 200 [("message"%string, BText (js "Recipe deleted successfully"))]
     end)
    (fun error =>
       respond 500 [("message"%string, BText (js "Failed to delete recipe"));
                    ("error"%string, BMessageOf error)]).

(** [Recipe.find({ savedBy: userId })] matches the documents whose
    [savedBy] array holds [userId]. *)
Definition getSavedRecipes (req : Request) : M Reply :=
  tryCatch
    (let userId := user_id req in
     savedRecipes ← Recipe_find (fun r => includes (savedBy r) userId);
     reply 200 [("message"%string, RVal (BText (js "Here are your saved recipes")));
                ("recipes"%string, RDocs savedRecipes)])
    (fun error =>
       reply 500 [("message"%string, RVal (BText (js "Failed to fetch saved recipes")));
                  ("error"%string, RVal (BMessageOf error))]).

(** ** The routes

    The table of [src/routes/recipe.route.js], in the order of
    registration.  A path is given by its segments, the text between
    the slashes after the mount point; [:id] stands for one segment
    that is not empty.  Express tries the routes in this order and
    hands the request to the first one whose method and path match;
    no handler of this table passes the request on.  Fixed segments are
    compared without regard to the case of ASCII letters. *)

Inductive Method := GET | POST | PUT | DELETE.

Inductive Handler :=
| HGetAllRecipes | HGetSavedRecipes | HGetRecipeById | HCreateRecipe
| HUpdateRecipe | HDeleteRecipe | HSaveRecipe | HGenerateRecipeImage.

Inductive Segment :=
| Fixed (s : string)
| IdParam.

Record Route := {
  routeMethod : Method;
  routePath : list Segment;
  protectRoute : bool;        (* the guard runs before the handler *)
  routeHandler : Handler
}.

Definition router : list Route :=
  [ {| routeMethod := GET; routePath := [];
       protectRoute := false; routeHandler := HGetAllRecipes |};
    {| routeMethod := GET; routePath := [Fixed "recipe-saved"];
       protectRoute := true; routeHandler := HGetSavedRecipes |};
    {| routeMethod := GET; routePath := [IdParam];
       protectRoute := false; routeHandler := HGetRecipeById |};
    {| routeMethod := POST; routePath := [];
       protectRoute := false; routeHandler := HCreateRecipe |};
    {| routeMethod := PUT; routePath := [IdParam];
       protectRoute := false; routeHandler := HUpdateRecipe |};
    {| routeMethod := DELETE; routePath := [IdParam];
       protectRoute := false; routeHandler := HDeleteRecipe |};
    {| routeMethod := POST; routePath := [IdParam; Fixed "save"];
       protectRoute := true; routeHandler := HSaveRecipe |};
    {| routeMethod := POST; routePath := [IdParam; Fixed "generate-image"];
       protectRoute := false; routeHandler := HGenerateRecipeImage |} ].

#[global] Instance Method_eq_dec : EqDecision Method.
Proof. solve_decision. Defined.

Definition foldCase (c : N) : N :=
  if (65 <=? c) && (c <=? 90) then c + 32 else c.

Definition sameIgnoringCase (a b : jsstring) : bool :=
  bool_decide (map foldCase a = map foldCase b).

(** Whether the path fits the pattern, and the segment that [:id]
    captured. *)
Fixpoint matchPath (pattern : list Segment) (path : list jsstring)
  : option (option jsstring) :=
  match pattern, path with
  | [], [] => Some None
  | Fixed s :: pattern', seg :: path' =>
      if sameIgnoringCase (js s) seg then matchPath pattern' path' else None
  | IdParam :: pattern', seg :: path' =>
      match seg, matchPath pattern' path' with
      | _ :: _, Some _ => Some (Some seg)
      | _, _ => None
      end
  | _, _ => None
  end.

Fixpoint firstMatch (routes : list Route) (m : Method) (path : list jsstring)
  : option (Route * option jsstring) :=
  match routes with
  | [] => None
  | r :: routes' =>
      if bool_decide (routeMethod r = m) then
        match matchPath (routePath r) path with
        | Some id => Some (r, id)
        | None => firstMatch routes' m path
        end
      else firstMatch routes' m path
  end.

Definition dispatch (m : Method) (path : list jsstring)
  : option (Route * option jsstring) :=
  firstMatch router m path.

(** ** Vocabulary of the statements *)

Definition nullish (v : value) : bool :=
  match v with VUndefined | VNull => true | _ => false end.

(** The property read that destructuring performs on a body that is
    neither [undefined] nor [null]. *)
Definition field (v : value) (k : string) : value :=
  match v with
  | VObject props => default VUndefined (lookupKey (js k) props)
  | _ => VUndefined
  end.

Definition withEvents (w : World) (evs : list Event) : World :=
  {| recipes := recipes w; users := users w; events := events w ++ evs |}.

Definition isGenerate (ev : Event) : bool :=
  match ev with EvGenerate _ _ => true | _ => false end.

Definition generateCalls (w : World) : list Event :=
  List.filter isGenerate (events w).

(** The outcome of the inner [try] of [createRecipe], without its log. *)
Definition repairParseResult `{Runtime} (cleanText : jsstring) : result value :=
  repaired ← jsonrepair cleanText; JSON_parse repaired.

Definition keyNotFound : Response :=
  {| status := 500;
     payload := [("error"%string, BText (js "GOOGLE_API_KEY not found"))] |}.

Definition invalidJson (aiText : jsstring) : Response :=
  {| status := 500;
     payload := [("error"%string, BText (js "AI response JSON invalid"));
                 ("raw"%string, BText aiText)] |}.

(** The calls that the parsing step of [createRecipe] adds to the log. *)
Definition parseStageEvents `{Runtime} (cleanText : jsstring) : list Event :=
  EvJsonRepair cleanText ::
  match jsonrepair cleanText with
  | Ok repaired => [EvJsonParse repaired]
  | Throw _ => []
  end.

(** The base64 payloads of the inline images of a response, in the
    order of the candidates and of their parts. *)
Definition partPayloads (ps : list Part) : list jsstring :=
  omap (fun p => data <$> inlineData p) ps.

Definition inlinePayloads (cs : list Candidate) : list jsstring :=
  flat_map (fun c => partPayloads (parts c)) cs.

Definition recipeNotFound : Response :=
  {| status := 404; payload := [("message"%string, BText (js "Recipe not found"))] |}.

Definition noImageReturned : Response :=
  {| status := 500;
     payload := [("message"%string, BText (js "No image returned by AI"))] |}.

Definition imageFailed (e : exn) : Response :=
  {| status := 500;
     payload := [("message"%string, BText (js "Failed to generate recipe image"));
                 ("error"%string, BMessageOf e)] |}.

Definition imageGenerated (r : Recipe) : Response :=
  {| status := 200;
     payload := [("message"%string, BText (js "Image generated successfully"));
                 ("recipe"%string, BRecipe r)] |}.

Definition dataUri (imageBase64 : jsstring) : value :=
  VString (js "data:image/png;base64," ++ imageBase64).

Definition withRecipe (w : World) (n : N) (r : Recipe) : World :=
  {| recipes := <[n := r]> (recipes w); users := users w; events := events w |}.

Definition withUser (w : World) (n : N) (u : User) : World :=
  {| recipes := recipes w; users := <[n := u]> (users w); events := events w |}.

(** The nine fields that [updateRecipe] may assign. *)
Inductive FieldName :=
| FTitle | FDescription | FIngredients | FInstructions | FPortionSize
| FCategory | FDifficulty | FNutritionalInfo | FImage.

Definition fieldKey (f : FieldName) : string :=
  match f with
  | FTitle => "title" | FDescription => "description"
  | FIngredients => "ingredients" | FInstructions => "instructions"
  | FPortionSize => "portionSize" | FCategory => "category"
  | FDifficulty => "difficulty" | FNutritionalInfo => "nutritionalInfo"
  | FImage => "image"
  end.

Definition getField (f : FieldName) (r : Recipe) : value :=
  match f with
  | FTitle => title r | FDescription => description r
  | FIngredients => ingredients r | FInstructions => instructions r
  | FPortionSize => portionSize r | FCategory => category r
  | FDifficulty => difficulty r | FNutritionalInfo => nutritionalInfo r
  | FImage => image r
  end.

(** The document that [updateRecipe] saves for a request body. *)
Definition patched (b : value) (r : Recipe) : Recipe :=
  applyUpdates (field b "title") (field b "description") (field b "ingredients")
    (field b "instructions") (field b "portionSize") (field b "category")
    (field b "difficulty") (field b "nutritionalInfo") (field b "image") r.

Definition recipeUpdated (r : Recipe) : Response :=
  {| status := 200;
     payload := [("message"%string, BText (js "Recipe updated successfully"));
                 ("recipe"%string, BRecipe r)] |}.

Definition updateFailed (e : exn) : Response :=
  {| status := 500;
     payload := [("message"%string, BText (js "Failed to update recipe"));
                 ("error"%string, BMessageOf e)] |}.

(** What a truthy value of the body becomes in the document: the
    category is wrapped into an array unless it is one already. *)
Definition assignedValue (f : FieldName) (v : value) : value :=
  match f with
  | FCategory => if isArray v then v else VArray [v]
  | _ => v
  end.

Definition setField (f : FieldName) : value -> Recipe -> Recipe :=
  match f with
  | FTitle => set_title | FDescription => set_description
  | FIngredients => set_ingredients | FInstructions => set_instructions
  | FPortionSize => set_portionSize | FCategory => set_category
  | FDifficulty => set_difficulty | FNutritionalInfo => set_nutritionalInfo
  | FImage => set_image
  end.

#[global] Instance FieldName_eq_dec : EqDecision FieldName.
Proof. solve_decision. Defined.

(** The fields of a Recipe that [updateRecipe] never assigns. *)
Definition otherFields (r : Recipe) : value * value * list N * value * value :=
  (ratings r, averageRating r, savedBy r, tags r, cuisine r).

(** One line of [applyUpdates], for the field [f] and the body [b]. *)
Definition fieldLayer (b : value) (f : FieldName) (r : Recipe) : Recipe :=
  if truthy (field b (fieldKey f))
  then setField f (assignedValue f (field b (fieldKey f))) r
  else r.

(** The saved recipes of a user, none when the field is missing. *)
Definition savedOf (u : User) : list N := default [] (savedRecipes u).

(** How often recipe [rid] occurs in the saved recipes of user [uid],
    and user [uid] in [savedBy] of recipe [rid]. *)
Definition timesSaved (w : World) (uid rid : N) : nat :=
  match users w !! uid with
  | Some u => count_occ N.eq_dec (savedOf u) rid
  | None => 0%nat
  end.

Definition timesSavedBy (w : World) (rid uid : N) : nat :=
  match recipes w !! rid with
  | Some r => count_occ N.eq_dec (savedBy r) uid
  | None => 0%nat
  end.

(** Both directions of the relation hold for the pair. *)
Definition linked (w : World) (uid rid : N) : Prop :=
  exists u r, users w !! uid = Some u /\ recipes w !! rid = Some r
              /\ rid ∈ savedOf u /\ uid ∈ savedBy r.

(** Only the user's side holds. *)
Definition halfLinked (w : World) (uid rid : N) : Prop :=
  exists u r, users w !! uid = Some u /\ recipes w !! rid = Some r
              /\ rid ∈ savedOf u /\ uid ∉ savedBy r.

(** The relation between [savedRecipes] and [savedBy] over the whole
    store: for every stored user and stored recipe, one side holds
    exactly when the other does. *)
Definition consistent (w : World) : Prop :=
  forall uid u rid r,
    users w !! uid = Some u -> recipes w !! rid = Some r ->
    (rid ∈ savedOf u <-> uid ∈ savedBy r).

(** Every list of saved recipes and every [savedBy] list of the store
    is free of duplicates. *)
Definition duplicateFree (w : World) : Prop :=
  (forall uid u, users w !! uid = Some u -> NoDup (savedOf u))
  /\ (forall rid r, recipes w !! rid = Some r -> NoDup (savedBy r)).

Definition recipeSaved (u : User) : Response :=
  {| status := 200;
     payload := [("message"%string, BText (js "Recipe saved successfully"));
                 ("savedRecipes"%string, BIds (savedRecipes u))] |}.

Definition saveFailed (e : exn) : Response :=
  {| status := 500;
     payload := [("message"%string, BText (js "Failed to save recipe"));
                 ("error"%string, BMessageOf e)] |}.

Definition saveNotFound : Response :=
  {| status := 404; payload := [("error"%string, BText (js "Recipe not found"))] |}.

(** The two documents that [saveRecipe] writes. *)
Definition userWithSaved (u : User) (rid : N) : User :=
  set_savedRecipes (Some (savedOf u ++ [rid])) u.

Definition recipeWithSaver (r : Recipe) (uid : N) : Recipe :=
  set_savedBy (savedBy r ++ [uid]) r.

(** The user document as the handler holds it when nothing is pushed. *)
Definition userInitialised (u : User) : User :=
  match savedRecipes u with
  | None => set_savedRecipes (Some []) u
  | Some _ => u
  end.

(** [l.includes(x) || l.push(x)]: the list after the guarded push. *)
Definition pushUnlessIncluded (l : list N) (x : N) : list N :=
  if includes l x then l else l ++ [x].

(** A Number that is not NaN and has a clear sign bit: +0, a positive
    finite number or +Infinity. *)
Definition isNonNegative (x : number) : bool :=
  match x with
  | S754_zero false | S754_finite false _ _ | S754_infinity false => true
  | _ => false
  end.

Definition isFinite (x : number) : bool :=
  match x with
  | S754_zero _ | S754_finite _ _ _ => true
  | _ => false
  end.

(** A finite Number that is the binary64 value of a decimal numeral
    with two digits after the point, [n / 100]. *)
Definition twoDecimals (x : number) : Prop :=
  isFinite x = true /\ exists n : N, x = roundQ (Z.of_N n # 100).

(** The characters that [parseNutrition] keeps. *)
Definition digitsAndDots (s : jsstring) : jsstring :=
  removeOutside (fun c => isDigit c || isDot c) s.

(** What is used of Number::toString in [toFixed]: from 10^21 on, the
    digits printed for a number read back as the Number of an integer
    (the notation is [d.ddde+NN] with fewer digits than the exponent). *)
Definition bigPrintsInteger `{Runtime} : Prop :=
  forall m e, atLeast1e21 m e = true ->
    exists V : N, parseFloat (digitsOfFinite m e) = roundQ (Z.of_N V # 1).

(** The values that are not arrays or objects. *)
Definition isPrimitive (v : value) : bool :=
  match v with VArray _ | VObject _ => false | _ => true end.

(** What the specification asks of a stored nutrition value: a
    non-negative number rounded to 2 decimals. *)
Definition storable (x : number) : Prop :=
  isNonNegative x = true /\ twoDecimals x.

(** What [parseNutrition] gives: such a number, or +Infinity. *)
Definition nutritionNumber (x : number) : Prop :=
  storable x \/ x = S754_infinity false.

(** The value that the parsed answer of the model supplies for the
    nutrition field [k]: [parsedRecipe.nutritionalInfo?.k]. *)
Definition suppliedNutrition (parsedRecipe : value) (k : string) : value :=
  if nullish (field parsedRecipe "nutritionalInfo") then VUndefined
  else field (field parsedRecipe "nutritionalInfo") k.

(** ** Vocabulary for the other handlers *)

Definition createFailed (e : exn) : Response :=
  {| status := 500;
     payload := [("error"%string, BText (js "Failed to generate recipe"));
                 ("details"%string, BMessageOf e)] |}.

Definition recipeCreated (r : Recipe) : Response :=
  {| status := 201;
     payload := [("message"%string, BText (js "Recipe created successfully"));
                 ("recipe"%string, BRecipe r)] |}.

Definition recipeFound (r : Recipe) : Reply :=
  {| replyStatus := 200;
     replyPayload := [("message"%string, RVal (BText (js "Here is the recipe")));
                      ("recipe"%string, RVal (BRecipe r))] |}.

Definition recipeMissing : Reply :=
  {| replyStatus := 404;
     replyPayload := [("message"%string, RVal (BText (js "Recipe not found")))] |}.

Definition findFailed (e : exn) : Reply :=
  {| replyStatus := 400;
     replyPayload := [("message"%string, RVal (BText (js "Error in finding recipe")));
                      ("error"%string, RError e)] |}.

Definition recipesListed (docs : list (N * Recipe)) : Reply :=
  {| replyStatus := 200;
     replyPayload := [("message"%string, RVal (BText (js "Here are the recipes")));
                      ("recipes"%string, RDocs docs)] |}.

Definition savedListed (docs : list (N * Recipe)) : Reply :=
  {| replyStatus := 200;
     replyPayload := [("message"%string, RVal (BText (js "Here are your saved recipes")));
                      ("recipes"%string, RDocs docs)] |}.

Definition recipeDeleted : Response :=
  {| status := 200;
     payload := [("message"%string, BText (js "Recipe deleted successfully"))] |}.

Definition deleteFailed (e : exn) : Response :=
  {| status := 500;
     payload := [("message"%string, BText (js "Failed to delete recipe"));
                 ("error"%string, BMessageOf e)] |}.

Definition withoutRecipe (w : World) (n : N) : World :=
  {| recipes := delete n (recipes w); users := users w; events := events w |}.

(** The same request under another identifier. *)
Definition withId (req : Request) (n : N) : Request :=
  {| params_id := Oid n; body := body req; user_id := user_id req |}.

Definition isString (v : value) : bool :=
  match v with VString _ => true | _ => false end.

Definition arrayOfStrings (v : value) : Prop :=
  exists l, v = VArray l /\ Forall (fun x => isString x = true) l.

(** The length of an array value; none for other values. *)
Definition arrayLength (v : value) : option nat :=
  match v with VArray l => Some (length l) | _ => None end.

(** The fields of a new document that come from the schema. *)
Definition schemaDefaults (r : Recipe) : Prop :=
  image r = VString defaultImage /\ ratings r = VArray []
  /\ averageRating r = VNumber posZero /\ savedBy r = []
  /\ tags r = VArray [] /\ cuisine r = VUndefined.

(** A code unit that [normalizeCategory] drops: lowering it gives
    nothing in a-z. *)
Definition isSeparator (c : N) : bool :=
  forallb (fun d => negb (isLowerAZ d)) (lowerUnit c).

(** [needle] occurs in [s] as a run of consecutive code units. *)
Fixpoint occursIn (needle s : jsstring) : bool :=
  startsWith needle s
  || match s with
     | [] => false
     | _ :: s' => occursIn needle s'
     end.

Definition fence : jsstring := js "```".

Definition isComma (c : N) : bool := c =? 44.

(** The text without its commas and white space. *)
Definition solidText (s : jsstring) : jsstring :=
  List.filter (fun c => negb (isComma c || isSpace c)) s.

(** Everything of a Recipe except [savedBy]; everything of a Recipe
    except [image]. *)
Definition exceptSavedBy (r : Recipe) : Recipe := set_savedBy [] r.
Definition exceptImage (r : Recipe) : Recipe := set_image VUndefined r.

(** The world [w'] differs from [w] at most in the saved recipes of
    user [uid] and in [savedBy] of recipe [rid], and these two lists
    have only gained entries at their end. *)
Definition savedListsGrew (uid rid : N) (w w' : World) : Prop :=
  events w' = events w
  /\ (forall i, i <> uid -> users w' !! i = users w !! i)
  /\ (forall i, i <> rid -> recipes w' !! i = recipes w !! i)
  /\ match users w !! uid, users w' !! uid with
     | Some u, Some u' =>
         account u' = account u /\ savedOf u `prefix_of` savedOf u'
     | None, None => True
     | _, _ => False
     end
  /\ match recipes w !! rid, recipes w' !! rid with
     | Some r, Some r' =>
         exceptSavedBy r' = exceptSavedBy r /\ savedBy r `prefix_of` savedBy r'
     | None, None => True
     | _, _ => False
     end.

(** The documents that [getSavedRecipes] lists for a request. *)
Definition savedDocs (req : Request) (w : World) : list (N * Recipe) :=
  List.filter (fun doc => includes (savedBy (snd doc)) (user_id req))
    (map_to_list (recipes w)).

Definition isTick (c : N) : bool := c =? 96.

(** How many backticks a text starts with. *)
Definition leadingTicks (s : jsstring) : nat := length (takeWhile isTick s).

(** An ASCII letter a-z as its capital; other code units as they are. *)
Definition capital (c : N) : N := if isLowerAZ c then c - 32 else c.

Definition savedRoute : Route :=
  {| routeMethod := GET; routePath := [Fixed "recipe-saved"];
     protectRoute := true; routeHandler := HGetSavedRecipes |}.

Definition byIdRoute : Route :=
  {| routeMethod := GET; routePath := [IdParam];
     protectRoute := false; routeHandler := HGetRecipeById |}.

(** ** Sample collaborators, requests and stores

    Test doubles in the sense of the specification: a model that gives
    one fixed answer, a parser that knows one text, a repair that
    returns its input, and a store that accepts or rejects recipes. *)

(** The digits of the integer part of [m * 2^e]. *)
Definition integerDigits (m : positive) (e : Z) : jsstring :=
  decimalDigits
    (Z.to_N match e with
            | Zneg p => (Zpos m / 2 ^ Zpos p)%Z
            | _ => (Zpos m * 2 ^ e)%Z
            end).

Definition stubRuntime (answer : result AiResponse)
    (parse : jsstring -> result value) (recipeOk : bool) : Runtime :=
  {| digitsOfFinite := integerDigits;
     JSON_parse := parse;
     jsonrepair := fun s => Ok s;
     generateContent := fun _ _ => answer;
     recipeSaveOk := fun _ => recipeOk;
     userSaveOk := fun _ => true |}.

Definition noParse : jsstring -> result value :=
  fun _ => Throw (SyntaxError (js "Unexpected token")).

Definition num (n : Z) : value := VNumber (roundQ (n # 1)).

(** The answer of the scenario in the specification, as text and as
    the value it parses to. *)
Definition riceBowlText : jsstring :=
  js "{" ++ quoted "title" ++ js ":" ++ quoted "Rice Bowl" ++ js ","
  ++ quoted "description" ++ js ":[" ++ quoted "Simple" ++ js "],"
  ++ quoted "ingredients" ++ js ":[" ++ quoted "2 cups rice" ++ js "],"
  ++ quoted "instructions" ++ js ":[" ++ quoted "Cook rice" ++ js "],"
  ++ quoted "nutritionalInfo" ++ js ":{" ++ quoted "calories" ++ js ":"
  ++ quoted "200kcal" ++ js "," ++ quoted "protein" ++ js ":5,"
  ++ quoted "fat" ++ js ":2," ++ quoted "carbs" ++ js ":40}}".

Definition riceBowlValue : value :=
  VObject
    [(js "title", VString (js "Rice Bowl"));
     (js "description", VArray [VString (js "Simple")]);
     (js "ingredients", VArray [VString (js "2 cups rice")]);
     (js "instructions", VArray [VString (js "Cook rice")]);
     (js "nutritionalInfo",
      VObject [(js "calories", VString (js "200kcal")); (js "protein", num 5);
               (js "fat", num 2); (js "carbs", num 40)])].

Definition parseRiceBowl : jsstring -> result value :=
  fun s => if decide (s = riceBowlText) then Ok riceBowlValue
           else Throw (SyntaxError (js "Unexpected token")).

Definition fencedRiceBowl : jsstring :=
  js "```json" ++ newline ++ riceBowlText ++ newline ++ js "```".

Definition textAnswer (t : jsstring) : result AiResponse :=
  Ok {| responseText := Ok t; candidates := Some [] |}.

Definition inlinePart (d : string) : Part :=
  {| text := None;
     inlineData := Some {| mimeType := js "image/png"; data := js d |} |}.

Definition textPart (t : string) : Part :=
  {| text := Some (js t); inlineData := None |}.

(** An image answer with two inline payloads. *)
Definition twoImages : list Candidate :=
  [{| parts := [textPart "Here is the photo"; inlinePart "AAAA"; inlinePart "BBBB"] |}].

Definition imageAnswer : result AiResponse :=
  Ok {| responseText := Ok []; candidates := Some twoImages |}.

(** An image answer whose last inline payload is empty. *)
Definition emptyLastImage : list Candidate :=
  [{| parts := [inlinePart "AAAA"] |}; {| parts := [inlinePart ""] |}].

Definition emptyLastAnswer : result AiResponse :=
  Ok {| responseText := Ok []; candidates := Some emptyLastImage |}.

Definition sampleEnv : gmap string jsstring :=
  {[ "GOOGLE_API_KEY"%string := js "secret" ]}.

Definition sampleRecipe : Recipe :=
  recipeDocument (VString (js "Rice Bowl")) (VArray [VString (js "Simple")])
    (VArray [VString (js "2 cups rice")]) (VArray [VString (js "Cook rice")])
    (VString (js "4")) (VArray [VString (js "vegetarian")]) (VString (js "easy"))
    (VObject [(js "calories", num 200); (js "protein", num 5);
              (js "fat", num 2); (js "carbs", num 40)]).

Definition sampleUser : User :=
  {| savedRecipes := Some []; account := VObject [(js "name", VString (js "Asha"))] |}.

(** Recipe 1 and user 7, not linked. *)
Definition sampleWorld : World :=
  {| recipes := {[ 1 := sampleRecipe ]}; users := {[ 7 := sampleUser ]}; events := [] |}.

Definition createRequest : Request :=
  {| params_id := Malformed;
     body := VObject [(js "ingredients",
                       VArray [VString (js "2 cups rice"); VString (js "1 tsp salt")]);
                      (js "portionSize", VString (js "4"));
                      (js "category", VString (js "veg"));
                      (js "difficulty", VString (js "easy"))];
     user_id := 7 |}.

Definition requestFor (n : N) (b : value) : Request :=
  {| params_id := Oid n; body := b; user_id := 7 |}.

Definition createPrompt : jsstring :=
  match recipePrompt (H := stubRuntime (textAnswer []) noParse true)
          (field (body createRequest) "portionSize")
          (field (body createRequest) "category")
          (field (body createRequest) "difficulty")
          (field (body createRequest) "ingredients") with
  | Ok p => p
  | Throw _ => []
  end.

(** An answer of the model whose calories are 400 nines and a unit. *)
Definition hugeCaloriesText : jsstring :=
  js "{" ++ quoted "title" ++ js ":" ++ quoted "Rice Bowl" ++ js ","
  ++ quoted "description" ++ js ":[" ++ quoted "Simple" ++ js "],"
  ++ quoted "ingredients" ++ js ":[" ++ quoted "2 cups rice" ++ js "],"
  ++ quoted "instructions" ++ js ":[" ++ quoted "Cook rice" ++ js "],"
  ++ quoted "nutritionalInfo" ++ js ":{" ++ quoted "calories" ++ js ":"
  ++ dquote ++ repeat 57 400 ++ js "kcal" ++ dquote ++ js ","
  ++ quoted "protein" ++ js ":5," ++ quoted "fat" ++ js ":2,"
  ++ quoted "carbs" ++ js ":40}}".

Definition hugeCaloriesValue : value :=
  VObject
    [(js "title", VString (js "Rice Bowl"));
     (js "description", VArray [VString (js "Simple")]);
     (js "ingredients", VArray [VString (js "2 cups rice")]);
     (js "instructions", VArray [VString (js "Cook rice")]);
     (js "nutritionalInfo",
      VObject [(js "calories", VString (repeat 57 400 ++ js "kcal"));
               (js "protein", num 5); (js "fat", num 2); (js "carbs", num 40)])].

Definition hugeCaloriesRuntime : Runtime :=
  stubRuntime (textAnswer hugeCaloriesText)
    (fun s => if decide (s = hugeCaloriesText) then Ok hugeCaloriesValue
              else Throw (SyntaxError (js "Unexpected token")))
    true.

(** ** More sample data *)

(** The collaborators of the scenario, and a store that accepts every
    document with a model that answers with two images. *)
Definition riceBowlRuntime : Runtime :=
  stubRuntime (textAnswer fencedRiceBowl) parseRiceBowl true.

Definition imageRuntime : Runtime := stubRuntime imageAnswer noParse true.

(** The outcome of the creation of the scenario. *)
Definition createdResponse : Response :=
  match fst (createRecipe (H := riceBowlRuntime) sampleEnv createRequest sampleWorld) with
  | Ok resp => resp
  | Throw _ => keyNotFound
  end.

Definition createdWorld : World :=
  snd (createRecipe (H := riceBowlRuntime) sampleEnv createRequest sampleWorld).

(** User 7 lists recipe 1, whose [savedBy] is still empty; and the
    same pair linked on both sides. *)
Definition halfSavedWorld : World :=
  withUser sampleWorld 7 (userWithSaved sampleUser 1).

Definition savedWorld : World :=
  withRecipe halfSavedWorld 1 (recipeWithSaver sampleRecipe 7).

(** User 7 lists recipe 1 twice, and recipe 1 lists user 7 twice. *)
Definition duplicatedWorld : World :=
  {| recipes := {[ 1 := set_savedBy [7; 7] sampleRecipe ]};
     users := {[ 7 := set_savedRecipes (Some [1; 1]) sampleUser ]};
     events := [] |}.

Definition veganUpdate : Request :=
  requestFor 1 (VObject [(js "category", VString (js "vegan"))]).

Definition twoImagesStored : Recipe := set_image (dataUri (js "BBBB")) sampleRecipe.

Definition imagePromptText : jsstring :=
  js "Create a professional, restaurant-quality food photo of the dish: Rice Bowl."
  ++ newline
  ++ js "    Style: realistic, appetizing, high resolution, well-lit.".

(** * Properties *)

(** ** Category normalisation *)

Lemma includes_cons {A} `{EqDecision A} (x y : A) (l : list A) :
  includes (y :: l) x = bool_decide (x = y) || includes l x.
Proof.
  unfold includes.
  destruct (decide (x = y)) as [->|Hne].
  - rewrite (bool_decide_eq_true_2 (y = y)) by reflexivity.
    apply bool_decide_eq_true_2. left.
  - rewrite (bool_decide_eq_false_2 (x = y)) by assumption. simpl.
    apply bool_decide_ext. rewrite elem_of_cons. tauto.
Qed.

Lemma includes_nil {A} `{EqDecision A} (x : A) : includes [] x = false.
Proof. unfold includes. apply bool_decide_eq_false_2. apply not_elem_of_nil. Qed.

Lemma categoryTable_tag cleaned : In (categoryTable cleaned) categoryTags.
Proof.
  unfold categoryTable, categoryTags.
  repeat case_decide; simpl; tauto.
Qed.

Lemma normalizeCategory_table (s : jsstring) :
  normalizeCategory (VString s)
  = Ok (categoryTable (removeOutside isLowerAZ (toLowerCase s))).
Proof.
  unfold normalizeCategory, categoryTable.
  destruct s as [|c s'].
  - reflexivity.
  - cbn [truthy negb].
    generalize (removeOutside isLowerAZ (toLowerCase (c :: s'))) as cleaned.
    intros cleaned.
    rewrite !includes_cons, !includes_nil, !orb_false_r.
    unfold bool_decide.
    repeat case_decide; simpl; try reflexivity;
      exfalso; intuition (subst; try discriminate; try congruence).
Qed.

(** C1. On every string [normalizeCategory] returns (it is a total
    function, so it is deterministic), its result is one of the five
    tags, and it is the fixed table applied to the lower-cased input
    with every code unit outside a-z removed; "Non-Veg!", "VEGAN" and
    "keto" map to "non-vegetarian", "vegan" and "other". *)
Theorem normalizeCategory_total_five_tags :
  (forall s : jsstring,
      exists tag,
        normalizeCategory (VString s) = Ok tag
        /\ In tag categoryTags
        /\ tag = categoryTable (removeOutside isLowerAZ (toLowerCase s)))
  /\ normalizeCategory (VString (js "Non-Veg!")) = Ok (js "non-vegetarian")
  /\ normalizeCategory (VString (js "VEGAN")) = Ok (js "vegan")
  /\ normalizeCategory (VString (js "keto")) = Ok (js "other").
Proof.
  split.
  - intros s. eexists. split; [apply normalizeCategory_table|].
    split; [apply categoryTable_tag | reflexivity].
  - repeat split; vm_compute; reflexivity.
Qed.

(** ** A missing credential *)

(** C6. Without the credential in the environment, recipe creation and
    image generation both answer 500 with the "not found" error and
    leave the world as it was: the store is not written and no call to
    the generative client (nor any other logged call) is added. *)
Theorem missing_credential_short_circuits `{Runtime}
    (env : gmap string jsstring) (req : Request) (w : World) :
  env !! "GOOGLE_API_KEY"%string = None ->
  createRecipe env req w = (Ok keyNotFound, w)
  /\ generateRecipeImage env req w = (Ok keyNotFound, w).
Proof.
  intros Hkey. unfold createRecipe, generateRecipeImage.
  rewrite Hkey. split; reflexivity.
Qed.

(** X28. A credential that is the empty string counts as missing:
    creation and image generation answer 500 with the "not found"
    error and leave the world as it was. *)
Lemma empty_credential_short_circuits `{Runtime}
    (env : gmap string jsstring) (req : Request) (w : World) :
  env !! "GOOGLE_API_KEY"%string = Some [] ->
  createRecipe env req w = (Ok keyNotFound, w)
  /\ generateRecipeImage env req w = (Ok keyNotFound, w).
Proof.
  intros Hkey. unfold createRecipe, generateRecipeImage.
  rewrite Hkey. split; reflexivity.
Qed.

(** ** Running the handlers *)

Lemma getProp_field (v : value) (k : string) :
  nullish v = false -> getProp v k = Ok (field v k).
Proof. destruct v; simpl; intros Hn; try discriminate; reflexivity. Qed.

Lemma getProp_nullish (v : value) (k : string) :
  nullish v = true -> getProp v k = Throw TypeError.
Proof. destruct v; simpl; intros Hn; try discriminate; reflexivity. Qed.

(** Stepping through a handler. *)
Ltac run :=
  cbv beta iota zeta delta
    [mbind M_bind mret M_ret lift emit throw respond attempt tryCatch callModel
     Recipe_findById User_findById].

Lemma run_lift {A B} (r : result A) (k : A -> M B) (w : World) :
  (lift r ≫= k) w = match r with Ok a => k a w | Throw e => (Throw e, w) end.
Proof. destruct r; reflexivity. Qed.

Lemma run_emit {B} (ev : Event) (k : unit -> M B) (w : World) :
  (emit ev ≫= k) w = k tt (withEvents w [ev]).
Proof. reflexivity. Qed.

Lemma withEvents_app (w : World) (e1 e2 : list Event) :
  withEvents (withEvents w e1) e2 = withEvents w (e1 ++ e2).
Proof. unfold withEvents. cbn. rewrite <- app_assoc. reflexivity. Qed.

Lemma repairAndParse_run `{Runtime} (cleanText : jsstring) (w : World) :
  repairAndParse cleanText w
  = match jsonrepair cleanText with
    | Ok repaired =>
        (JSON_parse repaired,
         withEvents w [EvJsonRepair cleanText; EvJsonParse repaired])
    | Throw e => (Throw e, withEvents w [EvJsonRepair cleanText])
    end.
Proof.
  unfold repairAndParse. rewrite run_emit, run_lift.
  destruct (jsonrepair cleanText) as [repaired|e]; [|reflexivity].
  rewrite run_emit, withEvents_app. reflexivity.
Qed.

(** ** Output of the model that cannot be parsed *)

(** C9. When the credential is there, the request was turned into a
    prompt and the model answered with [aiText], but repairing and
    parsing that text fails, [createRecipe] answers 500 with the raw
    text of the model attached; both collections of the store are as
    before, and the generative client was called exactly once. *)
Theorem unparsable_output_aborts_creation `{Runtime}
    (env : gmap string jsstring) (req : Request) (w : World)
    (key prompt aiText : jsstring) (response : AiResponse) (err : exn) :
  env !! "GOOGLE_API_KEY"%string = Some key -> key <> [] ->
  nullish (body req) = false ->
  recipePrompt (field (body req) "portionSize") (field (body req) "category")
               (field (body req) "difficulty") (field (body req) "ingredients")
    = Ok prompt ->
  generateContent (js "gemini-1.5-flash") prompt = Ok response ->
  responseText response = Ok aiText ->
  repairParseResult (trim (stripFences aiText)) = Throw err ->
  exists w',
    createRecipe env req w = (Ok (invalidJson aiText), w')
    /\ recipes w' = recipes w
    /\ users w' = users w
    /\ generateCalls w'
       = generateCalls w ++ [EvGenerate (js "gemini-1.5-flash") prompt].
Proof.
  intros Hkey Hne Hbody Hprompt Hgen Htext Hfail.
  unfold createRecipe. rewrite Hkey.
  destruct key as [|c key]; [congruence|]. cbn [keyMissing].
  rewrite !getProp_field by assumption.
  run. rewrite Hprompt. run. rewrite Hgen. run. rewrite Htext. run.
  rewrite repairAndParse_run. unfold repairParseResult in Hfail.
  destruct (jsonrepair (trim (stripFences aiText))) as [repaired|e]; cbn in Hfail.
  - rewrite Hfail. eexists. split; [reflexivity|]. cbn. repeat split.
    unfold generateCalls. cbn. rewrite !List.filter_app. cbn.
    rewrite app_nil_r. reflexivity.
  - eexists. split; [reflexivity|]. cbn. repeat split.
    unfold generateCalls. cbn. rewrite !List.filter_app. cbn.
    rewrite app_nil_r. reflexivity.
Qed.

(** ** The parsing step of creation *)

Lemma Recipe_create_events `{Runtime} (r : Recipe) (w : World) :
  events (snd (Recipe_create r w)) = events w.
Proof.
  unfold Recipe_create, Recipe_save. destruct (recipeSaveOk r); reflexivity.
Qed.

(** C8, as the code has it. Once the credential is there, the prompt
    is built and the model has answered with [aiText], [createRecipe]
    always hands the text without its fences to [jsonrepair] first, and
    parses what [jsonrepair] returns once: the log gains the call to
    the model, then the repair, then at most one parse, of the
    repaired text. No parse of the unrepaired text comes first and
    nothing is tried again. *)
Theorem creation_repairs_then_parses_once `{Runtime}
    (env : gmap string jsstring) (req : Request) (w : World)
    (key prompt aiText : jsstring) (response : AiResponse) :
  env !! "GOOGLE_API_KEY"%string = Some key -> key <> [] ->
  nullish (body req) = false ->
  recipePrompt (field (body req) "portionSize") (field (body req) "category")
               (field (body req) "difficulty") (field (body req) "ingredients")
    = Ok prompt ->
  generateContent (js "gemini-1.5-flash") prompt = Ok response ->
  responseText response = Ok aiText ->
  exists resp w',
    createRecipe env req w = (Ok resp, w')
    /\ events w'
       = events w
         ++ EvGenerate (js "gemini-1.5-flash") prompt
            :: parseStageEvents (trim (stripFences aiText)).
Proof.
  intros Hkey Hne Hbody Hprompt Hgen Htext.
  unfold createRecipe. rewrite Hkey.
  destruct key as [|c key]; [congruence|]. cbn [keyMissing].
  rewrite !getProp_field by assumption.
  run. rewrite Hprompt. run. rewrite Hgen. run. rewrite Htext. run.
  rewrite repairAndParse_run. unfold parseStageEvents.
  destruct (jsonrepair (trim (stripFences aiText))) as [repaired|e].
  - destruct (JSON_parse repaired) as [parsedRecipe|e].
    + destruct (assembleRecipe _ _ _ _) as [recipe|e].
      * match goal with
        | |- context [Recipe_create ?r ?w0] =>
            pose proof (Recipe_create_events r w0) as Hev;
            destruct (Recipe_create r w0) as [[[]|e] w1]
        end; cbn in Hev; do 2 eexists; (split; [reflexivity|]);
          rewrite Hev; cbn; rewrite <- app_assoc; reflexivity.
      * do 2 eexists. split; [reflexivity|]. cbn.
        rewrite <- app_assoc. reflexivity.
    + do 2 eexists. split; [reflexivity|]. cbn.
      rewrite <- app_assoc. reflexivity.
  - do 2 eexists. split; [reflexivity|]. cbn.
    rewrite <- app_assoc. reflexivity.
Qed.

(** The unused helper [safeJsonParse] is the one with the order "strict
    parse, then one repair and one more parse". *)
Lemma safeJsonParse_strict_first `{Runtime} (str : jsstring) (w : World) :
  safeJsonParse str w
  = match JSON_parse str with
    | Ok v => (Ok v, withEvents w [EvJsonParse str])
    | Throw _ =>
        let repaired := dropCommaBefore 93 0 (dropCommaBefore 125 0 str) in
        (JSON_parse repaired, withEvents w [EvJsonParse str; EvJsonParse repaired])
    end.
Proof.
  unfold safeJsonParse, parseLogged. run.
  destruct (JSON_parse str) as [v|e]; [reflexivity|].
  cbn. unfold withEvents. cbn. rewrite <- app_assoc.
  destruct (JSON_parse _); reflexivity.
Qed.

(** With a repair that keeps the meaning of text that already parses,
    the order of the code and the order of the specification give the
    same value. *)
Lemma repair_first_same_value `{Runtime} (cleanText : jsstring) (w : World) :
  (forall s v, JSON_parse s = Ok v ->
               exists s', jsonrepair s = Ok s' /\ JSON_parse s' = Ok v) ->
  fst (repairAndParse cleanText w) = fst (strictThenRepair cleanText w).
Proof.
  intros Hkeep. unfold strictThenRepair, parseLogged. run.
  destruct (JSON_parse cleanText) as [v|e] eqn:Hstrict.
  - destruct (Hkeep _ _ Hstrict) as (s' & Hrep & Hparse).
    rewrite repairAndParse_run, Hrep. cbn. exact Hparse.
  - rewrite !repairAndParse_run.
    destruct (jsonrepair cleanText); reflexivity.
Qed.

(** ** Image generation *)

Lemma scanParts_last (acc : option jsstring) (ps : list Part) :
  scanParts acc ps
  = match last (partPayloads ps) with Some d => Some d | None => acc end.
Proof.
  unfold scanParts. revert acc.
  induction ps as [|p ps IH]; intros acc; [reflexivity|].
  cbn [fold_left]. rewrite IH. unfold partPayloads. cbn [omap list_omap].
  destruct (inlineData p) as [d|]; cbn.
  - fold (partPayloads ps). rewrite last_cons.
    destruct (last (partPayloads ps)); reflexivity.
  - reflexivity.
Qed.

Lemma scanCandidates_from (acc : option jsstring) (cs : list Candidate) :
  fold_left (fun acc candidate => scanParts acc (parts candidate)) cs acc
  = match last (inlinePayloads cs) with Some d => Some d | None => acc end.
Proof.
  revert acc. induction cs as [|c cs IH]; intros acc; [reflexivity|].
  cbn [fold_left]. rewrite IH, scanParts_last.
  unfold inlinePayloads. cbn [flat_map]. fold (inlinePayloads cs).
  rewrite last_app.
  destruct (last (inlinePayloads cs)); reflexivity.
Qed.

Lemma scanCandidates_last (cs : list Candidate) :
  scanCandidates cs = last (inlinePayloads cs).
Proof.
  unfold scanCandidates. rewrite scanCandidates_from.
  destruct (last (inlinePayloads cs)); reflexivity.
Qed.

(** C7, as the code has it. With the credential present, image
    generation answers 404 for an identifier that is not in the store.
    For a stored recipe it asks the model once and takes the LAST inline
    payload of the response, over all candidates and parts in order
    (each inline part overwrites the one before). Without a payload,
    or with an empty last payload, it answers 500 "No image returned"
    and the store is as before. Otherwise the image field becomes the
    data URI of that payload, the recipe is saved and returned with
    status 200. *)
Theorem image_generation_takes_last_inline `{Runtime}
    (env : gmap string jsstring) (req : Request) (w : World)
    (key : jsstring) (n : N) :
  env !! "GOOGLE_API_KEY"%string = Some key -> key <> [] ->
  params_id req = Oid n ->
  generateRecipeImage env req w
  = match recipes w !! n with
    | None => (Ok recipeNotFound, w)
    | Some recipe =>
        match imagePrompt (title recipe) with
        | Throw e => (Ok (imageFailed e), w)
        | Ok prompt =>
            let model := js "gemini-2.5-flash-image-preview" in
            let w1 := withEvents w [EvGenerate model prompt] in
            match generateContent model prompt with
            | Throw e => (Ok (imageFailed e), w1)
            | Ok response =>
                match candidates response with
                | None => (Ok (imageFailed TypeError), w1)
                | Some cs =>
                    match last (inlinePayloads cs) with
                    | None | Some [] => (Ok noImageReturned, w1)
                    | Some imageBase64 =>
                        let recipe' := set_image (dataUri imageBase64) recipe in
                        if recipeSaveOk recipe'
                        then (Ok (imageGenerated recipe'), withRecipe w1 n recipe')
                        else (Ok (imageFailed SaveError), w1)
                    end
                end
            end
        end
    end.
Proof.
  intros Hkey Hne Hid.
  unfold generateRecipeImage. rewrite Hkey, Hid.
  destruct key as [|c key]; [congruence|]. cbn [keyMissing].
  run.
  destruct (recipes w !! n) as [recipe|]; [|reflexivity].
  destruct (imagePrompt (title recipe)) as [prompt|e]; [|reflexivity].
  cbn zeta.
  destruct (generateContent _ prompt) as [response|e]; [|reflexivity].
  destruct (candidates response) as [cs|]; [|reflexivity].
  rewrite scanCandidates_last.
  destruct (last (inlinePayloads cs)) as [[|c0 d]|]; try reflexivity.
  unfold Recipe_save, dataUri. cbn.
  destruct (recipeSaveOk _); reflexivity.
Qed.

(** ** Update *)

Lemma withRecipe_same (w : World) (n : N) (r : Recipe) :
  recipes w !! n = Some r -> withRecipe w n r = w.
Proof.
  intros Hr. destruct w as [rs us evs]. unfold withRecipe. cbn in *.
  f_equal. apply insert_id. exact Hr.
Qed.

Lemma updateRecipe_run `{Runtime} (req : Request) (w : World) (n : N) :
  params_id req = Oid n -> nullish (body req) = false ->
  updateRecipe req w
  = match recipes w !! n with
    | None => (Ok recipeNotFound, w)
    | Some r =>
        if recipeSaveOk (patched (body req) r)
        then (Ok (recipeUpdated (patched (body req) r)),
              withRecipe w n (patched (body req) r))
        else (Ok (updateFailed SaveError), w)
    end.
Proof.
  intros Hid Hbody. unfold updateRecipe. rewrite Hid.
  rewrite !getProp_field by assumption. run.
  destruct (recipes w !! n) as [r|]; [|reflexivity].
  fold (patched (body req) r). unfold Recipe_save.
  destruct (recipeSaveOk (patched (body req) r)); reflexivity.
Qed.

Lemma getField_fieldLayer (b : value) (f g : FieldName) (r : Recipe) :
  getField f (fieldLayer b g r)
  = if truthy (field b (fieldKey g)) && bool_decide (f = g)
    then assignedValue g (field b (fieldKey g))
    else getField f r.
Proof.
  unfold fieldLayer.
  destruct (truthy (field b (fieldKey g))); [destruct f, g|]; reflexivity.
Qed.

Lemma otherFields_fieldLayer (b : value) (g : FieldName) (r : Recipe) :
  otherFields (fieldLayer b g r) = otherFields r.
Proof.
  unfold fieldLayer.
  destruct (truthy (field b (fieldKey g))); [destruct g|]; reflexivity.
Qed.

Lemma patched_layers (b : value) (r : Recipe) :
  patched b r
  = fieldLayer b FImage (fieldLayer b FNutritionalInfo (fieldLayer b FDifficulty
      (fieldLayer b FCategory (fieldLayer b FPortionSize
        (fieldLayer b FInstructions (fieldLayer b FIngredients
          (fieldLayer b FDescription (fieldLayer b FTitle r)))))))).
Proof.
  unfold patched, applyUpdates, assignIf, fieldLayer.
  cbv beta zeta delta [fieldKey assignedValue setField].
  reflexivity.
Qed.

Lemma patched_getField (b : value) (r : Recipe) (f : FieldName) :
  getField f (patched b r)
  = if truthy (field b (fieldKey f))
    then assignedValue f (field b (fieldKey f))
    else getField f r.
Proof.
  rewrite patched_layers, !getField_fieldLayer.
  destruct f; cbn [bool_decide decide_rel FieldName_eq_dec];
    rewrite ?andb_false_r, ?andb_true_r; cbn;
    rewrite ?andb_false_r, ?andb_true_r; reflexivity.
Qed.

Lemma patched_others (b : value) (r : Recipe) :
  otherFields (patched b r) = otherFields r.
Proof. rewrite patched_layers, !otherFields_fieldLayer. reflexivity. Qed.


Lemma assignedValue_truthy (f : FieldName) (v : value) :
  truthy v = true -> truthy (assignedValue f v) = true.
Proof.
  intros Hv. destruct f; cbn; try exact Hv.
  destruct (isArray v); [exact Hv | reflexivity].
Qed.


(** ** Falsy values in an update *)

(** C10, as the code has it. After an update of a stored recipe,
    whatever its outcome, each of the nine fields whose value in the body
    is falsy (missing, [null], [false], zero, NaN or the empty string)
    is as stored before; and a field that did change holds a truthy
    value. So an update never stores a falsy value; arrays and objects,
    empty ones included, are truthy and do overwrite. *)
Theorem update_never_stores_falsy `{Runtime}
    (req : Request) (w : World) (n : N) (r : Recipe) :
  params_id req = Oid n -> nullish (body req) = false ->
  recipes w !! n = Some r ->
  exists resp w' r',
    updateRecipe req w = (Ok resp, w')
    /\ recipes w' !! n = Some r'
    /\ (forall f, truthy (field (body req) (fieldKey f)) = false ->
                  getField f r' = getField f r)
    /\ (forall f, getField f r' <> getField f r -> truthy (getField f r') = true).
Proof.
  intros Hid Hbody Hr. rewrite (updateRecipe_run req w n Hid Hbody), Hr.
  destruct (recipeSaveOk (patched (body req) r)).
  - exists (recipeUpdated (patched (body req) r)),
      (withRecipe w n (patched (body req) r)), (patched (body req) r).
    split; [reflexivity|]. split; [apply lookup_insert_eq|].
    split.
    + intros f Hf. rewrite patched_getField, Hf. reflexivity.
    + intros f. rewrite patched_getField.
      destruct (truthy (field (body req) (fieldKey f))) eqn:Htr.
      * intros _. apply assignedValue_truthy. exact Htr.
      * intros Hch. congruence.
  - exists (updateFailed SaveError), w, r.
    split; [reflexivity|]. split; [exact Hr|].
    split; [reflexivity|]. intros f Hch. congruence.
Qed.

(** ** Saving a recipe *)

Lemma saveRecipe_run `{Runtime} (req : Request) (w : World) (rid : N) :
  params_id req = Oid rid ->
  saveRecipe req w
  = let uid := user_id req in
    match recipes w !! rid with
    | None => (Ok saveNotFound, w)
    | Some r =>
        match users w !! uid with
        | None => (Ok (saveFailed TypeError), w)
        | Some u =>
            let saveRecipeSide (u' : User) (w1 : World) :=
              if includes (savedBy r) uid then (Ok (recipeSaved u'), w1)
              else if recipeSaveOk (recipeWithSaver r uid)
                   then (Ok (recipeSaved u'), withRecipe w1 rid (recipeWithSaver r uid))
                   else (Ok (saveFailed SaveError), w1) in
            if includes (savedOf u) rid
            then saveRecipeSide (userInitialised u) w
            else if userSaveOk (userWithSaved u rid)
                 then saveRecipeSide (userWithSaved u rid)
                        (withUser w uid (userWithSaved u rid))
                 else (Ok (saveFailed SaveError), w)
        end
    end.
Proof.
  intros Hid. unfold saveRecipe. rewrite Hid. run. cbv zeta.
  destruct (recipes w !! rid) as [r|]; [|reflexivity].
  destruct (users w !! user_id req) as [u|]; [|reflexivity].
  unfold savedOf, userWithSaved, userInitialised, recipeWithSaver,
    User_save, Recipe_save, withUser, withRecipe, recipeSaved.
  destruct u as [[l|] acct]; cbn.
  - destruct (includes l rid); cbn.
    + destruct (includes (savedBy r) (user_id req)); cbn; [reflexivity|].
      destruct (recipeSaveOk _); reflexivity.
    + destruct (userSaveOk _); cbn; [|reflexivity].
      destruct (includes (savedBy r) (user_id req)); cbn; [reflexivity|].
      destruct (recipeSaveOk _); reflexivity.
  - rewrite includes_nil. cbn.
    destruct (userSaveOk _); cbn; [|reflexivity].
    destruct (includes (savedBy r) (user_id req)); cbn; [reflexivity|].
    destruct (recipeSaveOk _); reflexivity.
Qed.

Lemma includes_true {A} `{EqDecision A} (l : list A) (x : A) :
  includes l x = true <-> x ∈ l.
Proof. unfold includes. apply bool_decide_eq_true. Qed.

Lemma includes_false {A} `{EqDecision A} (l : list A) (x : A) :
  includes l x = false <-> x ∉ l.
Proof. unfold includes. apply bool_decide_eq_false. Qed.

Lemma pushUnlessIncluded_elem (l : list N) (x y : N) :
  y ∈ pushUnlessIncluded l x <-> y ∈ l \/ y = x.
Proof.
  unfold pushUnlessIncluded. destruct (includes l x) eqn:Hin.
  - apply includes_true in Hin. split; [tauto|]. intros [Hy| ->]; assumption.
  - rewrite elem_of_app, list_elem_of_singleton. tauto.
Qed.

Lemma pushUnlessIncluded_count (l : list N) (x : N) :
  count_occ N.eq_dec (pushUnlessIncluded l x) x
  = Nat.max 1 (count_occ N.eq_dec l x).
Proof.
  unfold pushUnlessIncluded. destruct (includes l x) eqn:Hin.
  - apply includes_true, list_elem_of_In in Hin.
    apply (count_occ_In N.eq_dec) in Hin. lia.
  - apply includes_false in Hin. rewrite list_elem_of_In in Hin.
    apply (count_occ_not_In N.eq_dec) in Hin.
    rewrite count_occ_app, Hin. cbn.
    destruct (N.eq_dec x x); [reflexivity | congruence].
Qed.

Lemma pushUnlessIncluded_includes (l : list N) (x : N) :
  includes (pushUnlessIncluded l x) x = true.
Proof. apply includes_true, pushUnlessIncluded_elem. right. reflexivity. Qed.

(** What a save that answers 200 leaves in the store. *)
Lemma saveRecipe_success `{Runtime} (req : Request) (w w' : World) (rid : N)
    (u : User) (r : Recipe) (resp : Response) :
  params_id req = Oid rid ->
  users w !! user_id req = Some u -> recipes w !! rid = Some r ->
  saveRecipe req w = (Ok resp, w') -> status resp = 200%Z ->
  exists u' r',
    users w' = <[user_id req := u']> (users w)
    /\ recipes w' = <[rid := r']> (recipes w)
    /\ events w' = events w
    /\ savedRecipes u' = Some (pushUnlessIncluded (savedOf u) rid)
    /\ savedBy r' = pushUnlessIncluded (savedBy r) (user_id req).
Proof.
  intros Hid Hu Hr Hrun Hst.
  rewrite (saveRecipe_run req w rid Hid) in Hrun. cbv zeta in Hrun.
  rewrite Hr, Hu in Hrun. unfold pushUnlessIncluded.
  assert (Hinit : savedRecipes (userInitialised u) = Some (savedOf u))
    by (destruct u as [[l|] acct]; reflexivity).
  destruct (includes (savedOf u) rid) eqn:Hinc.
  - (* the user's list already holds the recipe *)
    assert (Hu0 : userInitialised u = u).
    { unfold userInitialised, savedOf in *. destruct u as [[l|] acct]; cbn in *;
        [reflexivity|]. rewrite includes_nil in Hinc. discriminate. }
    rewrite Hu0 in Hinit.
    destruct (includes (savedBy r) (user_id req)) eqn:Hby.
    + injection Hrun as <- <-. exists u, r.
      rewrite !insert_id by assumption.
      repeat split. exact Hinit.
    + destruct (recipeSaveOk _).
      * injection Hrun as <- <-. exists u, (recipeWithSaver r (user_id req)).
        cbn. rewrite insert_id by assumption.
        repeat split. exact Hinit.
      * injection Hrun as <- <-. discriminate.
  - destruct (userSaveOk _); [|injection Hrun as <- <-; discriminate].
    destruct (includes (savedBy r) (user_id req)) eqn:Hby.
    + injection Hrun as <- <-. exists (userWithSaved u rid), r.
      cbn. rewrite (insert_id (recipes w)) by assumption. repeat split.
    + destruct (recipeSaveOk _).
      * injection Hrun as <- <-.
        exists (userWithSaved u rid), (recipeWithSaver r (user_id req)).
        cbn. repeat split.
      * injection Hrun as <- <-. discriminate.
Qed.

(** A save of a pair that is linked already writes nothing. *)
Lemma saveRecipe_linked_noop `{Runtime} (req : Request) (w : World) (rid : N)
    (u : User) (r : Recipe) :
  params_id req = Oid rid ->
  users w !! user_id req = Some u -> recipes w !! rid = Some r ->
  includes (savedOf u) rid = true ->
  includes (savedBy r) (user_id req) = true ->
  saveRecipe req w = (Ok (recipeSaved (userInitialised u)), w).
Proof.
  intros Hid Hu Hr Hin Hby.
  rewrite (saveRecipe_run req w rid Hid). cbv zeta.
  rewrite Hr, Hu, Hin, Hby. reflexivity.
Qed.

(** X27. [saveRecipe] never introduces a duplicate, whatever its
    outcome: in a store where no list of saved recipes and no [savedBy]
    list holds an entry twice, this is still so after any save. *)
Lemma saveRecipe_keeps_duplicateFree `{Runtime} (req : Request) (w w' : World)
    (res : result Response) :
  saveRecipe req w = (res, w') -> duplicateFree w -> duplicateFree w'.
Proof.
  intros Hrun [Hus Hrs].
  assert (Hpush : forall l (x : N), NoDup l -> includes l x = false -> NoDup (l ++ [x])).
  { intros l x Hl Hx. apply includes_false in Hx. apply NoDup_app.
    split; [exact Hl|]. split; [|apply NoDup_singleton].
    intros y Hy Hy'. apply list_elem_of_singleton in Hy'. subst y. contradiction. }
  assert (HwithUser : forall w0 uid u, duplicateFree w0 -> NoDup (savedOf u) ->
                                       duplicateFree (withUser w0 uid u)).
  { intros w0 uid u [Hu0 Hr0] Hu. split; [|exact Hr0]. intros uid2 u2. cbn.
    destruct (decide (uid = uid2)) as [<-|Hne].
    - rewrite lookup_insert_eq. intros [= <-]. exact Hu.
    - rewrite lookup_insert_ne by assumption. apply Hu0. }
  assert (HwithRecipe : forall w0 rid r, duplicateFree w0 -> NoDup (savedBy r) ->
                                         duplicateFree (withRecipe w0 rid r)).
  { intros w0 rid r [Hu0 Hr0] Hr. split; [exact Hu0|]. intros rid2 r2. cbn.
    destruct (decide (rid = rid2)) as [<-|Hne].
    - rewrite lookup_insert_eq. intros [= <-]. exact Hr.
    - rewrite lookup_insert_ne by assumption. apply Hr0. }
  destruct (params_id req) as [|rid] eqn:Hid.
  - unfold saveRecipe in Hrun. rewrite Hid in Hrun. revert Hrun. run.
    intros [= _ <-]. split; assumption.
  - rewrite (saveRecipe_run req w rid Hid) in Hrun. cbv zeta in Hrun.
    destruct (recipes w !! rid) as [r|] eqn:Hr;
      [|injection Hrun as _ <-; split; assumption].
    destruct (users w !! user_id req) as [u|] eqn:Hu;
      [|injection Hrun as _ <-; split; assumption].
    pose proof (Hus _ _ Hu) as Hndu. pose proof (Hrs _ _ Hr) as Hndr.
    assert (Hu1 : includes (savedOf u) rid = false ->
                  NoDup (savedOf (userWithSaved u rid))).
    { intros Hx. unfold savedOf at 1. cbn. apply Hpush; assumption. }
    assert (Hr1 : includes (savedBy r) (user_id req) = false ->
                  NoDup (savedBy (recipeWithSaver r (user_id req)))).
    { intros Hx. cbn. apply Hpush; assumption. }
    destruct (includes (savedOf u) rid) eqn:Hinc;
      [|destruct (userSaveOk _)];
      try destruct (includes (savedBy r) (user_id req)) eqn:Hby;
      try destruct (recipeSaveOk _);
      injection Hrun as _ <-;
      repeat first [ apply HwithRecipe | apply HwithUser ];
      auto; split; assumption.
Qed.

(** With a store that accepts the two documents, a save of a stored
    pair answers 200. *)
Lemma saveRecipe_accepted `{Runtime} (req : Request) (w : World) (rid : N)
    (u : User) (r : Recipe) :
  params_id req = Oid rid ->
  users w !! user_id req = Some u -> recipes w !! rid = Some r ->
  userSaveOk (userWithSaved u rid) = true ->
  recipeSaveOk (recipeWithSaver r (user_id req)) = true ->
  exists resp w', saveRecipe req w = (Ok resp, w') /\ status resp = 200%Z.
Proof.
  intros Hid Hu Hr Huok Hrok.
  rewrite (saveRecipe_run req w rid Hid). cbv zeta. rewrite Hr, Hu, Huok, Hrok.
  destruct (includes (savedOf u) rid);
    destruct (includes (savedBy r) (user_id req));
    eexists _, _; split; reflexivity.
Qed.

(** C3, as the code has it. For a user and a recipe that exist, with
    the recipe at most once in the user's list and the user at most
    once in the recipe's list (in particular not at all), and a store
    that accepts the two documents: the first save answers 200 and
    leaves each list as it was with the missing entry appended; the
    second save of the same pair answers 200 again and changes nothing;
    and the recipe occurs exactly once in the user's [savedRecipes] and
    the user exactly once in the recipe's [savedBy].  Entries that
    occur more than once are not removed by saving. *)
Theorem saving_twice_keeps_one_occurrence `{Runtime}
    (req : Request) (w : World) (rid : N) (u : User) (r : Recipe) :
  params_id req = Oid rid ->
  users w !! user_id req = Some u -> recipes w !! rid = Some r ->
  (timesSaved w (user_id req) rid <= 1)%nat ->
  (timesSavedBy w rid (user_id req) <= 1)%nat ->
  userSaveOk (userWithSaved u rid) = true ->
  recipeSaveOk (recipeWithSaver r (user_id req)) = true ->
  exists resp1 w1 resp2 u1 r1,
    saveRecipe req w = (Ok resp1, w1) /\ status resp1 = 200%Z
    /\ users w1 = <[user_id req := u1]> (users w)
    /\ recipes w1 = <[rid := r1]> (recipes w)
    /\ savedRecipes u1 = Some (pushUnlessIncluded (savedOf u) rid)
    /\ savedBy r1 = pushUnlessIncluded (savedBy r) (user_id req)
    /\ saveRecipe req w1 = (Ok resp2, w1) /\ status resp2 = 200%Z
    /\ timesSaved w1 (user_id req) rid = 1%nat
    /\ timesSavedBy w1 rid (user_id req) = 1%nat.
Proof.
  intros Hid Hu Hr Hcu Hcr Huok Hrok.
  destruct (saveRecipe_accepted req w rid u r Hid Hu Hr Huok Hrok)
    as (resp1 & w1 & Hrun & Hst).
  destruct (saveRecipe_success req w w1 rid u r resp1 Hid Hu Hr Hrun Hst)
    as (u' & r' & Hus & Hrs & _ & Hsaved & Hby).
  assert (Hu' : users w1 !! user_id req = Some u')
    by (rewrite Hus; apply lookup_insert_eq).
  assert (Hr' : recipes w1 !! rid = Some r')
    by (rewrite Hrs; apply lookup_insert_eq).
  assert (HsavedOf : savedOf u' = pushUnlessIncluded (savedOf u) rid)
    by (unfold savedOf at 1; rewrite Hsaved; reflexivity).
  exists resp1, w1, (recipeSaved (userInitialised u')), u', r'.
  split; [exact Hrun|]. split; [exact Hst|].
  split; [exact Hus|]. split; [exact Hrs|].
  split; [exact Hsaved|]. split; [exact Hby|].
  split.
  - apply (saveRecipe_linked_noop req w1 rid u' r' Hid Hu' Hr').
    + rewrite HsavedOf. apply pushUnlessIncluded_includes.
    + rewrite Hby. apply pushUnlessIncluded_includes.
  - split; [reflexivity|].
    unfold timesSaved, timesSavedBy in *. rewrite Hu in Hcu. rewrite Hr in Hcr.
    rewrite Hu', Hr', HsavedOf, Hby, !pushUnlessIncluded_count. lia.
Qed.

Lemma saveRecipe_keeps_consistent `{Runtime} (req : Request) (w w' : World)
    (rid : N) (u : User) (r : Recipe) (resp : Response) :
  params_id req = Oid rid ->
  users w !! user_id req = Some u -> recipes w !! rid = Some r ->
  saveRecipe req w = (Ok resp, w') -> status resp = 200%Z ->
  linked w' (user_id req) rid /\ (consistent w -> consistent w').
Proof.
  intros Hid Hu Hr Hrun Hst.
  destruct (saveRecipe_success req w w' rid u r resp Hid Hu Hr Hrun Hst)
    as (u' & r' & Hus & Hrs & _ & Hsaved & Hby).
  assert (HsavedOf : savedOf u' = pushUnlessIncluded (savedOf u) rid)
    by (unfold savedOf at 1; rewrite Hsaved; reflexivity).
  split.
  - exists u', r'. rewrite Hus, Hrs, !lookup_insert_eq.
    repeat split; [rewrite HsavedOf | rewrite Hby];
      apply pushUnlessIncluded_elem; right; reflexivity.
  - intros Hcons uid2 u2 rid2 r2. rewrite Hus, Hrs.
    destruct (decide (user_id req = uid2)) as [<-|Hnu];
      destruct (decide (rid = rid2)) as [<-|Hnr];
      rewrite ?lookup_insert_eq, ?lookup_insert_ne by assumption.
    + intros [= <-] [= <-]. rewrite HsavedOf, Hby, !pushUnlessIncluded_elem. tauto.
    + intros [= <-] Hr2. rewrite HsavedOf, pushUnlessIncluded_elem.
      specialize (Hcons _ _ _ _ Hu Hr2). split.
      * intros [Hin|Heq]; [tauto | congruence].
      * tauto.
    + intros Hu2 [= <-]. rewrite Hby, pushUnlessIncluded_elem.
      specialize (Hcons _ _ _ _ Hu2 Hr). split.
      * tauto.
      * intros [Hin|Heq]; [tauto | congruence].
    + intros Hu2 Hr2. exact (Hcons _ _ _ _ Hu2 Hr2).
Qed.

(** C4. For a user and a recipe that exist, [saveRecipe] answers.
    With a store that accepts the two documents it answers 200, and
    afterwards the store holds the user with the recipe in
    [savedRecipes] and the recipe with the user in [savedBy]: both
    sides are brought up to date in the one request.  Whenever it
    answers 200 the recipe is in the user's [savedRecipes] and the user
    is in the recipe's [savedBy], and a store in which the two sides
    agreed for every user and every recipe still has that property.
    The two documents are written one after the other, each by its own
    [save]: when the write of the user goes through and the write of
    the recipe fails, the answer is 500 and the store holds the recipe
    in the user's list without the user in the recipe's list. *)
Theorem save_keeps_both_sides_in_step `{Runtime}
    (req : Request) (w : World) (rid : N) (u : User) (r : Recipe) :
  params_id req = Oid rid ->
  users w !! user_id req = Some u -> recipes w !! rid = Some r ->
  exists resp w',
    saveRecipe req w = (Ok resp, w')
    /\ (userSaveOk (userWithSaved u rid) = true ->
        recipeSaveOk (recipeWithSaver r (user_id req)) = true ->
        status resp = 200%Z
        /\ exists u' r',
             users w' = <[user_id req := u']> (users w)
             /\ recipes w' = <[rid := r']> (recipes w)
             /\ savedRecipes u' = Some (pushUnlessIncluded (savedOf u) rid)
             /\ savedBy r' = pushUnlessIncluded (savedBy r) (user_id req)
             /\ rid ∈ savedOf u' /\ user_id req ∈ savedBy r')
    /\ (status resp = 200%Z ->
        linked w' (user_id req) rid /\ (consistent w -> consistent w'))
    /\ (includes (savedOf u) rid = false ->
        userSaveOk (userWithSaved u rid) = true ->
        includes (savedBy r) (user_id req) = false ->
        recipeSaveOk (recipeWithSaver r (user_id req)) = false ->
        status resp = 500%Z /\ halfLinked w' (user_id req) rid).
Proof.
  intros Hid Hu Hr.
  destruct (saveRecipe req w) as [res w'] eqn:Hrun.
  assert (Hok : exists resp, res = Ok resp).
  { rewrite (saveRecipe_run req w rid Hid) in Hrun. cbv zeta in Hrun.
    rewrite Hr, Hu in Hrun.
    repeat match type of Hrun with
           | context [if ?c then _ else _] => destruct c
           end; injection Hrun as <- _; eexists; reflexivity. }
  destruct Hok as [resp ->]. exists resp, w'. split; [reflexivity|]. split; [|split].
  - intros Huok Hrok.
    destruct (saveRecipe_accepted req w rid u r Hid Hu Hr Huok Hrok)
      as (resp0 & w0 & Hrun0 & Hst0).
    rewrite Hrun in Hrun0. injection Hrun0 as <- <-.
    split; [exact Hst0|].
    destruct (saveRecipe_success req w w' rid u r resp Hid Hu Hr Hrun Hst0)
      as (u' & r' & Hus & Hrs & _ & Hsaved & Hby).
    exists u', r'. split; [exact Hus|]. split; [exact Hrs|].
    split; [exact Hsaved|]. split; [exact Hby|]. split.
    + unfold savedOf at 1. rewrite Hsaved. cbn.
      apply pushUnlessIncluded_elem. right. reflexivity.
    + rewrite Hby. apply pushUnlessIncluded_elem. right. reflexivity.
  - intros Hst. exact (saveRecipe_keeps_consistent req w w' rid u r resp Hid Hu Hr Hrun Hst).
  - intros Hnin Huok Hnby Hrfail.
    rewrite (saveRecipe_run req w rid Hid) in Hrun. cbv zeta in Hrun.
    rewrite Hr, Hu, Hnin, Huok, Hnby, Hrfail in Hrun.
    injection Hrun as <- <-. split; [reflexivity|].
    exists (userWithSaved u rid), r. cbn. rewrite lookup_insert_eq.
    repeat split; [exact Hr | | apply includes_false; exact Hnby].
    unfold savedOf at 1. cbn. apply elem_of_app. right. apply list_elem_of_singleton.
    reflexivity.
Qed.

(** ** Binary64 rounding keeps the sign *)

Lemma shr_1_nonneg (mrs : shr_record) :
  (0 <= shr_m mrs)%Z -> (0 <= shr_m (shr_1 mrs))%Z.
Proof.
  destruct mrs as [m r0 s0]. cbn. intros Hm.
  destruct m as [|p|p]; [cbn; lia | | lia].
  destruct p; cbn; lia.
Qed.

Lemma iter_pos_shr_1_nonneg (p : positive) (mrs : shr_record) :
  (0 <= shr_m mrs)%Z -> (0 <= shr_m (SpecFloat.iter_pos shr_1 p mrs))%Z.
Proof.
  revert mrs. induction p as [p IH|p IH|]; intros mrs Hm; cbn.
  - apply IH, IH, shr_1_nonneg, Hm.
  - apply IH, IH, Hm.
  - apply shr_1_nonneg, Hm.
Qed.

Lemma shr_fexp_nonneg (m e : Z) (l : location) :
  (0 <= m)%Z -> (0 <= shr_m (fst (shr_fexp prec emax m e l)))%Z.
Proof.
  intros Hm. unfold shr_fexp, shr.
  assert (H0 : (0 <= shr_m (shr_record_of_loc m l))%Z).
  { destruct l as [|[]]; cbn; exact Hm. }
  destruct (fexp prec emax (Zdigits2 m + e) - e)%Z; cbn; try exact H0.
  apply iter_pos_shr_1_nonneg, H0.
Qed.

Lemma round_nearest_even_nonneg (m : Z) (l : location) :
  (0 <= m)%Z -> (0 <= round_nearest_even m l)%Z.
Proof.
  intros Hm. unfold round_nearest_even.
  destruct l as [|[]]; try destruct (Z.even m); lia.
Qed.

Lemma binary_round_aux_nonneg (mx ex : Z) (lx : location) :
  (0 <= mx)%Z -> isNonNegative (binary_round_aux prec emax false mx ex lx) = true.
Proof.
  intros Hm. unfold binary_round_aux.
  pose proof (shr_fexp_nonneg mx ex lx Hm) as H1.
  destruct (shr_fexp prec emax mx ex lx) as [mrs' e']. cbn [fst] in H1.
  pose proof (round_nearest_even_nonneg _ (loc_of_shr_record mrs') H1) as H2.
  pose proof (shr_fexp_nonneg _ e' loc_Exact H2) as H3.
  destruct (shr_fexp prec emax _ e' loc_Exact) as [mrs'' e''].
  cbn [fst] in H3.
  destruct (shr_m mrs'') as [|p|p]; [reflexivity | | lia].
  destruct (e'' <=? emax - prec)%Z; reflexivity.
Qed.

Lemma roundQ_nonneg (q : Q) :
  (0 <= Qnum q)%Z -> isNonNegative (roundQ q) = true.
Proof.
  intros Hq. unfold roundQ.
  assert (Hred : (0 <= Qnum (Qred q))%Z).
  { destruct q as [a b]. cbn in Hq. unfold Qred.
    pose proof (Z.ggcd_correct_divisors a (Zpos b)) as Hd.
    pose proof (Z.ggcd_gcd a (Zpos b)) as Hg.
    pose proof (Z.gcd_nonneg a (Zpos b)) as Hg0.
    destruct (Z.ggcd a (Zpos b)) as [g [aa bb]]. cbn in *.
    destruct Hd as [Ha Hb].
    assert (Hgpos : (0 < g)%Z).
    { destruct (Z.eq_dec g 0%Z) as [E|E]; [rewrite E in Hb; lia | lia]. }
    nia. }
  destruct (Qnum (Qred q)) as [|p|p]; [reflexivity | | lia].
  unfold SFdiv, SFdiv_core_binary.
  destruct (Z.div_eucl _ _) as [qz rz] eqn:Hdiv.
  apply binary_round_aux_nonneg.
  assert (Hq' : qz = fst (Z.div_eucl
    match (0 - 0 - Z.min (fexp prec emax (Zdigits2 (Z.pos p) + 0 - (Zdigits2 (Z.pos (Qden (Qred q))) + 0))) (0 - 0))%Z with
    | 0%Z => Z.pos p
    | Z.pos _ => Z.shiftl (Z.pos p) (0 - 0 - Z.min (fexp prec emax (Zdigits2 (Z.pos p) + 0 - (Zdigits2 (Z.pos (Qden (Qred q))) + 0))) (0 - 0))
    | Z.neg _ => 0%Z
    end (Z.pos (Qden (Qred q))))) by (rewrite Hdiv; reflexivity).
  rewrite Hq'. change (fst (Z.div_eucl ?a ?b)) with (a / b)%Z.
  apply Z.div_pos; [|lia].
  destruct (0 - 0 - _)%Z eqn:Hs; try lia.
  apply Z.shiftl_nonneg. lia.
Qed.

Lemma roundQ_Qeq (p q : Q) : Qeq p q -> roundQ p = roundQ q.
Proof. intros Heq. unfold roundQ. rewrite (Qred_complete p q Heq). reflexivity. Qed.

Lemma decimalQ_nonneg (d : N) (t : Z) : (0 <= Qnum (decimalQ d t))%Z.
Proof.
  unfold decimalQ. destruct t; cbn [Qnum]; lia.
Qed.

(** ** Printing and reading decimal digits *)

Lemma digitsValue_snoc (l : jsstring) (c : N) :
  digitsValue (l ++ [c]) = 10 * digitsValue l + (c - 48).
Proof. unfold digitsValue. rewrite fold_left_app. reflexivity. Qed.

Lemma digitsFuel_spec (fuel : nat) (n : N) :
  n < 2 ^ N.of_nat fuel ->
  Forall (fun c => isDigit c = true) (digitsFuel fuel n)
  /\ digitsValue (digitsFuel fuel n) = n
  /\ digitsFuel fuel n <> [].
Proof.
  revert n. induction fuel as [|fuel IH]; intros n Hn.
  - cbn in Hn. assert (n = 0) by lia. subst n. cbn.
    repeat split; [repeat constructor | discriminate].
  - cbn [digitsFuel]. destruct (N.ltb_spec n 10) as [Hlt|Hge].
    + repeat split; [|unfold digitsValue; cbn; lia | discriminate].
      constructor; [|constructor]. unfold isDigit.
      apply andb_true_intro. split; apply N.leb_le; lia.
    + assert (Hdiv : n / 10 < 2 ^ N.of_nat fuel).
      { rewrite Nat2N.inj_succ, N.pow_succ_r' in Hn.
        apply N.Div0.div_lt_upper_bound.
        clear IH. revert Hn. generalize (2 ^ N.of_nat fuel). intros X HX. lia. }
      destruct (IH _ Hdiv) as (Hall & Hval & Hne).
      pose proof (N.mod_lt n 10 ltac:(lia)) as Hmod.
      repeat split.
      * apply Forall_app. split; [exact Hall|].
        constructor; [|constructor]. unfold isDigit.
        apply andb_true_intro.
        split; apply N.leb_le; clear - Hmod; revert Hmod;
          generalize (n mod 10); intros d Hd; lia.
      * rewrite digitsValue_snoc, Hval.
        pose proof (N.div_mod n 10 ltac:(lia)) as Hdm. clear - Hmod Hdm.
        revert Hmod Hdm. generalize (n mod 10), (n / 10). intros d q Hd Hdm. lia.
      * intros Hnil. apply app_eq_nil in Hnil. destruct Hnil. discriminate.
Qed.

Lemma decimalDigits_spec (n : N) :
  Forall (fun c => isDigit c = true) (decimalDigits n)
  /\ digitsValue (decimalDigits n) = n
  /\ decimalDigits n <> [].
Proof.
  apply digitsFuel_spec. rewrite N2Nat.id. apply N.size_gt.
Qed.

Lemma spanDigits_app (ds rest : jsstring) :
  Forall (fun c => isDigit c = true) ds ->
  match rest with [] => True | c :: _ => isDigit c = false end ->
  spanDigits (ds ++ rest) = (ds, rest).
Proof.
  intros Hds Hrest. induction Hds as [|c ds Hc _ IH]; cbn.
  - destruct rest as [|c rest]; [reflexivity|]. cbn. rewrite Hrest. reflexivity.
  - rewrite Hc, IH. reflexivity.
Qed.

Lemma spanDigits_all (ds : jsstring) :
  Forall (fun c => isDigit c = true) ds -> spanDigits ds = (ds, []).
Proof.
  intros Hds. rewrite <- (app_nil_r ds) at 1. apply spanDigits_app; [exact Hds | exact I].
Qed.

Lemma isDigit_cases (c : N) :
  isDigit c = true ->
  In c [48; 49; 50; 51; 52; 53; 54; 55; 56; 57].
Proof.
  unfold isDigit. intros Hc. apply andb_prop in Hc. destruct Hc as [H1 H2].
  apply N.leb_le in H1, H2. cbn.
  assert (Hc : c = 48 \/ c = 49 \/ c = 50 \/ c = 51 \/ c = 52 \/ c = 53
               \/ c = 54 \/ c = 55 \/ c = 56 \/ c = 57) by lia.
  intuition auto.
Qed.

(** On a string that starts with a digit [parseFloat] reads an unsigned
    literal from the first code unit on. *)
Lemma parseFloat_digit_first (c : N) (s : jsstring) :
  isDigit c = true ->
  parseFloat (c :: s)
  = match spanDigits (c :: s) with
    | (ip, 46 :: r) =>
        let (fp, r2) := spanDigits r in
        roundQ (decimalQ (digitsValue (ip ++ fp))
                         (exponentPart r2 - Z.of_nat (length fp)))
    | (ip, r1) => roundQ (decimalQ (digitsValue ip) (exponentPart r1))
    end.
Proof.
  intros Hc. pose proof (isDigit_cases c Hc) as Hcases.
  assert (Hshape : exists ds r, spanDigits (c :: s) = (c :: ds, r)).
  { cbn. rewrite Hc. destruct (spanDigits s) as [d r]. eauto. }
  destruct Hshape as (ds & r & Hspan).
  assert (Hpf : parseFloat (c :: s)
                = match parseUnsigned (c :: s) with
                  | Some x => x | None => S754_nan end).
  { cbn in Hcases.
    destruct Hcases as [<-|[<-|[<-|[<-|[<-|[<-|[<-|[<-|[<-|[<-|[]]]]]]]]]]];
      reflexivity. }
  rewrite Hpf. unfold parseUnsigned.
  assert (Hinf : startsWith (js "Infinity") (c :: s) = false).
  { cbn in Hcases.
    destruct Hcases as [<-|[<-|[<-|[<-|[<-|[<-|[<-|[<-|[<-|[<-|[]]]]]]]]]]];
      reflexivity. }
  rewrite Hinf, Hspan.
  destruct r as [|c1 r]; [reflexivity|].
  destruct (N.eq_dec c1 46) as [->|Hne].
  - destruct (spanDigits r) as [fp r2]. reflexivity.
  - destruct c1 as [|p]; [reflexivity|].
    do 6 (destruct p as [p|p|]; try reflexivity); congruence.
Qed.

Lemma digitsValue_zeros (j : nat) (l : jsstring) :
  digitsValue (repeat 48 j ++ l) = digitsValue l.
Proof.
  unfold digitsValue. rewrite fold_left_app.
  assert (Hz : fold_left (fun acc c => 10 * acc + (c - 48)) (repeat 48 j) 0 = 0).
  { induction j as [|j IH]; [reflexivity|]. cbn [repeat fold_left]. exact IH. }
  rewrite Hz. reflexivity.
Qed.

Lemma parseFloat_decimalDigits (n : N) :
  parseFloat (decimalDigits n) = roundQ (Z.of_N n # 1).
Proof.
  destruct (decimalDigits_spec n) as (Hall & Hval & Hne).
  destruct (decimalDigits n) as [|c ds] eqn:Hd; [congruence|].
  rewrite parseFloat_digit_first by (inversion Hall; assumption).
  rewrite (spanDigits_all _ Hall), Hval. cbn [exponentPart decimalQ].
  rewrite Z.mul_1_r. reflexivity.
Qed.

(** Reading back what [toFixed] prints below 10^21: the Number of
    [n / 10^f]. *)
Lemma parseFloat_fixedDigits (n : N) (f : nat) :
  parseFloat (fixedDigits n (S f)) = roundQ (decimalQ n (- Z.of_nat (S f))).
Proof.
  destruct (decimalDigits_spec n) as (Hall & Hval & Hne).
  unfold fixedDigits.
  set (m := repeat 48 (S f + 1 - length (decimalDigits n)) ++ decimalDigits n).
  assert (Hm : Forall (fun c => isDigit c = true) m).
  { apply Forall_app. split; [|exact Hall]. apply Forall_forall.
    intros c Hc. apply list_elem_of_In, repeat_spec in Hc. subst c. reflexivity. }
  assert (Hmval : digitsValue m = n) by (unfold m; rewrite digitsValue_zeros; exact Hval).
  assert (Hlen : (S f + 1 <= length m)%nat).
  { unfold m. rewrite length_app, repeat_length. lia. }
  set (k := length m) in *.
  assert (Hip : Forall (fun c => isDigit c = true) (take (k - S f) m))
    by (apply Forall_take; exact Hm).
  assert (Hfp : Forall (fun c => isDigit c = true) (drop (k - S f) m))
    by (apply Forall_drop; exact Hm).
  assert (Hiplen : length (take (k - S f) m) = (k - S f)%nat)
    by (rewrite length_take; change (length m) with k; clearbody k; lia).
  assert (Hfplen : length (drop (k - S f) m) = S f)
    by (rewrite length_drop; change (length m) with k; clearbody k; lia).
  clearbody k.
  destruct (take (k - S f) m) as [|c ip] eqn:Htake;
    [cbn in Hiplen; clear - Hiplen Hlen; lia|].
  cbn [app]. rewrite parseFloat_digit_first by (inversion Hip; assumption).
  change (c :: ip ++ 46 :: drop (k - S f) m)
    with ((c :: ip) ++ 46 :: drop (k - S f) m).
  rewrite (spanDigits_app (c :: ip) (46 :: drop (k - S f) m) Hip)
    by reflexivity.
  rewrite (spanDigits_all _ Hfp).
  rewrite <- Htake, take_drop, Hmval, Hfplen. reflexivity.
Qed.

Lemma dropWhile_Forall (p q : N -> bool) (s : jsstring) :
  Forall (fun c => q c = true) s -> Forall (fun c => q c = true) (dropWhile p s).
Proof.
  induction 1 as [|c s Hc Hs IH]; cbn; [constructor|].
  destruct (p c); [exact IH | constructor; assumption].
Qed.

Lemma parseUnsigned_nonneg (s : jsstring) (x : number) :
  parseUnsigned s = Some x -> isNonNegative x = true.
Proof.
  unfold parseUnsigned.
  destruct (startsWith (js "Infinity") s); [intros [= <-]; reflexivity|].
  destruct (spanDigits s) as [ip r1].
  assert (Hround : forall d t y, Some (roundQ (decimalQ d t)) = Some y ->
                                 isNonNegative y = true).
  { intros d t y Hy. apply (inj Some) in Hy. subst y.
    apply roundQ_nonneg, decimalQ_nonneg. }
  destruct r1 as [|c r].
  - destruct ip; [discriminate|]. apply Hround.
  - destruct (N.eq_dec c 46) as [->|Hne].
    + destruct (spanDigits r) as [fp r2].
      destruct ip, fp; try discriminate; apply Hround.
    + assert (Hgen : match ip with
                     | [] => None
                     | _ :: _ => Some (roundQ (decimalQ (digitsValue ip)
                                                        (exponentPart (c :: r))))
                     end = Some x -> isNonNegative x = true).
      { destruct ip; [discriminate|]. apply Hround. }
      destruct c as [|p]; [exact Hgen|].
      do 6 (destruct p as [p|p|]; try exact Hgen). congruence.
Qed.

(** After the removal of everything but digits and dots, [parseFloat]
    yields NaN or a Number without sign. *)
Lemma parseFloat_digitsAndDots (s : jsstring) :
  let x := parseFloat (digitsAndDots s) in
  x = S754_nan \/ isNonNegative x = true.
Proof.
  cbv zeta. unfold parseFloat, trimStart.
  assert (Hall : Forall (fun c => isDigit c || isDot c = true) (digitsAndDots s)).
  { unfold digitsAndDots, removeOutside. apply Forall_forall. intros c Hc.
    apply list_elem_of_In, List.filter_In in Hc. tauto. }
  pose proof (dropWhile_Forall isSpace _ _ Hall) as Ht.
  destruct (dropWhile isSpace (digitsAndDots s)) as [|c t] eqn:Hd.
  - left. reflexivity.
  - assert (Hc : isDigit c || isDot c = true) by (inversion Ht; assumption).
    assert (Hgen : let y := match parseUnsigned (c :: t) with
                            | Some x => x | None => S754_nan end in
                   y = S754_nan \/ isNonNegative y = true).
    { cbv zeta. destruct (parseUnsigned (c :: t)) as [x|] eqn:Hp; [|left; reflexivity].
      right. exact (parseUnsigned_nonneg _ _ Hp). }
    destruct c as [|p]; [exact Hgen|].
    do 6 (destruct p as [p|p|]; try exact Hgen); discriminate.
Qed.

(** ** Nutrition values *)

Lemma nutritionNumber_rounded (x : number) :
  isNonNegative x = true -> (exists n : N, x = roundQ (Z.of_N n # 100)) ->
  nutritionNumber x.
Proof.
  intros Hx Hn.
  destruct x as [[]|[]| |[] m e]; try discriminate;
    first [ right; reflexivity | left; split; [reflexivity|]; split; [reflexivity | exact Hn] ].
Qed.

Lemma nutritionNumber_integer (V : N) : nutritionNumber (roundQ (Z.of_N V # 1)).
Proof.
  apply nutritionNumber_rounded; [apply roundQ_nonneg; cbn; lia|].
  exists (100 * V). apply roundQ_Qeq. unfold Qeq. cbn [Qnum Qden]. lia.
Qed.

Lemma nutritionNumber_fixed (n : N) :
  nutritionNumber (roundQ (decimalQ n (- Z.of_nat 2))).
Proof.
  apply nutritionNumber_rounded; [apply roundQ_nonneg, decimalQ_nonneg|].
  exists n. reflexivity.
Qed.

Lemma storable_zero : storable posZero.
Proof. split; [reflexivity|]. split; [reflexivity|]. exists 0. reflexivity. Qed.

Lemma infinity_not_storable : ~ storable (S754_infinity false).
Proof. intros (_ & Hfin & _). discriminate Hfin. Qed.

Lemma toFixed2_nutritionNumber `{Runtime} (x : number) :
  bigPrintsInteger -> isNonNegative x = true ->
  nutritionNumber (parseFloat (toFixed x 2)).
Proof.
  intros Hbig Hx. destruct x as [[]|[]| |[] m e]; try discriminate.
  - cbn [toFixed]. rewrite parseFloat_fixedDigits. apply nutritionNumber_fixed.
  - cbn [toFixed numberToString].
    change (parseFloat (js "Infinity")) with (S754_infinity false).
    right. reflexivity.
  - cbn [toFixed app]. destruct (atLeast1e21 m e) eqn:Hge.
    + destruct (Hbig m e Hge) as [V ->]. apply nutritionNumber_integer.
    + rewrite parseFloat_fixedDigits. apply nutritionNumber_fixed.
Qed.

Lemma parseNutrition_cases `{Runtime} (v : value) :
  parseNutrition v
  = if truthy v
    then s ← callToString v;
         let num := parseFloat (digitsAndDots s) in
         Ok (if isNaN num then posZero else parseFloat (toFixed num 2))
    else Ok posZero.
Proof. unfold parseNutrition. destruct (truthy v); reflexivity. Qed.

Lemma parseNutrition_nutritionNumber `{Runtime} (v : value) (r : number) :
  bigPrintsInteger -> parseNutrition v = Ok r -> nutritionNumber r.
Proof.
  intros Hbig. rewrite parseNutrition_cases.
  destruct (truthy v); [|intros [= <-]; left; apply storable_zero].
  destruct (callToString v) as [s|e]; [|discriminate].
  cbn. intros [= <-].
  destruct (parseFloat_digitsAndDots s) as [Hnan|Hpos]; cbv zeta in *.
  - rewrite Hnan. left. apply storable_zero.
  - destruct (isNaN (parseFloat (digitsAndDots s))) eqn:Hn.
    + left. apply storable_zero.
    + exact (toFixed2_nutritionNumber _ Hbig Hpos).
Qed.

(** The nutrition field [k] of the document: [parseNutrition] of the
    value that the parsed answer supplies for [k]. *)
Lemma nutritionField_supplied `{Runtime} (parsedRecipe : value) (k : string)
    (v : value) :
  nutritionField parsedRecipe k = Ok v ->
  exists x, v = VNumber x /\ parseNutrition (suppliedNutrition parsedRecipe k) = Ok x.
Proof.
  unfold nutritionField, suppliedNutrition.
  destruct (nullish parsedRecipe) eqn:Hp.
  { rewrite (getProp_nullish _ _ Hp). discriminate. }
  rewrite (getProp_field _ _ Hp). cbn [mbind result_bind rbind].
  destruct (nullish (field parsedRecipe "nutritionalInfo")) eqn:Hinfo.
  - assert (Hopt : getPropOpt (field parsedRecipe "nutritionalInfo") k = Ok VUndefined)
      by (destruct (field parsedRecipe "nutritionalInfo"); try discriminate; reflexivity).
    rewrite Hopt. cbn [mbind result_bind rbind].
    destruct (parseNutrition VUndefined) as [x|]; [|discriminate].
    cbn. intros [= <-]. exists x. split; reflexivity.
  - assert (Hopt : getPropOpt (field parsedRecipe "nutritionalInfo") k
                   = Ok (field (field parsedRecipe "nutritionalInfo") k)).
    { rewrite <- (getProp_field _ k Hinfo).
      destruct (field parsedRecipe "nutritionalInfo"); try discriminate; reflexivity. }
    rewrite Hopt. cbn [mbind result_bind rbind].
    destruct (parseNutrition _) as [x|]; [|discriminate].
    cbn. intros [= <-]. exists x. split; reflexivity.
Qed.

Lemma newRecipe_nutritionalInfo `{Runtime}
    (t d i s p c f info : value) (recipe : Recipe) :
  newRecipe t d i s p c f info = Ok recipe -> nutritionalInfo recipe = info.
Proof.
  unfold newRecipe.
  repeat match goal with
         | |- context [mbind _ ?r] =>
             destruct r; cbn [mbind result_bind rbind]; [|discriminate]
         end.
  intros [= <-]. reflexivity.
Qed.

Lemma assembleRecipe_nutrition `{Runtime}
    (parsedRecipe portionSize0 category0 difficulty0 : value) (recipe : Recipe) :
  assembleRecipe parsedRecipe portionSize0 category0 difficulty0 = Ok recipe ->
  exists calories protein fat carbs,
    nutritionalInfo recipe
    = VObject [(js "calories", VNumber calories); (js "protein", VNumber protein);
               (js "fat", VNumber fat); (js "carbs", VNumber carbs)]
    /\ parseNutrition (suppliedNutrition parsedRecipe "calories") = Ok calories
    /\ parseNutrition (suppliedNutrition parsedRecipe "protein") = Ok protein
    /\ parseNutrition (suppliedNutrition parsedRecipe "fat") = Ok fat
    /\ parseNutrition (suppliedNutrition parsedRecipe "carbs") = Ok carbs.
Proof.
  unfold assembleRecipe.
  destruct (getProp parsedRecipe "ingredients"); [|discriminate]. cbn.
  destruct (arrayMap _ _); [|discriminate]. cbn.
  destruct (getProp parsedRecipe "title"); [|discriminate]. cbn.
  destruct (getProp parsedRecipe "description"); [|discriminate]. cbn.
  destruct (getProp parsedRecipe "instructions"); [|discriminate]. cbn.
  destruct (normalizeCategory category0); [|discriminate]. cbn.
  destruct (nutritionField parsedRecipe "calories") as [c|] eqn:Hc; [|discriminate].
  cbn.
  destruct (nutritionField parsedRecipe "protein") as [p|] eqn:Hp; [|discriminate].
  cbn.
  destruct (nutritionField parsedRecipe "fat") as [f|] eqn:Hf; [|discriminate].
  cbn.
  destruct (nutritionField parsedRecipe "carbs") as [b|] eqn:Hb; [|discriminate].
  cbn. intros Hnew. apply newRecipe_nutritionalInfo in Hnew. rewrite Hnew.
  destruct (nutritionField_supplied _ _ _ Hc) as (xc & -> & Sc).
  destruct (nutritionField_supplied _ _ _ Hp) as (xp & -> & Sp).
  destruct (nutritionField_supplied _ _ _ Hf) as (xf & -> & Sf).
  destruct (nutritionField_supplied _ _ _ Hb) as (xb & -> & Sb).
  exists xc, xp, xf, xb. split; [reflexivity|]. auto.
Qed.

(** A creation that answers 201 has stored one document, assembled
    from the answer of the model as repaired and parsed. *)
Lemma createRecipe_created `{Runtime}
    (env : gmap string jsstring) (req : Request) (w w' : World) (resp : Response) :
  createRecipe env req w = (Ok resp, w') -> status resp = 201%Z ->
  exists prompt response aiText parsedRecipe recipe,
    generateContent (js "gemini-1.5-flash") prompt = Ok response
    /\ responseText response = Ok aiText
    /\ repairParseResult (trim (stripFences aiText)) = Ok parsedRecipe
    /\ assembleRecipe parsedRecipe (field (body req) "portionSize")
         (field (body req) "category") (field (body req) "difficulty") = Ok recipe
    /\ recipes w' = <[fresh (dom (recipes w)) := recipe]> (recipes w)
    /\ payload resp = [("message"%string, BText (js "Recipe created successfully"));
                       ("recipe"%string, BRecipe recipe)].
Proof.
  unfold createRecipe.
  destruct (keyMissing _); [intros [= <- <-]; discriminate|].
  destruct (nullish (body req)) eqn:Hbody.
  { rewrite !getProp_nullish by assumption. run. intros [= <- <-]. discriminate. }
  rewrite !getProp_field by assumption. run.
  destruct (recipePrompt _ _ _ _) as [prompt|]; [|intros [= <- <-]; discriminate].
  run.
  destruct (generateContent _ prompt) as [response|] eqn:Hgen;
    [|intros [= <- <-]; discriminate].
  run.
  destruct (responseText response) as [aiText|] eqn:Htext;
    [|intros [= <- <-]; discriminate].
  run. rewrite repairAndParse_run.
  destruct (jsonrepair _) as [repaired|] eqn:Hrep; [|intros [= <- <-]; discriminate].
  destruct (JSON_parse repaired) as [parsedRecipe|] eqn:Hparse;
    [|intros [= <- <-]; discriminate].
  destruct (assembleRecipe _ _ _ _) as [recipe|] eqn:Hasm;
    [|intros [= <- <-]; discriminate].
  unfold Recipe_create, Recipe_save. cbn [recipes users events withEvents].
  destruct (recipeSaveOk recipe); [|intros [= <- <-]; discriminate].
  intros [= <- <-] _. exists prompt, response, aiText, parsedRecipe, recipe.
  split; [exact Hgen|]. split; [exact Htext|].
  split; [unfold repairParseResult; rewrite Hrep; exact Hparse|].
  split; [exact Hasm|]. split; reflexivity.
Qed.

Lemma parseNutrition_returns `{Runtime} (v : value) :
  isPrimitive v = true -> exists r, parseNutrition v = Ok r.
Proof.
  intros Hv. rewrite parseNutrition_cases.
  destruct (truthy v) eqn:Ht; [|eexists; reflexivity].
  destruct v; try discriminate; cbn; eexists; reflexivity.
Qed.

(** C2, as the code has it. With Number::toString as the language
    defines it from 10^21 on, [parseNutrition] returns on every value
    that is not an array or an object, and for every value [v] of a
    nutrition field on which it returns:
    - the result is +0 when [v] is falsy (absent, [null], zero, empty);
    - otherwise all code units except digits and dots are removed from
      the text of [v] and the rest is read by [parseFloat]; a NaN gives
      +0, any other number is printed with [toFixed(2)] and read again;
    - in every case the result is a non-negative finite Number that is
      the binary64 value of a numeral [n / 100], or it is +Infinity
      (the digits left the range of binary64).
    In a creation that answers 201 the model answered with a text that
    was repaired and parsed, and each of the four nutrition fields of
    the document that is stored and returned is [parseNutrition] of the
    value that this parsed answer supplies for the field, hence such a
    Number.  In the scenario of the specification, where the model
    supplies "200kcal" for the calories, the stored calories are 200. *)
Theorem nutrition_values_are_two_decimal_numbers `{Runtime} :
  bigPrintsInteger ->
  (forall v : value, isPrimitive v = true -> exists r, parseNutrition v = Ok r)
  /\ (forall (v : value) (r : number),
      parseNutrition v = Ok r ->
      nutritionNumber r
      /\ (truthy v = false -> r = posZero)
      /\ (forall s, truthy v = true -> callToString v = Ok s ->
            r = if isNaN (parseFloat (digitsAndDots s)) then posZero
                else parseFloat (toFixed (parseFloat (digitsAndDots s)) 2)))
  /\ (forall env req w w' resp,
        createRecipe env req w = (Ok resp, w') -> status resp = 201%Z ->
        exists prompt response aiText parsedRecipe recipe calories protein fat carbs,
          generateContent (js "gemini-1.5-flash") prompt = Ok response
          /\ responseText response = Ok aiText
          /\ repairParseResult (trim (stripFences aiText)) = Ok parsedRecipe
          /\ resp = recipeCreated recipe
          /\ recipes w' !! fresh (dom (recipes w)) = Some recipe
          /\ nutritionalInfo recipe
             = VObject [(js "calories", VNumber calories);
                        (js "protein", VNumber protein);
                        (js "fat", VNumber fat); (js "carbs", VNumber carbs)]
          /\ parseNutrition (suppliedNutrition parsedRecipe "calories") = Ok calories
          /\ parseNutrition (suppliedNutrition parsedRecipe "protein") = Ok protein
          /\ parseNutrition (suppliedNutrition parsedRecipe "fat") = Ok fat
          /\ parseNutrition (suppliedNutrition parsedRecipe "carbs") = Ok carbs
          /\ nutritionNumber calories /\ nutritionNumber protein
          /\ nutritionNumber fat /\ nutritionNumber carbs)
  /\ parseNutrition (VString (js "200kcal")) = Ok (roundQ (200 # 1))
  /\ (exists w' recipe,
        createRecipe (H := stubRuntime (textAnswer fencedRiceBowl) parseRiceBowl true)
          sampleEnv createRequest sampleWorld
        = (Ok (recipeCreated recipe), w')
        /\ suppliedNutrition riceBowlValue "calories" = VString (js "200kcal")
        /\ recipes w' !! fresh (dom (recipes sampleWorld)) = Some recipe
        /\ field (nutritionalInfo recipe) "calories" = VNumber (roundQ (200 # 1))).
Proof.
  intros Hbig. split; [exact parseNutrition_returns|]. split; [|split; [|split]].
  - intros v r Hr. split; [exact (parseNutrition_nutritionNumber v r Hbig Hr)|].
    rewrite parseNutrition_cases in Hr. split.
    + intros Hf. rewrite Hf in Hr. congruence.
    + intros s Ht Hs. rewrite Ht, Hs in Hr. cbn in Hr. congruence.
  - intros env req w w' resp Hrun Hst.
    destruct (createRecipe_created env req w w' resp Hrun Hst)
      as (prompt & response & aiText & parsedRecipe & recipe
          & Hgen & Htext & Hparse & Hasm & Hstore & Hpay).
    destruct (assembleRecipe_nutrition _ _ _ _ _ Hasm)
      as (c & p & f & b & Hinfo & Hc & Hp & Hf & Hb).
    exists prompt, response, aiText, parsedRecipe, recipe, c, p, f, b.
    split; [exact Hgen|]. split; [exact Htext|]. split; [exact Hparse|].
    split; [destruct resp as [st pay]; cbn in Hst, Hpay; subst; reflexivity|].
    split; [rewrite Hstore; apply lookup_insert_eq|].
    split; [exact Hinfo|].
    split; [exact Hc|]. split; [exact Hp|]. split; [exact Hf|]. split; [exact Hb|].
    split; [exact (parseNutrition_nutritionNumber _ _ Hbig Hc)|].
    split; [exact (parseNutrition_nutritionNumber _ _ Hbig Hp)|].
    split; [exact (parseNutrition_nutritionNumber _ _ Hbig Hf)|].
    exact (parseNutrition_nutritionNumber _ _ Hbig Hb).
  - vm_compute. reflexivity.
  - eexists _, _. split; [vm_compute; reflexivity|].
    split; [reflexivity|]. split; vm_compute; reflexivity.
Qed.

(** * Worked instances *)

(** ** C6 *)

Lemma missing_credential_instance :
  (∅ : gmap string jsstring) !! "GOOGLE_API_KEY"%string = None
  /\ createRecipe (H := stubRuntime (textAnswer fencedRiceBowl) parseRiceBowl true)
       ∅ createRequest sampleWorld
     = (Ok keyNotFound, sampleWorld)
  /\ generateRecipeImage (H := stubRuntime (textAnswer fencedRiceBowl) parseRiceBowl true)
       ∅ createRequest sampleWorld
     = (Ok keyNotFound, sampleWorld).
Proof.
  split; [reflexivity|].
  apply (missing_credential_short_circuits
           (H := stubRuntime (textAnswer fencedRiceBowl) parseRiceBowl true)).
  reflexivity.
Defined.

(** ** C9 *)

Lemma unparsable_output_instance :
  exists w',
    createRecipe (H := stubRuntime (textAnswer (js "Sorry, no recipe today.")) noParse true)
      sampleEnv createRequest sampleWorld
    = (Ok (invalidJson (js "Sorry, no recipe today.")), w')
    /\ recipes w' = recipes sampleWorld
    /\ users w' = users sampleWorld
    /\ generateCalls w'
       = generateCalls sampleWorld ++ [EvGenerate (js "gemini-1.5-flash") createPrompt].
Proof.
  apply (unparsable_output_aborts_creation
           (H := stubRuntime (textAnswer (js "Sorry, no recipe today.")) noParse true)
           sampleEnv createRequest sampleWorld (js "secret") createPrompt
           (js "Sorry, no recipe today.")
           {| responseText := Ok (js "Sorry, no recipe today."); candidates := Some [] |}
           (SyntaxError (js "Unexpected token"))).
  - vm_compute. reflexivity.
  - discriminate.
  - reflexivity.
  - vm_compute. reflexivity.
  - reflexivity.
  - reflexivity.
  - reflexivity.
Defined.

(** ** C8 *)

Lemma creation_parse_order_instance :
  exists resp w',
    createRecipe (H := stubRuntime (textAnswer fencedRiceBowl) parseRiceBowl true)
      sampleEnv createRequest sampleWorld
    = (Ok resp, w')
    /\ events w'
       = events sampleWorld
         ++ EvGenerate (js "gemini-1.5-flash") createPrompt
            :: parseStageEvents
                 (H := stubRuntime (textAnswer fencedRiceBowl) parseRiceBowl true)
                 (trim (stripFences fencedRiceBowl)).
Proof.
  apply (creation_repairs_then_parses_once
           (H := stubRuntime (textAnswer fencedRiceBowl) parseRiceBowl true)
           sampleEnv createRequest sampleWorld (js "secret") createPrompt
           fencedRiceBowl
           {| responseText := Ok fencedRiceBowl; candidates := Some [] |}).
  - vm_compute. reflexivity.
  - discriminate.
  - reflexivity.
  - vm_compute. reflexivity.
  - reflexivity.
  - reflexivity.
Defined.

(** The claim as it was stated fails here: the text without its fences
    parses as it is, and creation still sends it through the repair
    before the only parse; the order "strict parse first" would log one
    parse and no repair. *)
Lemma creation_repairs_text_that_parses :
  JSON_parse (Runtime := stubRuntime (textAnswer fencedRiceBowl) parseRiceBowl true)
    (trim (stripFences fencedRiceBowl)) = Ok riceBowlValue
  /\ events (snd (createRecipe
                    (H := stubRuntime (textAnswer fencedRiceBowl) parseRiceBowl true)
                    sampleEnv createRequest sampleWorld))
     = [EvGenerate (js "gemini-1.5-flash") createPrompt;
        EvJsonRepair riceBowlText; EvJsonParse riceBowlText]
  /\ events (snd (strictThenRepair
                    (H := stubRuntime (textAnswer fencedRiceBowl) parseRiceBowl true)
                    (trim (stripFences fencedRiceBowl)) sampleWorld))
     = [EvJsonParse riceBowlText]
  /\ repairAndParse (H := stubRuntime (textAnswer fencedRiceBowl) parseRiceBowl true)
       (trim (stripFences fencedRiceBowl)) sampleWorld
     <> strictThenRepair (H := stubRuntime (textAnswer fencedRiceBowl) parseRiceBowl true)
          (trim (stripFences fencedRiceBowl)) sampleWorld.
Proof.
  split; [vm_compute; reflexivity|].
  split; [vm_compute; reflexivity|].
  split; [vm_compute; reflexivity|].
  intros Heq. apply (f_equal (fun o => length (events (snd o)))) in Heq.
  vm_compute in Heq. discriminate.
Qed.

(** ** C7 *)

Lemma image_generation_instance :
  generateRecipeImage (H := stubRuntime imageAnswer noParse true)
    sampleEnv (requestFor 1 VUndefined) sampleWorld
  = (Ok (imageGenerated (set_image (dataUri (js "BBBB")) sampleRecipe)),
     withRecipe
       (withEvents sampleWorld
          [EvGenerate (js "gemini-2.5-flash-image-preview")
             (js "Create a professional, restaurant-quality food photo of the dish: Rice Bowl."
              ++ newline
              ++ js "    Style: realistic, appetizing, high resolution, well-lit.")])
       1 (set_image (dataUri (js "BBBB")) sampleRecipe)).
Proof.
  rewrite (image_generation_takes_last_inline
             (H := stubRuntime imageAnswer noParse true)
             sampleEnv (requestFor 1 VUndefined) sampleWorld (js "secret") 1).
  - vm_compute. reflexivity.
  - vm_compute. reflexivity.
  - discriminate.
  - reflexivity.
Defined.

(** The claim as it was stated fails here: the response carries the
    inline payloads AAAA and BBBB in this order, and the image that is
    stored and returned wraps BBBB, not the first one. And with the
    payloads AAAA and then the empty one, an inline image exists, yet
    the answer is "No image returned" and the recipe stays as it is. *)
Lemma image_generation_keeps_last_payload :
  head (inlinePayloads twoImages) = Some (js "AAAA")
  /\ (exists resp w' r',
        generateRecipeImage (H := stubRuntime imageAnswer noParse true)
          sampleEnv (requestFor 1 VUndefined) sampleWorld = (Ok resp, w')
        /\ status resp = 200%Z
        /\ recipes w' !! 1 = Some r'
        /\ image r' = dataUri (js "BBBB"))
  /\ dataUri (js "BBBB") <> dataUri (js "AAAA")
  /\ head (inlinePayloads emptyLastImage) = Some (js "AAAA")
  /\ (exists w',
        generateRecipeImage (H := stubRuntime emptyLastAnswer noParse true)
          sampleEnv (requestFor 1 VUndefined) sampleWorld = (Ok noImageReturned, w')
        /\ recipes w' = recipes sampleWorld).
Proof.
  split; [reflexivity|]. split.
  - eexists _, _, _. split; [vm_compute; reflexivity|].
    split; [reflexivity|]. split; vm_compute; reflexivity.
  - split; [vm_compute; discriminate|]. split; [reflexivity|].
    eexists. split; vm_compute; reflexivity.
Qed.

(** ** C5 *)


(** ** C10 *)

Lemma update_falsy_instance :
  exists resp w' r',
    updateRecipe (H := stubRuntime imageAnswer noParse true)
      (requestFor 1 (VObject [(js "title", VString []); (js "image", VNull);
                              (js "portionSize", num 0)])) sampleWorld
    = (Ok resp, w')
    /\ recipes w' !! 1 = Some r'
    /\ (forall f,
          truthy (field (VObject [(js "title", VString []); (js "image", VNull);
                                  (js "portionSize", num 0)]) (fieldKey f)) = false ->
          getField f r' = getField f sampleRecipe)
    /\ (forall f, getField f r' <> getField f sampleRecipe ->
                  truthy (getField f r') = true).
Proof.
  apply (update_never_stores_falsy
           (H := stubRuntime imageAnswer noParse true)
           (requestFor 1 (VObject [(js "title", VString []); (js "image", VNull);
                                   (js "portionSize", num 0)]))
           sampleWorld 1 sampleRecipe).
  - reflexivity.
  - reflexivity.
  - reflexivity.
Defined.

(** The claim as it was stated fails here: an empty array and an
    object of zeros are truthy, so the update stores them; the
    ingredients of recipe 1 are cleared to the empty array, and its
    nutrition values are set to zero. *)
Lemma update_clears_to_empty_and_zero :
  ingredients sampleRecipe = VArray [VString (js "2 cups rice")]
  /\ (let r' := set_ingredients (VArray []) sampleRecipe in
      updateRecipe (H := stubRuntime imageAnswer noParse true)
        (requestFor 1 (VObject [(js "ingredients", VArray [])])) sampleWorld
      = (Ok (recipeUpdated r'), withRecipe sampleWorld 1 r')
      /\ recipes (withRecipe sampleWorld 1 r') !! 1 = Some r'
      /\ ingredients r' = VArray [])
  /\ (let zeros := VObject [(js "calories", num 0); (js "protein", num 0);
                            (js "fat", num 0); (js "carbs", num 0)] in
      let r' := set_nutritionalInfo zeros sampleRecipe in
      updateRecipe (H := stubRuntime imageAnswer noParse true)
        (requestFor 1 (VObject [(js "nutritionalInfo", zeros)])) sampleWorld
      = (Ok (recipeUpdated r'), withRecipe sampleWorld 1 r')
      /\ nutritionalInfo r' = zeros
      /\ nutritionalInfo sampleRecipe <> zeros).
Proof.
  split; [reflexivity|]. split.
  - cbv zeta. split; [vm_compute; reflexivity|].
    split; [apply lookup_insert_eq | reflexivity].
  - cbv zeta. split; [vm_compute; reflexivity|].
    split; [reflexivity|]. vm_compute. discriminate.
Qed.

(** ** C3 and C4 *)

(** From the store in which user 7 and recipe 1 are not linked. *)
Lemma saving_twice_instance :
  exists resp1 w1 resp2 u1 r1,
    saveRecipe (H := imageRuntime) (requestFor 1 VUndefined) sampleWorld
    = (Ok resp1, w1)
    /\ status resp1 = 200%Z
    /\ users w1 = <[7 := u1]> (users sampleWorld)
    /\ recipes w1 = <[1 := r1]> (recipes sampleWorld)
    /\ savedRecipes u1 = Some [1]
    /\ savedBy r1 = [7]
    /\ saveRecipe (H := imageRuntime) (requestFor 1 VUndefined) w1 = (Ok resp2, w1)
    /\ status resp2 = 200%Z
    /\ timesSaved w1 7 1 = 1%nat
    /\ timesSavedBy w1 1 7 = 1%nat.
Proof.
  apply (saving_twice_keeps_one_occurrence (H := imageRuntime)
           (requestFor 1 VUndefined) sampleWorld 1 sampleUser sampleRecipe).
  - reflexivity.
  - reflexivity.
  - reflexivity.
  - vm_compute. lia.
  - vm_compute. lia.
  - reflexivity.
  - reflexivity.
Defined.

(** The claim as it was stated fails here: user 7 and recipe 1 exist,
    the user's list holds the recipe twice and the recipe's list holds
    the user twice.  Both saves answer 200 and change nothing, and
    afterwards each side still has two occurrences, not one. *)
Lemma saving_twice_keeps_duplicates :
  is_Some (users duplicatedWorld !! 7)
  /\ is_Some (recipes duplicatedWorld !! 1)
  /\ (exists resp1 resp2,
        saveRecipe (H := imageRuntime) (requestFor 1 VUndefined) duplicatedWorld
        = (Ok resp1, duplicatedWorld)
        /\ status resp1 = 200%Z
        /\ saveRecipe (H := imageRuntime) (requestFor 1 VUndefined) duplicatedWorld
           = (Ok resp2, duplicatedWorld)
        /\ status resp2 = 200%Z)
  /\ timesSaved duplicatedWorld 7 1 = 2%nat
  /\ timesSavedBy duplicatedWorld 1 7 = 2%nat.
Proof.
  split; [eexists; reflexivity|]. split; [eexists; reflexivity|].
  split.
  - eexists _, _. split; [vm_compute; reflexivity|]. split; [reflexivity|].
    split; [vm_compute; reflexivity | reflexivity].
  - split; vm_compute; reflexivity.
Qed.

(** A store that accepts both documents: the pair is linked and the
    answer is 200.  A store that refuses the recipe: the user's list
    already has the recipe when the request fails. *)
Lemma save_interrupted_instance :
  (exists resp w',
      saveRecipe (H := imageRuntime) (requestFor 1 VUndefined) sampleWorld
      = (Ok resp, w')
      /\ status resp = 200%Z
      /\ exists u' r',
           users w' = <[7 := u']> (users sampleWorld)
           /\ recipes w' = <[1 := r']> (recipes sampleWorld)
           /\ savedRecipes u' = Some [1]
           /\ savedBy r' = [7]
           /\ 1 ∈ savedOf u' /\ 7 ∈ savedBy r')
  /\ (exists resp w',
        saveRecipe (H := stubRuntime imageAnswer noParse false)
          (requestFor 1 VUndefined) sampleWorld
        = (Ok resp, w')
        /\ status resp = 500%Z
        /\ halfLinked w' 7 1).
Proof.
  split.
  - destruct (save_keeps_both_sides_in_step (H := imageRuntime)
                (requestFor 1 VUndefined) sampleWorld 1 sampleUser sampleRecipe
                eq_refl eq_refl eq_refl)
      as (resp & w' & Hrun & Haccept & _ & _).
    exists resp, w'. split; [exact Hrun|].
    apply Haccept; reflexivity.
  - destruct (save_keeps_both_sides_in_step
                (H := stubRuntime imageAnswer noParse false)
                (requestFor 1 VUndefined) sampleWorld 1 sampleUser sampleRecipe
                eq_refl eq_refl eq_refl)
      as (resp & w' & Hrun & _ & _ & Hfail).
    exists resp, w'. split; [exact Hrun|].
    apply Hfail; reflexivity.
Defined.

(** ** C2 *)

Lemma stub_bigPrintsInteger (answer : result AiResponse)
    (parse : jsstring -> result value) (recipeOk : bool) :
  bigPrintsInteger (H := stubRuntime answer parse recipeOk).
Proof.
  intros m e _. eexists. cbn [digitsOfFinite stubRuntime]. unfold integerDigits.
  apply parseFloat_decimalDigits.
Defined.

Lemma nutrition_values_instance :
  bigPrintsInteger (H := riceBowlRuntime)
  /\ parseNutrition (H := riceBowlRuntime) (VString (js "12.345 g"))
     = Ok (roundQ (1235 # 100))
  /\ nutritionNumber (roundQ (1235 # 100))
  /\ (exists prompt response aiText parsedRecipe recipe calories protein fat carbs,
        generateContent (Runtime := riceBowlRuntime) (js "gemini-1.5-flash") prompt
        = Ok response
        /\ responseText response = Ok aiText
        /\ repairParseResult (H := riceBowlRuntime) (trim (stripFences aiText))
           = Ok parsedRecipe
        /\ createdResponse = recipeCreated recipe
        /\ recipes createdWorld !! fresh (dom (recipes sampleWorld)) = Some recipe
        /\ nutritionalInfo recipe
           = VObject [(js "calories", VNumber calories);
                      (js "protein", VNumber protein);
                      (js "fat", VNumber fat); (js "carbs", VNumber carbs)]
        /\ parseNutrition (H := riceBowlRuntime)
             (suppliedNutrition parsedRecipe "calories") = Ok calories
        /\ parseNutrition (H := riceBowlRuntime)
             (suppliedNutrition parsedRecipe "protein") = Ok protein
        /\ parseNutrition (H := riceBowlRuntime)
             (suppliedNutrition parsedRecipe "fat") = Ok fat
        /\ parseNutrition (H := riceBowlRuntime)
             (suppliedNutrition parsedRecipe "carbs") = Ok carbs
        /\ nutritionNumber calories /\ nutritionNumber protein
        /\ nutritionNumber fat /\ nutritionNumber carbs).
Proof.
  pose proof (nutrition_values_are_two_decimal_numbers (H := riceBowlRuntime)
                (stub_bigPrintsInteger _ _ _)) as (_ & Hvalue & Hstored & _).
  split; [apply stub_bigPrintsInteger|].
  assert (Hrun : parseNutrition (H := riceBowlRuntime) (VString (js "12.345 g"))
                 = Ok (roundQ (1235 # 100)))
    by (vm_compute; reflexivity).
  split; [exact Hrun|].
  split; [exact (proj1 (Hvalue _ _ Hrun))|].
  apply (Hstored sampleEnv createRequest sampleWorld createdWorld createdResponse).
  - vm_compute. reflexivity.
  - vm_compute. reflexivity.
Defined.

(** The claim as it was stated fails here: the model supplies 400
    nines and a unit for the calories.  [parseNutrition] gives
    +Infinity, which is no number rounded to 2 decimals, and the
    creation answers 201 with +Infinity as the stored calories. *)
Lemma nutrition_overflow_stores_infinity :
  parseNutrition (H := hugeCaloriesRuntime) (VString (repeat 57 400 ++ js "kcal"))
  = Ok (S754_infinity false)
  /\ ~ storable (S754_infinity false)
  /\ suppliedNutrition hugeCaloriesValue "calories"
     = VString (repeat 57 400 ++ js "kcal")
  /\ exists w' recipe,
       createRecipe (H := hugeCaloriesRuntime) sampleEnv createRequest sampleWorld
       = (Ok (recipeCreated recipe), w')
       /\ recipes w' !! fresh (dom (recipes sampleWorld)) = Some recipe
       /\ field (nutritionalInfo recipe) "calories" = VNumber (S754_infinity false).
Proof.
  split; [vm_compute; reflexivity|].
  split; [exact infinity_not_storable|].
  split; [reflexivity|].
  eexists _, _. split; [vm_compute; reflexivity|].
  split; vm_compute; reflexivity.
Qed.

(** ** Further instances *)

(** The dotted capital I lowers to i followed by a combining dot, which
    the removal of everything outside a-z then drops. *)
Example normalizeCategory_dotted_capital_i :
  normalizeCategory (VString [83; 80; 304; 67; 89]) = Ok (js "spicy").
Proof. vm_compute. reflexivity. Qed.

Example normalizeCategory_not_a_string :
  normalizeCategory (VArray [VString (js "veg")]) = Throw TypeError
  /\ normalizeCategory VUndefined = Ok (js "other").
Proof. split; reflexivity. Qed.

Example parseNutrition_samples :
  let parse := parseNutrition (H := stubRuntime imageAnswer noParse true) in
  parse VUndefined = Ok posZero
  /\ parse (VString (js "n/a")) = Ok posZero
  /\ parse (VString (js "1.005")) = Ok (roundQ (100 # 100))
  /\ parse (VString (js "1.2.3")) = Ok (roundQ (120 # 100))
  /\ parse (num 40) = Ok (roundQ (4000 # 100))
  /\ parse (VObject [(js "toString", num 1)]) = Throw TypeError.
Proof. cbv zeta. repeat split; vm_compute; reflexivity. Qed.

(** Digits beyond the range of binary64 give +Infinity. *)
Example parseNutrition_overflow :
  parseNutrition (H := stubRuntime imageAnswer noParse true)
    (VString (repeat 57 400 ++ js "kcal"))
  = Ok (S754_infinity false).
Proof. vm_compute. reflexivity. Qed.

(** The exponent notation that Number::toString uses from 10^21 on
    reads back as the Number of an integer, as [bigPrintsInteger] asks. *)
Example exponent_notation_reads_as_integer :
  parseFloat (js "1e+21") = roundQ (Z.of_N (10 ^ 21) # 1)
  /\ parseFloat (js "1.2345e+25") = roundQ (Z.of_N (12345 * 10 ^ 21) # 1).
Proof. repeat split; vm_compute; reflexivity. Qed.

(** The scenario of the specification: the request for a "veg" recipe
    of rice and salt, with the fenced Rice Bowl answer of the model,
    is answered 201; the stored document has the category
    ["vegetarian"] and 200 calories, read from "200kcal". *)
Example creation_scenario :
  exists w' recipe,
    createRecipe (H := stubRuntime (textAnswer fencedRiceBowl) parseRiceBowl true)
      sampleEnv createRequest sampleWorld
    = (Ok {| status := 201;
             payload := [("message"%string, BText (js "Recipe created successfully"));
                         ("recipe"%string, BRecipe recipe)] |}, w')
    /\ recipes w' !! fresh (dom (recipes sampleWorld)) = Some recipe
    /\ category recipe = VArray [VString (js "vegetarian")]
    /\ nutritionalInfo recipe
       = VObject [(js "calories", num 200); (js "protein", num 5);
                  (js "fat", num 2); (js "carbs", num 40)].
Proof.
  eexists _, _. split; [vm_compute; reflexivity|].
  split; [vm_compute; reflexivity|]. split; vm_compute; reflexivity.
Qed.

(** * The other handlers, and more on the ones above *)

(** ** Running the remaining handlers *)

Ltac run_read :=
  cbv beta iota zeta delta
    [mbind M_bind mret M_ret lift throw reply respond tryCatch
     Recipe_findById Recipe_find Recipe_findByIdAndDelete].

Lemma getRecipeById_run (req : Request) (w : World) :
  getRecipeById req w
  = (Ok match params_id req with
        | Malformed => findFailed CastError
        | Oid n => match recipes w !! n with
                   | Some r => recipeFound r
                   | None => recipeMissing
                   end
        end, w).
Proof.
  unfold getRecipeById. run_read.
  destruct (params_id req) as [|n]; [reflexivity|].
  destruct (recipes w !! n); reflexivity.
Qed.

Lemma deleteRecipe_run (req : Request) (w : World) :
  deleteRecipe req w
  = match params_id req with
    | Malformed => (Ok (deleteFailed CastError), w)
    | Oid n => match recipes w !! n with
               | Some _ => (Ok recipeDeleted, withoutRecipe w n)
               | None => (Ok recipeNotFound, w)
               end
    end.
Proof.
  unfold deleteRecipe. run_read.
  destruct (params_id req) as [|n]; [reflexivity|].
  destruct (recipes w !! n); reflexivity.
Qed.

Lemma createRecipe_run `{Runtime}
    (env : gmap string jsstring) (req : Request) (w : World) :
  keyMissing (env !! "GOOGLE_API_KEY"%string) = false ->
  createRecipe env req w
  = if nullish (body req) then (Ok (createFailed TypeError), w) else
    let portionSize := field (body req) "portionSize" in
    let category := field (body req) "category" in
    let difficulty := field (body req) "difficulty" in
    match recipePrompt portionSize category difficulty
            (field (body req) "ingredients") with
    | Throw e => (Ok (createFailed e), w)
    | Ok prompt =>
        let w1 := withEvents w [EvGenerate (js "gemini-1.5-flash") prompt] in
        match generateContent (js "gemini-1.5-flash") prompt with
        | Throw e => (Ok (createFailed e), w1)
        | Ok response =>
            match responseText response with
            | Throw e => (Ok (createFailed e), w1)
            | Ok aiText =>
                let cleanText := trim (stripFences aiText) in
                let w2 := withEvents w1 (parseStageEvents cleanText) in
                match repairParseResult cleanText with
                | Throw _ => (Ok (invalidJson aiText), w2)
                | Ok parsedRecipe =>
                    match assembleRecipe parsedRecipe portionSize category
                            difficulty with
                    | Throw e => (Ok (createFailed e), w2)
                    | Ok recipe =>
                        if recipeSaveOk recipe
                        then (Ok (recipeCreated recipe),
                              withRecipe w2 (fresh (dom (recipes w))) recipe)
                        else (Ok (createFailed SaveError), w2)
                    end
                end
            end
        end
    end.
Proof.
  intros Hkey. unfold createRecipe. rewrite Hkey.
  destruct (nullish (body req)) eqn:Hbody.
  { rewrite !getProp_nullish by assumption. reflexivity. }
  rewrite !getProp_field by assumption. run.
  destruct (recipePrompt _ _ _ _) as [prompt|e]; [|reflexivity]. run.
  destruct (generateContent _ prompt) as [response|e]; [|reflexivity]. run.
  destruct (responseText response) as [aiText|e]; [|reflexivity]. run.
  rewrite repairAndParse_run. unfold repairParseResult, parseStageEvents.
  destruct (jsonrepair _) as [repaired|e]; [|reflexivity]. cbn [mbind result_bind rbind].
  destruct (JSON_parse repaired) as [parsedRecipe|e]; [|reflexivity].
  destruct (assembleRecipe _ _ _ _) as [recipe|e]; [|reflexivity].
  unfold Recipe_create, Recipe_save. cbn [recipes users events withEvents].
  destruct (recipeSaveOk recipe); reflexivity.
Qed.

Lemma filter_all {A} (l : list A) : List.filter (fun _ => true) l = l.
Proof. induction l as [|x l IH]; [reflexivity|]. cbn. rewrite IH. reflexivity. Qed.

Lemma getAllRecipes_run (req : Request) (w : World) :
  getAllRecipes req w = (Ok (recipesListed (map_to_list (recipes w))), w).
Proof. unfold getAllRecipes. run_read. rewrite filter_all. reflexivity. Qed.

Lemma getSavedRecipes_run (req : Request) (w : World) :
  getSavedRecipes req w
  = (Ok (savedListed
           (List.filter (fun doc => includes (savedBy (snd doc)) (user_id req))
              (map_to_list (recipes w)))), w).
Proof. reflexivity. Qed.

(** ** The document that creation assembles *)

Lemma ToString_error `{Runtime} :
  forall (v : value) (e : exn), ToString v = Throw e -> e = TypeError.
Proof.
  fix IH 1. intros [ | | b | x | s | xs | props] e; cbn [ToString]; try discriminate.
  - match goal with
    | |- ?j true xs = Throw e -> _ =>
        enough (Hj : forall first e, j first xs = Throw e -> e = TypeError)
          by apply Hj
    end.
    clear e. revert xs. fix IHxs 1. intros [|x xs] first e; [discriminate|].
    pose proof (IH x) as IHx.
    destruct (match x with VUndefined | VNull => Ok [] | _ => ToString x end)
      as [sx|ex] eqn:Hx; cbn [mbind result_bind rbind].
    + match goal with
      | |- context [?j false xs] => destruct (j false xs) as [rest|er] eqn:Hrest
      end; cbn; [discriminate|].
      intros [= <-]. exact (IHxs xs false _ Hrest).
    + intros [= <-]. destruct x; try discriminate; exact (IHx _ Hx).
  - destruct (lookupKey _ props); [intros [= <-]; reflexivity | discriminate].
Qed.

Lemma joinWith_error `{Runtime} (sep : jsstring) (xs : list value) :
  forall first e, joinWith sep first xs = Throw e -> e = TypeError.
Proof.
  induction xs as [|x xs IHxs]; intros first e; [discriminate|].
  cbn [joinWith].
  destruct (match x with VUndefined | VNull => Ok [] | _ => ToString x end)
    as [sx|ex] eqn:Hx; cbn [mbind result_bind rbind].
  - destruct (joinWith sep false xs) as [rest|er] eqn:Hrest; cbn; [discriminate|].
    intros [= <-]. exact (IHxs false _ Hrest).
  - intros [= <-]. destruct x; try discriminate; exact (ToString_error _ _ Hx).
Qed.

Lemma recipePrompt_error `{Runtime} (p c d i : value) (e : exn) :
  recipePrompt p c d i = Throw e -> e = TypeError.
Proof.
  unfold recipePrompt.
  destruct (ToString p) eqn:Hp; cbn [mbind result_bind rbind];
    [|intros [= <-]; exact (ToString_error _ _ Hp)].
  destruct (ToString c) eqn:Hc; cbn [mbind result_bind rbind];
    [|intros [= <-]; exact (ToString_error _ _ Hc)].
  destruct (ToString d) eqn:Hd; cbn [mbind result_bind rbind];
    [|intros [= <-]; exact (ToString_error _ _ Hd)].
  destruct (arrayJoin i (js ", ")) eqn:Hi; cbn [mbind result_bind rbind];
    [discriminate|].
  intros [= <-]. destruct i; cbn in Hi; try congruence.
  exact (joinWith_error _ _ _ _ Hi).
Qed.

Lemma recipePrompt_needs_array `{Runtime} (p c d i : value) :
  isArray i = false -> recipePrompt p c d i = Throw TypeError.
Proof.
  intros Hi. destruct (recipePrompt p c d i) as [prompt|e] eqn:Hrun.
  - exfalso. revert Hrun. unfold recipePrompt.
    destruct (ToString p); cbn [mbind result_bind rbind]; [|discriminate].
    destruct (ToString c); cbn [mbind result_bind rbind]; [|discriminate].
    destruct (ToString d); cbn [mbind result_bind rbind]; [|discriminate].
    destruct i; try discriminate Hi; cbn; discriminate.
  - f_equal. exact (recipePrompt_error _ _ _ _ _ Hrun).
Qed.

Lemma formatIngredient_string `{Runtime} (i v : value) :
  formatIngredient i = Ok v -> isString v = true.
Proof.
  unfold formatIngredient.
  destruct i; try (intros [= <-]; reflexivity);
    repeat match goal with
           | |- context [mbind _ ?r] =>
               destruct r; cbn [mbind result_bind rbind]; [|discriminate]
           end;
    intros [= <-]; reflexivity.
Qed.

Lemma formatIngredient_keeps_string `{Runtime} (i : value) :
  isString i = true -> formatIngredient i = Ok i.
Proof. destruct i; try discriminate. reflexivity. Qed.

Lemma mapResult_strings `{Runtime} (l l' : list value) :
  mapResult formatIngredient l = Ok l' ->
  Forall (fun x => isString x = true) l' /\ length l' = length l.
Proof.
  revert l'. induction l as [|x l IH]; intros l'; cbn [mapResult].
  - intros [= <-]. split; [constructor | reflexivity].
  - destruct (formatIngredient x) as [y|] eqn:Hy; cbn [mbind result_bind rbind];
      [|discriminate].
    destruct (mapResult formatIngredient l) as [ys|]; cbn [mbind result_bind rbind];
      [|discriminate].
    intros [= <-]. destruct (IH ys eq_refl) as [Hall Hlen].
    split; [constructor; [exact (formatIngredient_string _ _ Hy) | exact Hall]|].
    cbn. rewrite Hlen. reflexivity.
Qed.

Lemma mapResult_identity `{Runtime} (l : list value) :
  Forall (fun x => isString x = true) l -> mapResult formatIngredient l = Ok l.
Proof.
  induction 1 as [|x l Hx _ IH]; [reflexivity|].
  cbn [mapResult]. rewrite (formatIngredient_keeps_string x Hx), IH. reflexivity.
Qed.

Lemma normalizeCategory_tag (c : value) (tag : jsstring) :
  normalizeCategory c = Ok tag -> In tag categoryTags.
Proof.
  destruct (truthy c) eqn:Hc.
  - destruct c; try (unfold normalizeCategory; rewrite Hc; discriminate).
    rewrite normalizeCategory_table. intros [= <-]. apply categoryTable_tag.
  - unfold normalizeCategory. rewrite Hc. intros [= <-]. cbn. tauto.
Qed.

Lemma normalizeCategory_not_string (c : value) :
  truthy c = true -> isString c = false -> normalizeCategory c = Throw TypeError.
Proof.
  intros Ht Hs. unfold normalizeCategory. rewrite Ht.
  destruct c; try discriminate; reflexivity.
Qed.

Lemma castString_string `{Runtime} (v : value) :
  isString v = true -> castString v = Ok v.
Proof. destruct v; try discriminate. reflexivity. Qed.

Lemma mapResult_castString `{Runtime} (l : list value) :
  Forall (fun x => isString x = true) l -> mapResult castString l = Ok l.
Proof.
  induction 1 as [|x l Hx _ IH]; [reflexivity|].
  cbn [mapResult]. rewrite (castString_string x Hx), IH. reflexivity.
Qed.

Lemma castStringArray_strings `{Runtime} (v : value) :
  arrayOfStrings v -> castStringArray v = Ok v.
Proof.
  intros (l & -> & Hl). cbn [castStringArray].
  rewrite (mapResult_castString l Hl). reflexivity.
Qed.

(** The fields of a document made by [new Recipe]. *)
Lemma newRecipe_fields `{Runtime} (t d i s p c f info : value) (recipe : Recipe) :
  newRecipe t d i s p c f info = Ok recipe ->
  schemaDefaults recipe
  /\ castString t = Ok (title recipe)
  /\ castStringArray d = Ok (description recipe)
  /\ castStringArray i = Ok (ingredients recipe)
  /\ castStringArray s = Ok (instructions recipe)
  /\ castString p = Ok (portionSize recipe)
  /\ castStringArray c = Ok (category recipe)
  /\ castString f = Ok (difficulty recipe)
  /\ nutritionalInfo recipe = info.
Proof.
  unfold newRecipe.
  destruct (castString t); cbn [mbind result_bind rbind]; [|discriminate].
  destruct (castStringArray d); cbn [mbind result_bind rbind]; [|discriminate].
  destruct (castStringArray i); cbn [mbind result_bind rbind]; [|discriminate].
  destruct (castStringArray s); cbn [mbind result_bind rbind]; [|discriminate].
  destruct (castString p); cbn [mbind result_bind rbind]; [|discriminate].
  destruct (castStringArray c); cbn [mbind result_bind rbind]; [|discriminate].
  destruct (castString f); cbn [mbind result_bind rbind]; [|discriminate].
  intros [= <-]. repeat split.
Qed.

Lemma assembleRecipe_inv `{Runtime}
    (parsedRecipe portionSize0 category0 difficulty0 : value) (recipe : Recipe) :
  assembleRecipe parsedRecipe portionSize0 category0 difficulty0 = Ok recipe ->
  exists formatted tag info,
    arrayMap (field parsedRecipe "ingredients") formatIngredient = Ok formatted
    /\ normalizeCategory category0 = Ok tag
    /\ newRecipe (field parsedRecipe "title") (field parsedRecipe "description")
         formatted (field parsedRecipe "instructions") portionSize0
         (VString tag) difficulty0 info = Ok recipe.
Proof.
  unfold assembleRecipe.
  destruct (nullish parsedRecipe) eqn:Hp.
  { rewrite !getProp_nullish by assumption. cbn [mbind result_bind rbind]. discriminate. }
  rewrite !(getProp_field parsedRecipe) by assumption.
  cbn [mbind result_bind rbind].
  destruct (arrayMap _ _) as [formatted|] eqn:Hmap; [|discriminate].
  cbn [mbind result_bind rbind].
  destruct (normalizeCategory category0) as [tag|] eqn:Htag; [|discriminate].
  cbn [mbind result_bind rbind].
  destruct (nutritionField parsedRecipe "calories"); [|discriminate].
  cbn [mbind result_bind rbind].
  destruct (nutritionField parsedRecipe "protein"); [|discriminate].
  cbn [mbind result_bind rbind].
  destruct (nutritionField parsedRecipe "fat"); [|discriminate].
  cbn [mbind result_bind rbind].
  destruct (nutritionField parsedRecipe "carbs"); [|discriminate].
  cbn [mbind result_bind rbind].
  intros Hnew. eexists _, _, _. split; [reflexivity|]. split; [reflexivity|].
  exact Hnew.
Qed.

Lemma assembleRecipe_category `{Runtime}
    (parsedRecipe portionSize0 category0 difficulty0 : value) (recipe : Recipe) :
  assembleRecipe parsedRecipe portionSize0 category0 difficulty0 = Ok recipe ->
  exists tag, normalizeCategory category0 = Ok tag
              /\ category recipe = VArray [VString tag] /\ In tag categoryTags.
Proof.
  intros Hasm.
  destruct (assembleRecipe_inv _ _ _ _ _ Hasm) as (formatted & tag & info & _ & Htag & Hnew).
  apply newRecipe_fields in Hnew as (_ & _ & _ & _ & _ & _ & Hcat & _).
  exists tag. split; [exact Htag|].
  split; [cbn in Hcat; congruence | exact (normalizeCategory_tag _ _ Htag)].
Qed.

Lemma assembleRecipe_shape `{Runtime}
    (parsedRecipe portionSize0 category0 difficulty0 : value) (recipe : Recipe) :
  assembleRecipe parsedRecipe portionSize0 category0 difficulty0 = Ok recipe ->
  schemaDefaults recipe
  /\ arrayOfStrings (ingredients recipe)
  /\ arrayLength (ingredients recipe)
     = arrayLength (field parsedRecipe "ingredients")
  /\ (arrayOfStrings (field parsedRecipe "ingredients") ->
      ingredients recipe = field parsedRecipe "ingredients")
  /\ castString (field parsedRecipe "title") = Ok (title recipe)
  /\ castStringArray (field parsedRecipe "description") = Ok (description recipe)
  /\ castStringArray (field parsedRecipe "instructions") = Ok (instructions recipe)
  /\ castString portionSize0 = Ok (portionSize recipe)
  /\ castString difficulty0 = Ok (difficulty recipe).
Proof.
  intros Hasm.
  destruct (assembleRecipe_inv _ _ _ _ _ Hasm)
    as (formatted & tag & info & Hmap & _ & Hnew).
  apply newRecipe_fields in Hnew
    as (Hdef & Ht & Hd & Hi & Hs & Hp' & _ & Hf & _).
  unfold arrayMap in Hmap.
  destruct (field parsedRecipe "ingredients") as [ | | | | |l| ]; try discriminate.
  destruct (mapResult formatIngredient l) as [l'|] eqn:Hl; [|discriminate].
  cbn in Hmap. injection Hmap as <-.
  destruct (mapResult_strings l l' Hl) as [Hall Hlen].
  assert (Hing : ingredients recipe = VArray l').
  { rewrite (castStringArray_strings (VArray l')) in Hi by (exists l'; auto).
    congruence. }
  split; [exact Hdef|].
  split; [exists l'; split; [exact Hing | exact Hall]|].
  split; [rewrite Hing; cbn; rewrite Hlen; reflexivity|].
  split; [|repeat split; assumption].
  intros (l0 & [= <-] & Hstr).
  rewrite (mapResult_identity l Hstr) in Hl. congruence.
Qed.

(** ** Creation *)

(** X1. A creation that answers 201 has added exactly one document,
    under an identifier that was free: the store is the old one with
    that document inserted, the users are as before, the answer carries
    the stored document, reading the new identifier gives it back, and
    the listing of all recipes is the old listing with it added. *)
Theorem creation_adds_one_fresh_document `{Runtime}
    (env : gmap string jsstring) (req : Request) (w w' : World) (resp : Response) :
  createRecipe env req w = (Ok resp, w') -> status resp = 201%Z ->
  exists n recipe,
    resp = recipeCreated recipe
    /\ recipes w !! n = None
    /\ recipes w' = <[n := recipe]> (recipes w)
    /\ users w' = users w
    /\ getRecipeById (withId req n) w' = (Ok (recipeFound recipe), w')
    /\ exists docs docs',
         getAllRecipes req w = (Ok (recipesListed docs), w)
         /\ getAllRecipes req w' = (Ok (recipesListed docs'), w')
         /\ docs' ≡ₚ (n, recipe) :: docs.
Proof.
  intros Hrun Hst.
  destruct (keyMissing (env !! "GOOGLE_API_KEY"%string)) eqn:Hkey.
  { unfold createRecipe in Hrun. rewrite Hkey in Hrun.
    injection Hrun as <- <-. discriminate. }
  rewrite (createRecipe_run env req w Hkey) in Hrun.
  assert (Hfresh : recipes w !! fresh (dom (recipes w)) = None)
    by (apply not_elem_of_dom, is_fresh).
  repeat match type of Hrun with
         | (if ?c then _ else _) = _ => destruct c
         | match ?c with _ => _ end = _ => destruct c
         | (let _ := _ in _) = _ => cbv zeta in Hrun
         end;
    injection Hrun as <- <-; try discriminate.
  eexists _, _. split; [reflexivity|]. split; [exact Hfresh|].
  split; [reflexivity|]. split; [reflexivity|].
  split.
  - rewrite getRecipeById_run. cbn [params_id withId recipes withRecipe].
    rewrite lookup_insert_eq. reflexivity.
  - eexists _, _. rewrite !getAllRecipes_run.
    split; [reflexivity|]. split; [reflexivity|].
    cbn [recipes withRecipe withEvents].
    apply map_to_list_insert. exact Hfresh.
Qed.

(** X2. The document of a creation that answers 201, as the schema
    casts it.  Its category is the one-element array of the tag that
    [normalizeCategory] gives for the category of the request, one of
    the five tags.  Its ingredients are an array of strings, as many
    as the model listed (and the very array of the model when that held
    strings only).  Title, description and instructions are those of
    the parsed answer of the model, portion size and difficulty those
    of the request, each cast to the type of the schema: String, or
    array of String; a string and an array of strings are kept as they
    are.  The image is the default one of the schema, nobody has saved
    the recipe, and it has no rating, tag or cuisine. *)
Theorem created_document_shape `{Runtime}
    (env : gmap string jsstring) (req : Request) (w w' : World) (resp : Response) :
  createRecipe env req w = (Ok resp, w') -> status resp = 201%Z ->
  exists prompt response aiText parsedRecipe recipe,
    generateContent (js "gemini-1.5-flash") prompt = Ok response
    /\ responseText response = Ok aiText
    /\ repairParseResult (trim (stripFences aiText)) = Ok parsedRecipe
    /\ resp = recipeCreated recipe
    /\ recipes w' !! fresh (dom (recipes w)) = Some recipe
    /\ schemaDefaults recipe
    /\ (exists tag, normalizeCategory (field (body req) "category") = Ok tag
                    /\ category recipe = VArray [VString tag]
                    /\ In tag categoryTags)
    /\ arrayOfStrings (ingredients recipe)
    /\ arrayLength (ingredients recipe)
       = arrayLength (field parsedRecipe "ingredients")
    /\ (arrayOfStrings (field parsedRecipe "ingredients") ->
        ingredients recipe = field parsedRecipe "ingredients")
    /\ castString (field parsedRecipe "title") = Ok (title recipe)
    /\ castStringArray (field parsedRecipe "description") = Ok (description recipe)
    /\ castStringArray (field parsedRecipe "instructions") = Ok (instructions recipe)
    /\ castString (field (body req) "portionSize") = Ok (portionSize recipe)
    /\ castString (field (body req) "difficulty") = Ok (difficulty recipe)
    /\ (forall v, isString v = true -> castString v = Ok v)
    /\ (forall v, arrayOfStrings v -> castStringArray v = Ok v).
Proof.
  intros Hrun Hst.
  destruct (createRecipe_created env req w w' resp Hrun Hst)
    as (prompt & response & aiText & parsedRecipe & recipe
        & Hgen & Htext & Hparse & Hasm & Hstore & Hpay).
  exists prompt, response, aiText, parsedRecipe, recipe.
  split; [exact Hgen|]. split; [exact Htext|]. split; [exact Hparse|].
  split; [destruct resp as [st pay]; cbn in Hst, Hpay; subst; reflexivity|].
  split; [rewrite Hstore; apply lookup_insert_eq|].
  destruct (assembleRecipe_shape _ _ _ _ _ Hasm)
    as (Hdef & Hstr & Hlen & Hsame & Ht & Hd & Hi & Hp & Hf).
  split; [exact Hdef|].
  split; [exact (assembleRecipe_category _ _ _ _ _ Hasm)|].
  split; [exact Hstr|]. split; [exact Hlen|]. split; [exact Hsame|].
  split; [exact Ht|]. split; [exact Hd|]. split; [exact Hi|].
  split; [exact Hp|]. split; [exact Hf|].
  split; [exact castString_string | exact castStringArray_strings].
Qed.

Lemma generateCalls_withEvents (w : World) (evs : list Event) :
  generateCalls (withEvents w evs) = generateCalls w ++ List.filter isGenerate evs.
Proof. unfold generateCalls. cbn. apply List.filter_app. Qed.

Lemma parseStageEvents_no_call `{Runtime} (cleanText : jsstring) :
  List.filter isGenerate (parseStageEvents cleanText) = [].
Proof. unfold parseStageEvents. destruct (jsonrepair cleanText); reflexivity. Qed.

(** X3. Whatever a creation answers, it answers; the users are as
    before, every document that was stored is still stored unchanged,
    the recipes are exactly as before unless the answer is 201, and the
    generative service was called at most once. *)
Theorem creation_never_alters_existing `{Runtime}
    (env : gmap string jsstring) (req : Request) (w : World) :
  exists resp w',
    createRecipe env req w = (Ok resp, w')
    /\ users w' = users w
    /\ recipes w ⊆ recipes w'
    /\ (status resp <> 201%Z -> recipes w' = recipes w)
    /\ exists calls, generateCalls w' = generateCalls w ++ calls
                     /\ (length calls <= 1)%nat.
Proof.
  destruct (keyMissing (env !! "GOOGLE_API_KEY"%string)) eqn:Hkey.
  { unfold createRecipe. rewrite Hkey. eexists _, _. split; [reflexivity|].
    repeat split; try reflexivity.
    exists []. rewrite app_nil_r. split; [reflexivity | cbn; lia]. }
  rewrite (createRecipe_run env req w Hkey).
  assert (Hfresh : recipes w !! fresh (dom (recipes w)) = None)
    by (apply not_elem_of_dom, is_fresh).
  assert (Hnone : exists calls, generateCalls w = generateCalls w ++ calls
                                /\ (length calls <= 1)%nat).
  { exists []. rewrite app_nil_r. split; [reflexivity | cbn; lia]. }
  assert (Hone : forall prompt,
             exists calls,
               generateCalls (withEvents w [EvGenerate (js "gemini-1.5-flash") prompt])
               = generateCalls w ++ calls /\ (length calls <= 1)%nat).
  { intros prompt. eexists. rewrite generateCalls_withEvents.
    split; [reflexivity | cbn; lia]. }
  assert (Htwo : forall prompt cleanText,
             exists calls,
               generateCalls
                 (withEvents (withEvents w [EvGenerate (js "gemini-1.5-flash") prompt])
                    (parseStageEvents cleanText))
               = generateCalls w ++ calls /\ (length calls <= 1)%nat).
  { intros prompt cleanText. eexists.
    rewrite !generateCalls_withEvents, parseStageEvents_no_call, app_nil_r.
    split; [reflexivity | cbn; lia]. }
  repeat match goal with
         | |- context [if ?c then _ else _] => destruct c
         | |- context [match ?c with Ok _ => _ | Throw _ => _ end] => destruct c
         | |- _ => progress cbv zeta
         end;
    eexists _, _; (split; [reflexivity|]);
    (split; [reflexivity|]);
    (split; [first [reflexivity | apply insert_subseteq; exact Hfresh]|]);
    (split; [first [intros _; reflexivity | intros Hst; exfalso; apply Hst; reflexivity]|]);
    first [exact Hnone | apply Hone | apply Htwo].
Qed.

(** X4. With the credential present, a request whose [ingredients] are
    not an array (missing, a string, or no body at all) is answered
    500 "Failed to generate recipe" with a TypeError before anything
    else happens: no call to the model, nothing stored. *)
Theorem creation_without_ingredient_array `{Runtime}
    (env : gmap string jsstring) (req : Request) (w : World) :
  keyMissing (env !! "GOOGLE_API_KEY"%string) = false ->
  isArray (field (body req) "ingredients") = false ->
  createRecipe env req w = (Ok (createFailed TypeError), w).
Proof.
  intros Hkey Harr. rewrite (createRecipe_run env req w Hkey).
  destruct (nullish (body req)); [reflexivity|]. cbv zeta.
  rewrite recipePrompt_needs_array by assumption. reflexivity.
Qed.

(** X5. With the credential present, a category that is truthy and
    not a string (a number, [true], an array, an object) makes every
    creation fail with status 500 and an unchanged store: the category
    is normalised only after the model has answered, and
    [normalizeCategory] throws on such a value. *)
Theorem creation_with_non_string_category `{Runtime}
    (env : gmap string jsstring) (req : Request) (w : World) :
  keyMissing (env !! "GOOGLE_API_KEY"%string) = false ->
  truthy (field (body req) "category") = true ->
  isString (field (body req) "category") = false ->
  exists resp w',
    createRecipe env req w = (Ok resp, w')
    /\ status resp = 500%Z
    /\ recipes w' = recipes w /\ users w' = users w.
Proof.
  intros Hkey Ht Hs. rewrite (createRecipe_run env req w Hkey).
  pose proof (normalizeCategory_not_string _ Ht Hs) as Hthrow.
  repeat match goal with
         | |- context [assembleRecipe ?p ?a ?b ?c] =>
             let Hasm := fresh "Hasm" in
             destruct (assembleRecipe p a b c) eqn:Hasm;
             [apply assembleRecipe_category in Hasm;
              destruct Hasm as (tag & Hok & _); congruence|]
         | |- context [if ?c then _ else _] => destruct c
         | |- context [match ?c with Ok _ => _ | Throw _ => _ end] => destruct c
         | |- _ => progress cbv zeta
         end;
    eexists _, _; repeat split; reflexivity.
Qed.

(** X6. Failures around the model during a creation, with the
    credential present and the prompt built.  When the call to the
    model fails, or the text of its response cannot be read, the answer
    is 500 "Failed to generate recipe" with that error as details; the
    model was called once and nothing is parsed or stored.  When
    everything up to the document goes well and the store refuses the
    document, the answer is the same 500 with the error of the store,
    and recipes and users are as before. *)
Theorem creation_reports_failures `{Runtime}
    (env : gmap string jsstring) (req : Request) (w : World) (prompt : jsstring) :
  keyMissing (env !! "GOOGLE_API_KEY"%string) = false ->
  nullish (body req) = false ->
  recipePrompt (field (body req) "portionSize") (field (body req) "category")
               (field (body req) "difficulty") (field (body req) "ingredients")
    = Ok prompt ->
  let w1 := withEvents w [EvGenerate (js "gemini-1.5-flash") prompt] in
  (forall e, generateContent (js "gemini-1.5-flash") prompt = Throw e ->
             createRecipe env req w = (Ok (createFailed e), w1))
  /\ (forall response e,
        generateContent (js "gemini-1.5-flash") prompt = Ok response ->
        responseText response = Throw e ->
        createRecipe env req w = (Ok (createFailed e), w1))
  /\ (forall response aiText parsedRecipe recipe,
        generateContent (js "gemini-1.5-flash") prompt = Ok response ->
        responseText response = Ok aiText ->
        repairParseResult (trim (stripFences aiText)) = Ok parsedRecipe ->
        assembleRecipe parsedRecipe (field (body req) "portionSize")
          (field (body req) "category") (field (body req) "difficulty") = Ok recipe ->
        recipeSaveOk recipe = false ->
        exists w',
          createRecipe env req w = (Ok (createFailed SaveError), w')
          /\ recipes w' = recipes w /\ users w' = users w).
Proof.
  intros Hkey Hbody Hprompt w1.
  rewrite (createRecipe_run env req w Hkey), Hbody. cbv zeta. rewrite Hprompt.
  split; [|split].
  - intros e Hgen. rewrite Hgen. reflexivity.
  - intros response e Hgen Htext. rewrite Hgen, Htext. reflexivity.
  - intros response aiText parsedRecipe recipe Hgen Htext Hparse Hasm Hsave.
    rewrite Hgen, Htext, Hparse, Hasm, Hsave. eexists. repeat split.
Qed.

(** ** Deletion *)

Lemma generateRecipeImage_run `{Runtime}
    (env : gmap string jsstring) (req : Request) (w : World) :
  keyMissing (env !! "GOOGLE_API_KEY"%string) = false ->
  generateRecipeImage env req w
  = match params_id req with
    | Malformed => (Ok (imageFailed CastError), w)
    | Oid n =>
        match recipes w !! n with
        | None => (Ok recipeNotFound, w)
        | Some recipe =>
            match imagePrompt (title recipe) with
            | Throw e => (Ok (imageFailed e), w)
            | Ok prompt =>
                let model := js "gemini-2.5-flash-image-preview" in
                let w1 := withEvents w [EvGenerate model prompt] in
                match generateContent model prompt with
                | Throw e => (Ok (imageFailed e), w1)
                | Ok response =>
                    match candidates response with
                    | None => (Ok (imageFailed TypeError), w1)
                    | Some cs =>
                        match last (inlinePayloads cs) with
                        | None | Some [] => (Ok noImageReturned, w1)
                        | Some imageBase64 =>
                            let recipe' := set_image (dataUri imageBase64) recipe in
                            if recipeSaveOk recipe'
                            then (Ok (imageGenerated recipe'), withRecipe w1 n recipe')
                            else (Ok (imageFailed SaveError), w1)
                        end
                    end
                end
            end
        end
    end.
Proof.
  intros Hkey. unfold generateRecipeImage. rewrite Hkey. run.
  destruct (params_id req) as [|n]; [reflexivity|].
  destruct (recipes w !! n) as [recipe|]; [|reflexivity].
  destruct (imagePrompt (title recipe)) as [prompt|e]; [|reflexivity].
  cbn zeta.
  destruct (generateContent _ prompt) as [response|e]; [|reflexivity].
  destruct (candidates response) as [cs|]; [|reflexivity].
  rewrite scanCandidates_last.
  destruct (last (inlinePayloads cs)) as [[|c0 d]|]; try reflexivity.
  unfold Recipe_save, dataUri. cbn.
  destruct (recipeSaveOk _); reflexivity.
Qed.

Lemma saveRecipe_malformed `{Runtime} (req : Request) (w : World) :
  params_id req = Malformed -> saveRecipe req w = (Ok (saveFailed CastError), w).
Proof. intros Hid. unfold saveRecipe. rewrite Hid. reflexivity. Qed.

Lemma updateRecipe_nullish `{Runtime} (req : Request) (w : World) :
  nullish (body req) = true -> updateRecipe req w = (Ok (updateFailed TypeError), w).
Proof.
  intros Hb. unfold updateRecipe. rewrite !getProp_nullish by assumption. reflexivity.
Qed.

Lemma updateRecipe_malformed `{Runtime} (req : Request) (w : World) :
  nullish (body req) = false -> params_id req = Malformed ->
  updateRecipe req w = (Ok (updateFailed CastError), w).
Proof.
  intros Hb Hid. unfold updateRecipe. rewrite Hid.
  rewrite !getProp_field by assumption. reflexivity.
Qed.

(** X7. Deleting a stored recipe answers 200 and removes that document
    and nothing else: users, the call log and the other recipes are as
    before, and the listing of all recipes loses exactly that document.
    Afterwards the identifier is unknown to every handler: reading,
    deleting again, updating, saving and image generation all answer
    404 and change nothing (image generation without calling the model). *)
Theorem deleted_recipe_is_gone_everywhere `{Runtime}
    (req : Request) (w : World) (n : N) (r : Recipe) :
  params_id req = Oid n -> recipes w !! n = Some r ->
  let w' := withoutRecipe w n in
  deleteRecipe req w = (Ok recipeDeleted, w')
  /\ users w' = users w /\ events w' = events w
  /\ (forall m, m <> n -> recipes w' !! m = recipes w !! m)
  /\ (exists docs docs',
        getAllRecipes req w = (Ok (recipesListed docs), w)
        /\ getAllRecipes req w' = (Ok (recipesListed docs'), w')
        /\ docs ≡ₚ (n, r) :: docs')
  /\ getRecipeById req w' = (Ok recipeMissing, w')
  /\ deleteRecipe req w' = (Ok recipeNotFound, w')
  /\ (nullish (body req) = false -> updateRecipe req w' = (Ok recipeNotFound, w'))
  /\ saveRecipe req w' = (Ok saveNotFound, w')
  /\ (forall env, keyMissing (env !! "GOOGLE_API_KEY"%string) = false ->
                  generateRecipeImage env req w' = (Ok recipeNotFound, w')).
Proof.
  intros Hid Hr w'.
  assert (Hgone : recipes w' !! n = None) by apply lookup_delete_eq.
  split; [rewrite deleteRecipe_run, Hid, Hr; reflexivity|].
  split; [reflexivity|]. split; [reflexivity|].
  split; [intros m Hm; apply lookup_delete_ne; congruence|].
  split.
  { eexists _, _. rewrite !getAllRecipes_run.
    split; [reflexivity|]. split; [reflexivity|].
    symmetry. apply map_to_list_delete. exact Hr. }
  split; [rewrite getRecipeById_run, Hid, Hgone; reflexivity|].
  split; [rewrite deleteRecipe_run, Hid, Hgone; reflexivity|].
  split; [intros Hb; rewrite (updateRecipe_run req w' n Hid Hb), Hgone; reflexivity|].
  split; [rewrite (saveRecipe_run req w' n Hid); cbv zeta; rewrite Hgone; reflexivity|].
  intros env Hkey. rewrite (generateRecipeImage_run env req w' Hkey), Hid, Hgone.
  reflexivity.
Qed.

(** X8. Deletion answers for every request, and it writes only when
    the identifier names a stored recipe: a malformed identifier gives
    500, an unknown one 404, both with the world unchanged.  It never
    touches the users: a user who had saved the recipe still lists its
    identifier afterwards, although no such recipe is stored. *)
Theorem deletion_leaves_saved_references `{Runtime} (req : Request) (w : World) :
  exists resp w',
    deleteRecipe req w = (Ok resp, w')
    /\ users w' = users w
    /\ (params_id req = Malformed -> resp = deleteFailed CastError /\ w' = w)
    /\ (forall n, params_id req = Oid n -> recipes w !! n = None ->
                  resp = recipeNotFound /\ w' = w)
    /\ (forall n uid u,
          params_id req = Oid n -> is_Some (recipes w !! n) ->
          users w !! uid = Some u -> n ∈ savedOf u ->
          status resp = 200%Z /\ recipes w' !! n = None
          /\ exists u', users w' !! uid = Some u' /\ n ∈ savedOf u').
Proof.
  rewrite deleteRecipe_run.
  destruct (params_id req) as [|n] eqn:Hid.
  - eexists _, _. split; [reflexivity|]. split; [reflexivity|].
    split; [intros _; split; reflexivity|].
    split; intros; discriminate.
  - destruct (recipes w !! n) as [r|] eqn:Hr.
    + eexists _, _. split; [reflexivity|]. split; [reflexivity|].
      split; [discriminate|].
      split; [intros m [= <-] Hm; congruence|].
      intros m uid u [= <-] _ Hu Hin.
      split; [reflexivity|]. split; [apply lookup_delete_eq|].
      exists u. split; assumption.
    + eexists _, _. split; [reflexivity|]. split; [reflexivity|].
      split; [discriminate|].
      split; [intros m _ _; split; reflexivity|].
      intros m uid u [= <-] [r Hr']. congruence.
Qed.

(** ** Update, once more *)

Lemma recipe_ext (r1 r2 : Recipe) :
  (forall f, getField f r1 = getField f r2) -> otherFields r1 = otherFields r2 ->
  r1 = r2.
Proof.
  intros Hf Ho.
  pose proof (Hf FTitle). pose proof (Hf FDescription). pose proof (Hf FIngredients).
  pose proof (Hf FInstructions). pose proof (Hf FPortionSize).
  pose proof (Hf FCategory). pose proof (Hf FDifficulty).
  pose proof (Hf FNutritionalInfo). pose proof (Hf FImage).
  destruct r1, r2. unfold otherFields in Ho. cbn in *.
  injection Ho as -> -> -> -> ->. congruence.
Qed.

Lemma assignedValue_twice (f : FieldName) (v : value) :
  assignedValue f (assignedValue f v) = assignedValue f v.
Proof. destruct f; try reflexivity. cbn. destruct (isArray v) eqn:Hv; [rewrite Hv|]; reflexivity. Qed.

Lemma patched_idempotent (b : value) (r : Recipe) :
  patched b (patched b r) = patched b r.
Proof.
  apply recipe_ext.
  - intros f. rewrite !patched_getField.
    destruct (truthy (field b (fieldKey f))); reflexivity.
  - rewrite !patched_others. reflexivity.
Qed.

(** X9. Update is idempotent: when an update is answered 200, sending
    the same request again is answered in the same way and leaves the
    store exactly as the first update left it. *)
Theorem update_twice_is_update_once `{Runtime}
    (req : Request) (w w1 : World) (resp : Response) :
  updateRecipe req w = (Ok resp, w1) -> status resp = 200%Z ->
  updateRecipe req w1 = (Ok resp, w1).
Proof.
  intros Hrun Hst.
  destruct (nullish (body req)) eqn:Hb.
  { rewrite (updateRecipe_nullish req w Hb) in Hrun.
    injection Hrun as <- <-. discriminate. }
  destruct (params_id req) as [|n] eqn:Hid.
  { rewrite (updateRecipe_malformed req w Hb Hid) in Hrun.
    injection Hrun as <- <-. discriminate. }
  rewrite (updateRecipe_run req w n Hid Hb) in Hrun.
  destruct (recipes w !! n) as [r|] eqn:Hr;
    [|injection Hrun as <- <-; discriminate].
  destruct (recipeSaveOk (patched (body req) r)) eqn:Hok;
    injection Hrun as <- <-; [|discriminate].
  rewrite (updateRecipe_run req _ n Hid Hb).
  cbn [recipes withRecipe]. rewrite lookup_insert_eq, patched_idempotent, Hok.
  f_equal. apply withRecipe_same. cbn. apply lookup_insert_eq.
Qed.

(** X10. Whatever an update answers, it answers, and it touches at most
    the one recipe it names: users and call log are as before, no
    document is created or removed, every other recipe is unchanged, and
    nothing at all changes unless the answer is 200. *)
Theorem update_touches_one_recipe_only `{Runtime} (req : Request) (w : World) :
  exists resp w',
    updateRecipe req w = (Ok resp, w')
    /\ users w' = users w /\ events w' = events w
    /\ dom (recipes w') = dom (recipes w)
    /\ (forall m, params_id req <> Oid m -> recipes w' !! m = recipes w !! m)
    /\ (status resp <> 200%Z -> w' = w).
Proof.
  destruct (nullish (body req)) eqn:Hb.
  { rewrite (updateRecipe_nullish req w Hb). eexists _, _. repeat split. }
  destruct (params_id req) as [|n] eqn:Hid.
  { rewrite (updateRecipe_malformed req w Hb Hid). eexists _, _. repeat split. }
  rewrite (updateRecipe_run req w n Hid Hb).
  destruct (recipes w !! n) as [r|] eqn:Hr; [|eexists _, _; repeat split].
  destruct (recipeSaveOk _); [|eexists _, _; repeat split].
  eexists _, _. split; [reflexivity|]. split; [reflexivity|]. split; [reflexivity|].
  split; [apply dom_insert_lookup_L; rewrite Hr; eexists; reflexivity|].
  split; [intros m Hm; apply lookup_insert_ne; congruence|].
  intros Hst. exfalso. apply Hst. reflexivity.
Qed.

(** X11. Requests that an update refuses before it looks anything up:
    without a body the answer is 500 with a TypeError, whatever the
    identifier; with a body and a malformed identifier it is 500 with
    the cast error of the store.  The world is unchanged in both cases. *)
Theorem update_rejects_bad_requests `{Runtime} (req : Request) (w : World) :
  (nullish (body req) = true ->
   updateRecipe req w = (Ok (updateFailed TypeError), w))
  /\ (nullish (body req) = false -> params_id req = Malformed ->
      updateRecipe req w = (Ok (updateFailed CastError), w)).
Proof.
  split; [apply updateRecipe_nullish | apply updateRecipe_malformed].
Qed.

(** X12. Read after write: when an update is answered 200, reading the
    same identifier afterwards answers 200 with the very document the
    update returned, and the read changes nothing. *)
Theorem updated_recipe_is_read_back `{Runtime}
    (req : Request) (w w' : World) (resp : Response) :
  updateRecipe req w = (Ok resp, w') -> status resp = 200%Z ->
  exists r',
    resp = recipeUpdated r'
    /\ getRecipeById req w' = (Ok (recipeFound r'), w').
Proof.
  intros Hrun Hst.
  destruct (nullish (body req)) eqn:Hb.
  { rewrite (updateRecipe_nullish req w Hb) in Hrun.
    injection Hrun as <- <-. discriminate. }
  destruct (params_id req) as [|n] eqn:Hid.
  { rewrite (updateRecipe_malformed req w Hb Hid) in Hrun.
    injection Hrun as <- <-. discriminate. }
  rewrite (updateRecipe_run req w n Hid Hb) in Hrun.
  destruct (recipes w !! n) as [r|] eqn:Hr;
    [|injection Hrun as <- <-; discriminate].
  destruct (recipeSaveOk (patched (body req) r)) eqn:Hok;
    injection Hrun as <- <-; [|discriminate].
  eexists. split; [reflexivity|].
  rewrite getRecipeById_run, Hid. cbn [recipes withRecipe].
  rewrite lookup_insert_eq. reflexivity.
Qed.

(** ** Saving, once more *)

Lemma savedListsGrew_refl (uid rid : N) (w : World) : savedListsGrew uid rid w w.
Proof.
  unfold savedListsGrew. repeat split.
  - destruct (users w !! uid); [split; reflexivity | exact I].
  - destruct (recipes w !! rid); [split; reflexivity | exact I].
Qed.

Lemma savedListsGrew_build (uid rid : N) (w : World) (u : User) (r : Recipe)
    (us : gmap N User) (rs : gmap N Recipe) :
  users w !! uid = Some u -> recipes w !! rid = Some r ->
  us = users w \/ us = <[uid := userWithSaved u rid]> (users w) ->
  rs = recipes w \/ rs = <[rid := recipeWithSaver r uid]> (recipes w) ->
  savedListsGrew uid rid w {| recipes := rs; users := us; events := events w |}.
Proof.
  intros Hu Hr Hus Hrs. unfold savedListsGrew. cbn.
  split; [reflexivity|]. split.
  { intros i Hi. destruct Hus as [-> | ->]; [reflexivity|].
    apply lookup_insert_ne. congruence. }
  split.
  { intros i Hi. destruct Hrs as [-> | ->]; [reflexivity|].
    apply lookup_insert_ne. congruence. }
  rewrite Hu, Hr. split.
  - destruct Hus as [-> | ->].
    + rewrite Hu. split; reflexivity.
    + rewrite lookup_insert_eq. split; [reflexivity|].
      unfold savedOf at 2. cbn. apply prefix_app_r. reflexivity.
  - destruct Hrs as [-> | ->].
    + rewrite Hr. split; reflexivity.
    + rewrite lookup_insert_eq. split; [reflexivity|].
      cbn. apply prefix_app_r. reflexivity.
Qed.

(** X13. Whatever a save answers, it answers, and it changes nothing
    but the two lists of the pair it names: the call log, the other
    users and the other recipes are as before, no document appears or
    disappears, the user keeps the rest of the account and the recipe
    all its fields except [savedBy], and the user's saved recipes and
    the recipe's [savedBy] keep every entry they had, in order. *)
Theorem save_changes_only_the_two_lists `{Runtime}
    (req : Request) (w : World) (rid : N) :
  params_id req = Oid rid ->
  exists resp w',
    saveRecipe req w = (Ok resp, w')
    /\ savedListsGrew (user_id req) rid w w'.
Proof.
  intros Hid. rewrite (saveRecipe_run req w rid Hid). cbv zeta.
  destruct (recipes w !! rid) as [r|] eqn:Hr;
    [|eexists _, _; split; [reflexivity | apply savedListsGrew_refl]].
  destruct (users w !! user_id req) as [u|] eqn:Hu;
    [|eexists _, _; split; [reflexivity | apply savedListsGrew_refl]].
  destruct (includes (savedOf u) rid);
    [|destruct (userSaveOk _)];
    try destruct (includes (savedBy r) (user_id req));
    try destruct (recipeSaveOk _);
    eexists _, _; (split; [reflexivity|]);
    first [ apply savedListsGrew_refl
          | apply (savedListsGrew_build _ _ w u r); auto ].
Qed.

(** X14. A save that names no stored pair writes nothing: a malformed
    identifier gives 500 with the cast error, an identifier that is not
    stored gives 404, and a stored recipe with a requesting user that
    is not stored gives 500 with a TypeError. *)
Theorem save_rejects_unknown_ids `{Runtime} (req : Request) (w : World) :
  (params_id req = Malformed -> saveRecipe req w = (Ok (saveFailed CastError), w))
  /\ (forall rid, params_id req = Oid rid -> recipes w !! rid = None ->
                  saveRecipe req w = (Ok saveNotFound, w))
  /\ (forall rid, params_id req = Oid rid -> is_Some (recipes w !! rid) ->
                  users w !! user_id req = None ->
                  saveRecipe req w = (Ok (saveFailed TypeError), w)).
Proof.
  split; [apply saveRecipe_malformed|]. split.
  - intros rid Hid Hr. rewrite (saveRecipe_run req w rid Hid). cbv zeta.
    rewrite Hr. reflexivity.
  - intros rid Hid [r Hr] Hu. rewrite (saveRecipe_run req w rid Hid). cbv zeta.
    rewrite Hr, Hu. reflexivity.
Qed.

(** X15. A save that stopped half way is completed by trying again:
    when the user's list already holds the recipe and the recipe's
    [savedBy] does not hold the user, a save whose write of the recipe
    goes through answers 200, writes the recipe only (the user is not
    written again and the list gets no second entry), and leaves the
    pair linked in both directions. *)
Theorem save_retry_completes_the_link `{Runtime}
    (req : Request) (w : World) (rid : N) (u : User) (r : Recipe) :
  params_id req = Oid rid ->
  users w !! user_id req = Some u -> recipes w !! rid = Some r ->
  rid ∈ savedOf u -> user_id req ∉ savedBy r ->
  recipeSaveOk (recipeWithSaver r (user_id req)) = true ->
  let w' := withRecipe w rid (recipeWithSaver r (user_id req)) in
  saveRecipe req w = (Ok (recipeSaved u), w')
  /\ linked w' (user_id req) rid
  /\ users w' = users w.
Proof.
  intros Hid Hu Hr Hin Hnot Hok w'.
  assert (Hu0 : userInitialised u = u).
  { unfold userInitialised, savedOf in *. destruct u as [[l|] acct]; [reflexivity|].
    cbn in Hin. apply elem_of_nil in Hin. contradiction. }
  split.
  - rewrite (saveRecipe_run req w rid Hid). cbv zeta. rewrite Hr, Hu.
    rewrite (proj2 (includes_true _ _) Hin), (proj2 (includes_false _ _) Hnot), Hok, Hu0.
    reflexivity.
  - split; [|reflexivity].
    exists u, (recipeWithSaver r (user_id req)). cbn. rewrite lookup_insert_eq.
    repeat split; [exact Hu | exact Hin |].
    apply elem_of_app. right. apply list_elem_of_singleton. reflexivity.
Qed.

(** ** The saved recipes of a user *)

Lemma savedDocs_elem (req : Request) (w : World) (n : N) (r : Recipe) :
  (n, r) ∈ savedDocs req w <-> recipes w !! n = Some r /\ user_id req ∈ savedBy r.
Proof.
  unfold savedDocs. rewrite list_elem_of_In, filter_In, <- list_elem_of_In.
  rewrite elem_of_map_to_list. cbn. rewrite includes_true. reflexivity.
Qed.

Lemma NoDup_List_filter {A} (f : A -> bool) (l : list A) :
  NoDup l -> NoDup (List.filter f l).
Proof.
  induction 1 as [|x l Hx _ IH]; cbn; [constructor|].
  destruct (f x); [|exact IH].
  constructor; [|exact IH].
  rewrite list_elem_of_In, filter_In, <- list_elem_of_In. tauto.
Qed.

(** X16. [getSavedRecipes] always answers 200 and changes nothing.  It
    lists, each once, exactly the stored recipes whose [savedBy] holds
    the requesting user: it reads the recipes' side of the relation.
    In a store where the two sides agree these are exactly the stored
    recipes of the user's own list; a recipe that is only in the
    user's list (a save that stopped half way) is not listed. *)
Theorem saved_listing_follows_savedBy (req : Request) (w : World) :
  getSavedRecipes req w = (Ok (savedListed (savedDocs req w)), w)
  /\ NoDup (savedDocs req w)
  /\ (forall n r, (n, r) ∈ savedDocs req w
                  <-> recipes w !! n = Some r /\ user_id req ∈ savedBy r)
  /\ (forall u, consistent w -> users w !! user_id req = Some u ->
        forall n r, (n, r) ∈ savedDocs req w
                    <-> recipes w !! n = Some r /\ n ∈ savedOf u)
  /\ (forall rid, halfLinked w (user_id req) rid ->
        forall r, (rid, r) ∉ savedDocs req w).
Proof.
  split; [reflexivity|].
  split; [unfold savedDocs; apply NoDup_List_filter, NoDup_map_to_list|].
  split; [apply savedDocs_elem|]. split.
  - intros u Hcons Hu n r. rewrite savedDocs_elem. split.
    + intros [Hr Hby]. split; [exact Hr|]. apply (Hcons _ _ _ _ Hu Hr). exact Hby.
    + intros [Hr Hin]. split; [exact Hr|]. apply (Hcons _ _ _ _ Hu Hr). exact Hin.
  - intros rid (u & r0 & Hu & Hr0 & Hin & Hnot) r. rewrite savedDocs_elem.
    intros [Hr Hby]. rewrite Hr0 in Hr. injection Hr as <-. contradiction.
Qed.

(** X17. After a save that is answered 200, the recipe is among the
    saved recipes that [getSavedRecipes] lists for that user, as the
    document now stored, and every recipe that was listed before the
    save is still listed. *)
Theorem saved_recipe_is_listed `{Runtime}
    (req : Request) (w w' : World) (resp : Response) :
  saveRecipe req w = (Ok resp, w') -> status resp = 200%Z ->
  exists rid r',
    params_id req = Oid rid
    /\ recipes w' !! rid = Some r'
    /\ (rid, r') ∈ savedDocs req w'
    /\ getSavedRecipes req w' = (Ok (savedListed (savedDocs req w')), w')
    /\ (forall n, (exists r, (n, r) ∈ savedDocs req w) ->
                  exists r, (n, r) ∈ savedDocs req w').
Proof.
  intros Hrun Hst.
  destruct (params_id req) as [|rid] eqn:Hid.
  { rewrite (saveRecipe_malformed req w Hid) in Hrun.
    injection Hrun as <- <-. discriminate. }
  pose proof Hrun as Hrun0.
  rewrite (saveRecipe_run req w rid Hid) in Hrun0. cbv zeta in Hrun0.
  destruct (recipes w !! rid) as [r|] eqn:Hr;
    [|injection Hrun0 as <- <-; discriminate].
  destruct (users w !! user_id req) as [u|] eqn:Hu;
    [|injection Hrun0 as <- <-; discriminate].
  clear Hrun0.
  destruct (saveRecipe_success req w w' rid u r resp Hid Hu Hr Hrun Hst)
    as (u' & r' & Hus & Hrs & _ & Hsaved & Hby).
  assert (Hr' : recipes w' !! rid = Some r')
    by (rewrite Hrs; apply lookup_insert_eq).
  exists rid, r'. split; [reflexivity|]. split; [exact Hr'|].
  split.
  { apply savedDocs_elem. split; [exact Hr'|].
    rewrite Hby. apply pushUnlessIncluded_elem. right. reflexivity. }
  split; [reflexivity|].
  intros n [r0 Hlisted]. apply savedDocs_elem in Hlisted as [Hr0 Hin0].
  destruct (decide (n = rid)) as [->|Hne].
  - exists r'. apply savedDocs_elem. split; [exact Hr'|].
    rewrite Hby. apply pushUnlessIncluded_elem. right. reflexivity.
  - exists r0. apply savedDocs_elem. split; [|exact Hin0].
    rewrite Hrs, lookup_insert_ne by congruence. exact Hr0.
Qed.

(** ** Image generation, once more *)

(** X18. An image generation that is answered 200 has changed the
    image of the named recipe and nothing else: the document stored and
    returned is the old one with a new image, the users are as before,
    and reading the recipe afterwards gives that document.  The new
    image is a data URI that wraps a payload of the response, which is
    not empty, and it is always labelled image/png, whatever MIME type
    the model gave for the payload. *)
Theorem image_generation_changes_only_the_image `{Runtime}
    (env : gmap string jsstring) (req : Request) (w w' : World) (resp : Response) :
  generateRecipeImage env req w = (Ok resp, w') -> status resp = 200%Z ->
  exists n recipe prompt response cs imageBase64,
    params_id req = Oid n /\ recipes w !! n = Some recipe
    /\ imagePrompt (title recipe) = Ok prompt
    /\ generateContent (js "gemini-2.5-flash-image-preview") prompt = Ok response
    /\ candidates response = Some cs
    /\ In imageBase64 (inlinePayloads cs) /\ imageBase64 <> []
    /\ let recipe' := set_image (dataUri imageBase64) recipe in
       resp = imageGenerated recipe'
       /\ recipes w' = <[n := recipe']> (recipes w)
       /\ users w' = users w
       /\ image recipe' = VString (js "data:image/png;base64," ++ imageBase64)
       /\ exceptImage recipe' = exceptImage recipe
       /\ getRecipeById req w' = (Ok (recipeFound recipe'), w').
Proof.
  intros Hrun Hst.
  destruct (keyMissing (env !! "GOOGLE_API_KEY"%string)) eqn:Hkey.
  { unfold generateRecipeImage in Hrun. rewrite Hkey in Hrun.
    injection Hrun as <- <-. discriminate. }
  rewrite (generateRecipeImage_run env req w Hkey) in Hrun.
  destruct (params_id req) as [|n] eqn:Hid;
    [injection Hrun as <- <-; discriminate|].
  destruct (recipes w !! n) as [recipe|] eqn:Hr;
    [|injection Hrun as <- <-; discriminate].
  destruct (imagePrompt (title recipe)) as [prompt|e] eqn:Hprompt;
    [|injection Hrun as <- <-; discriminate].
  cbv zeta in Hrun.
  destruct (generateContent _ prompt) as [response|e] eqn:Hgen;
    [|injection Hrun as <- <-; discriminate].
  destruct (candidates response) as [cs|] eqn:Hcs;
    [|injection Hrun as <- <-; discriminate].
  destruct (last (inlinePayloads cs)) as [[|c0 d]|] eqn:Hlast;
    try (injection Hrun as <- <-; discriminate).
  destruct (recipeSaveOk _); injection Hrun as <- <-; [|discriminate].
  exists n, recipe, prompt, response, cs, (c0 :: d).
  split; [reflexivity|]. split; [exact Hr|]. split; [exact Hprompt|].
  split; [exact Hgen|]. split; [exact Hcs|].
  split.
  { apply list_elem_of_In. apply last_Some in Hlast as [l' ->].
    apply elem_of_app. right. apply list_elem_of_singleton. reflexivity. }
  split; [discriminate|]. cbv zeta.
  split; [reflexivity|]. split; [reflexivity|]. split; [reflexivity|].
  split; [reflexivity|]. split; [reflexivity|].
  rewrite getRecipeById_run, Hid. cbn [recipes withRecipe].
  rewrite lookup_insert_eq. reflexivity.
Qed.

(** X19. Whatever image generation answers, it answers, and it touches
    at most the one recipe it names: users are as before, no document
    is created or removed, every other recipe is unchanged, the recipes
    change only with the answer 200, the model is called at most once,
    and for an identifier that is malformed or not stored nothing at
    all happens, the model is not called. *)
Theorem image_generation_touches_one_recipe_only `{Runtime}
    (env : gmap string jsstring) (req : Request) (w : World) :
  exists resp w',
    generateRecipeImage env req w = (Ok resp, w')
    /\ users w' = users w
    /\ dom (recipes w') = dom (recipes w)
    /\ (forall m, params_id req <> Oid m -> recipes w' !! m = recipes w !! m)
    /\ (status resp <> 200%Z -> recipes w' = recipes w)
    /\ ((forall n, params_id req = Oid n -> recipes w !! n = None) -> w' = w)
    /\ exists calls, generateCalls w' = generateCalls w ++ calls
                     /\ (length calls <= 1)%nat.
Proof.
  assert (Hnone : exists calls, generateCalls w = generateCalls w ++ calls
                                /\ (length calls <= 1)%nat).
  { exists []. rewrite app_nil_r. split; [reflexivity | cbn; lia]. }
  destruct (keyMissing (env !! "GOOGLE_API_KEY"%string)) eqn:Hkey.
  { unfold generateRecipeImage. rewrite Hkey. eexists _, _.
    split; [reflexivity|]. repeat split; try reflexivity. exact Hnone. }
  rewrite (generateRecipeImage_run env req w Hkey).
  destruct (params_id req) as [|n] eqn:Hid.
  { eexists _, _. split; [reflexivity|]. repeat split; try reflexivity. exact Hnone. }
  destruct (recipes w !! n) as [recipe|] eqn:Hr.
  2:{ eexists _, _. split; [reflexivity|]. repeat split; try reflexivity. exact Hnone. }
  assert (Hstored : (forall n0, Oid n = Oid n0 -> recipes w !! n0 = None) ->
                    forall w0 : World, w0 = w).
  { intros Habs. specialize (Habs n eq_refl). congruence. }
  destruct (imagePrompt (title recipe)) as [prompt|e].
  2:{ eexists _, _. split; [reflexivity|]. repeat split; try reflexivity. exact Hnone. }
  cbv zeta.
  assert (Hone : exists calls,
             generateCalls
               (withEvents w [EvGenerate (js "gemini-2.5-flash-image-preview") prompt])
             = generateCalls w ++ calls /\ (length calls <= 1)%nat).
  { eexists. rewrite generateCalls_withEvents. split; [reflexivity | cbn; lia]. }
  destruct (generateContent _ prompt) as [response|e];
    [destruct (candidates response) as [cs|];
     [destruct (last (inlinePayloads cs)) as [[|c0 d]|];
      [| destruct (recipeSaveOk _) |] |] |];
    eexists _, _; (split; [reflexivity|]);
    (split; [reflexivity|]);
    (split; [first [reflexivity
                   | apply dom_insert_lookup_L; cbn; rewrite Hr; eexists; reflexivity]|]);
    (split; [first [intros m Hm; reflexivity
                   | intros m Hm; apply lookup_insert_ne; congruence]|]);
    (split; [first [intros _; reflexivity
                   | intros Hst; exfalso; apply Hst; reflexivity]|]);
    (split; [intros Habs; apply (Hstored Habs)|]);
    exact Hone.
Qed.

(** ** Reading *)

(** X20. The three reading handlers answer every request and never
    change the world.  Reading one recipe answers 400 with the cast
    error for a malformed identifier, 404 for an identifier that is not
    stored, and 200 with the stored document otherwise; the listing of
    all recipes answers 200 with every stored document exactly once. *)
Theorem reading_changes_nothing (req : Request) (w : World) :
  (exists docs,
      getAllRecipes req w = (Ok (recipesListed docs), w)
      /\ NoDup docs
      /\ length docs = size (recipes w)
      /\ forall n r, (n, r) ∈ docs <-> recipes w !! n = Some r)
  /\ getRecipeById req w
     = (Ok match params_id req with
           | Malformed => findFailed CastError
           | Oid n => match recipes w !! n with
                      | Some r => recipeFound r
                      | None => recipeMissing
                      end
           end, w)
  /\ exists docs, getSavedRecipes req w = (Ok (savedListed docs), w).
Proof.
  split.
  - exists (map_to_list (recipes w)). split; [apply getAllRecipes_run|].
    split; [apply NoDup_map_to_list|].
    split; [apply length_map_to_list|].
    intros n r. apply elem_of_map_to_list.
  - split; [apply getRecipeById_run|]. eexists. reflexivity.
Qed.

(** ** Code fences *)

Lemma fence_units : fence = [96; 96; 96].
Proof. reflexivity. Qed.

Lemma jsonFence_units : js "```json" = [96; 96; 96; 106; 115; 111; 110].
Proof. reflexivity. Qed.

Lemma leadingTicks_cons (c : N) (s : jsstring) :
  leadingTicks (c :: s) = if isTick c then S (leadingTicks s) else 0%nat.
Proof. unfold leadingTicks. cbn. destruct (isTick c); reflexivity. Qed.

Lemma startsWith_fence (s : jsstring) :
  startsWith fence s = (3 <=? leadingTicks s)%nat.
Proof.
  rewrite fence_units.
  destruct s as [|a [|b [|c r]]]; cbn [startsWith];
    rewrite ?leadingTicks_cons; unfold isTick;
    rewrite ?(N.eqb_sym 96);
    repeat match goal with
           | |- context [?x =? 96] => destruct (x =? 96)
           end; reflexivity.
Qed.

Lemma startsWith_jsonFence (s : jsstring) :
  startsWith fence s = false -> startsWith (js "```json") s = false.
Proof.
  rewrite fence_units, jsonFence_units.
  destruct s as [|a [|b [|c r]]]; cbn [startsWith];
    repeat match goal with
           | |- context [96 =? ?x] => destruct (96 =? x)
           end; cbn; intros Hf; try discriminate Hf; reflexivity.
Qed.

Lemma stripFencesFrom_skip (k : nat) (s : jsstring) :
  stripFencesFrom k s = stripFencesFrom 0 (drop k s).
Proof.
  revert k. induction s as [|c s IH]; intros [|k]; try reflexivity.
  cbn [stripFencesFrom drop]. apply IH.
Qed.

Lemma stripFencesFrom_cons (c : N) (s : jsstring) :
  stripFencesFrom 0 (c :: s)
  = if startsWith (js "```json") (c :: s) then stripFencesFrom 0 (drop 6 s)
    else if startsWith fence (c :: s) then stripFencesFrom 0 (drop 2 s)
    else c :: stripFencesFrom 0 s.
Proof.
  cbn [stripFencesFrom]. unfold fence.
  rewrite (stripFencesFrom_skip 6), (stripFencesFrom_skip 2). reflexivity.
Qed.

Lemma stripFencesFrom_keep (c : N) (s : jsstring) :
  startsWith fence (c :: s) = false ->
  stripFencesFrom 0 (c :: s) = c :: stripFencesFrom 0 s.
Proof.
  intros Hf. rewrite stripFencesFrom_cons, (startsWith_jsonFence _ Hf), Hf.
  reflexivity.
Qed.

Lemma leadingTicks_stripFences (s : jsstring) :
  (leadingTicks s < 3)%nat ->
  leadingTicks (stripFencesFrom 0 s) = leadingTicks s.
Proof.
  induction s as [|c s IH]; intros Hlt; [reflexivity|].
  rewrite stripFencesFrom_keep
    by (rewrite startsWith_fence; apply Nat.leb_gt; exact Hlt).
  rewrite !leadingTicks_cons. rewrite leadingTicks_cons in Hlt.
  destruct (isTick c); [|reflexivity].
  rewrite IH by lia. reflexivity.
Qed.

Lemma occursIn_cons (needle : jsstring) (c : N) (s : jsstring) :
  occursIn needle (c :: s) = startsWith needle (c :: s) || occursIn needle s.
Proof. reflexivity. Qed.

Lemma stripFences_no_fence_upto (n : nat) :
  forall s, (length s <= n)%nat -> occursIn fence (stripFencesFrom 0 s) = false.
Proof.
  induction n as [|n IH]; intros [|c s] Hlen; try reflexivity;
    cbn [length] in Hlen; [lia|].
  rewrite stripFencesFrom_cons.
  destruct (startsWith (js "```json") (c :: s));
    [apply IH; rewrite length_drop; lia|].
  destruct (startsWith fence (c :: s)) eqn:Hf;
    [apply IH; rewrite length_drop; lia|].
  rewrite occursIn_cons, (IH s) by lia. rewrite orb_false_r.
  rewrite <- (stripFencesFrom_keep c s Hf), startsWith_fence.
  apply Nat.leb_gt.
  rewrite startsWith_fence in Hf. apply Nat.leb_gt in Hf.
  rewrite leadingTicks_stripFences; assumption.
Qed.

Lemma stripFences_unfenced (s : jsstring) :
  occursIn fence s = false -> stripFencesFrom 0 s = s.
Proof.
  induction s as [|c s IH]; [reflexivity|].
  rewrite occursIn_cons. intros Hno. apply orb_false_iff in Hno as [Hf Hrest].
  rewrite (stripFencesFrom_keep c s Hf), (IH Hrest). reflexivity.
Qed.

(** X21. What [createRecipe] does to the text of the model before
    parsing, [replace(/```json|```/g, "")]: no run of three backticks
    is left in the result, whatever the text was; a text without such a
    run is returned as it is; and so stripping twice is stripping
    once. *)
Theorem stripFences_leaves_no_fence (s : jsstring) :
  occursIn fence (stripFences s) = false
  /\ (occursIn fence s = false -> stripFences s = s)
  /\ stripFences (stripFences s) = stripFences s.
Proof.
  assert (Hno : occursIn fence (stripFences s) = false)
    by (apply (stripFences_no_fence_upto (length s)); lia).
  split; [exact Hno|].
  split; [apply stripFences_unfenced|].
  apply stripFences_unfenced. exact Hno.
Qed.

Lemma leadingTicks_before_newline (t v : jsstring) :
  leadingTicks (t ++ 10 :: v) = leadingTicks (t ++ [10]).
Proof.
  induction t as [|c t IH]; [reflexivity|].
  cbn [app]. rewrite !leadingTicks_cons, IH. reflexivity.
Qed.

Lemma startsWith_fence_before_newline (t v : jsstring) :
  startsWith fence (t ++ 10 :: v) = startsWith fence (t ++ [10]).
Proof. rewrite !startsWith_fence, leadingTicks_before_newline. reflexivity. Qed.

Lemma leadingTicks_line (t : jsstring) :
  leadingTicks (t ++ [10]) = leadingTicks t.
Proof.
  induction t as [|c t IH]; [reflexivity|].
  cbn [app]. rewrite !leadingTicks_cons, IH. reflexivity.
Qed.

Lemma occursIn_fence_line (t : jsstring) :
  occursIn fence (t ++ [10]) = occursIn fence t.
Proof.
  induction t as [|c t IH]; [reflexivity|].
  cbn [app]. rewrite !occursIn_cons, IH. f_equal.
  rewrite !startsWith_fence.
  change (c :: t ++ [10]) with ((c :: t) ++ [10]).
  rewrite leadingTicks_line. reflexivity.
Qed.

Lemma stripFences_closing_fence (t : jsstring) :
  occursIn fence (t ++ [10]) = false ->
  stripFencesFrom 0 (t ++ 10 :: fence) = t ++ [10].
Proof.
  induction t as [|c t IH]; [reflexivity|].
  cbn [app]. rewrite occursIn_cons. intros Hno.
  apply orb_false_iff in Hno as [Hf Hrest].
  rewrite stripFencesFrom_keep.
  - rewrite (IH Hrest). reflexivity.
  - change (c :: t ++ 10 :: fence) with ((c :: t) ++ 10 :: fence).
    rewrite startsWith_fence_before_newline. exact Hf.
Qed.

Lemma dropWhile_line (u : jsstring) :
  dropWhile isSpace (u ++ [10])
  = match dropWhile isSpace u with
    | [] => []
    | d => d ++ [10]
    end.
Proof.
  induction u as [|c u IH]; [reflexivity|].
  cbn [app dropWhile]. destruct (isSpace c); [exact IH | reflexivity].
Qed.

Lemma trim_between_lines (u : jsstring) : trim (10 :: u ++ [10]) = trim u.
Proof.
  unfold trim. change (dropWhile isSpace (10 :: u ++ [10]))
    with (dropWhile isSpace (u ++ [10])).
  rewrite dropWhile_line.
  destruct (dropWhile isSpace u) as [|x d]; [reflexivity|].
  rewrite rev_app_distr. reflexivity.
Qed.

(** X22. A text that the model wrapped in a code fence is recovered:
    for every text without a run of three backticks, putting it on
    lines of its own between an opening fence (with or without the
    word json) and a closing fence, and then cleaning as
    [createRecipe] does, gives the text back, trimmed. *)
Theorem cleaning_recovers_fenced_text (text : jsstring) :
  occursIn fence text = false ->
  trim (stripFences (js "```json" ++ newline ++ text ++ newline ++ fence)) = trim text
  /\ trim (stripFences (fence ++ newline ++ text ++ newline ++ fence)) = trim text.
Proof.
  intros Hno.
  assert (Hline : occursIn fence ((10 :: text) ++ [10]) = false).
  { rewrite occursIn_fence_line, occursIn_cons, Hno, startsWith_fence.
    reflexivity. }
  assert (Hbody : stripFencesFrom 0 (10 :: text ++ 10 :: fence) = 10 :: text ++ [10]).
  { exact (stripFences_closing_fence (10 :: text) Hline). }
  unfold stripFences, newline. rewrite jsonFence_units, fence_units. cbn [app].
  split.
  - rewrite stripFencesFrom_cons. rewrite jsonFence_units. cbn [startsWith N.eqb Pos.eqb andb drop].
    rewrite <- fence_units, Hbody. apply trim_between_lines.
  - rewrite stripFencesFrom_cons.
    rewrite jsonFence_units, fence_units. cbn [startsWith N.eqb Pos.eqb andb drop].
    rewrite <- fence_units, Hbody. apply trim_between_lines.
Qed.

(** ** The repair of [safeJsonParse] *)

Lemma dropCommaBefore_skip (close : N) (k : nat) (s : jsstring) :
  dropCommaBefore close k s = dropCommaBefore close 0 (drop k s).
Proof.
  revert k. induction s as [|c s IH]; intros [|k]; try reflexivity.
  cbn [dropCommaBefore drop]. apply IH.
Qed.

Lemma takeWhile_drop (p : N -> bool) (s : jsstring) :
  takeWhile p s ++ drop (length (takeWhile p s)) s = s.
Proof.
  induction s as [|c s IH]; [reflexivity|].
  cbn [takeWhile]. destruct (p c); [|reflexivity].
  cbn. rewrite IH. reflexivity.
Qed.

Lemma solidText_spaces (s r : jsstring) :
  solidText (takeWhile isSpace s ++ r) = solidText r.
Proof.
  induction s as [|c s IH]; [reflexivity|].
  cbn [takeWhile]. destruct (isSpace c) eqn:Hc; [|reflexivity].
  cbn [app]. unfold solidText in *. cbn [List.filter].
  rewrite Hc, orb_true_r. exact IH.
Qed.

Lemma solidText_cons (c : N) (s : jsstring) :
  solidText (c :: s)
  = if isComma c || isSpace c then solidText s else c :: solidText s.
Proof. unfold solidText. cbn. destruct (isComma c || isSpace c); reflexivity. Qed.

Lemma dropCommaBefore_solid_upto (close : N) (n : nat) :
  isComma close = false -> isSpace close = false ->
  forall s, (length s <= n)%nat ->
    solidText (dropCommaBefore close 0 s) = solidText s
    /\ (length (dropCommaBefore close 0 s) <= length s)%nat.
Proof.
  intros Hc Hs. induction n as [|n IH]; intros [|c s] Hlen;
    try (split; reflexivity); cbn [length] in Hlen; [lia|].
  assert (Hkeep : solidText (c :: dropCommaBefore close 0 s) = solidText (c :: s)
                  /\ (length (c :: dropCommaBefore close 0 s) <= length (c :: s))%nat).
  { destruct (IH s ltac:(lia)) as [IHs IHl].
    rewrite !solidText_cons, IHs. split; [reflexivity | cbn; lia]. }
  cbn [dropCommaBefore].
  destruct (c =? 44) eqn:Hcomma; [|exact Hkeep].
  cbv zeta.
  pose proof (takeWhile_drop isSpace s) as Hsplit.
  destruct (drop (length (takeWhile isSpace s)) s) as [|d rest] eqn:Hdrop;
    [exact Hkeep|].
  destruct (d =? close) eqn:Hd; [|exact Hkeep].
  apply N.eqb_eq in Hd. subst d.
  rewrite dropCommaBefore_skip.
  assert (Hrest : drop (S (length (takeWhile isSpace s))) s = rest).
  { rewrite <- (Nat.add_1_r (length _)), <- drop_drop, Hdrop. reflexivity. }
  rewrite Hrest.
  assert (Hlr : (length rest < length s)%nat).
  { apply (f_equal length) in Hsplit. rewrite length_app in Hsplit.
    cbn in Hsplit. lia. }
  destruct (IH rest ltac:(lia)) as [IHs IHl].
  split; [|cbn; lia].
  rewrite (solidText_cons c). unfold isComma at 1. rewrite Hcomma. cbn [orb].
  replace (solidText s) with (solidText (takeWhile isSpace s ++ close :: rest))
    by (rewrite Hsplit; reflexivity).
  rewrite solidText_spaces, !solidText_cons, Hc, Hs, IHs. reflexivity.
Qed.

Lemma dropCommaBefore_no_comma (close : N) (s : jsstring) :
  existsb isComma s = false -> dropCommaBefore close 0 s = s.
Proof.
  induction s as [|c s IH]; [reflexivity|].
  cbn [existsb]. intros Hno. apply orb_false_iff in Hno as [Hc Hrest].
  cbn [dropCommaBefore]. unfold isComma in Hc. rewrite Hc, (IH Hrest). reflexivity.
Qed.

(** X23. The helper [safeJsonParse] tries the text as it is first; a
    text that parses is returned parsed, after that one call.  Only
    when that fails it parses once more, a repaired text.  The repair
    deletes nothing but commas and white space (all other characters
    are kept, in order), adds nothing, and leaves a text without a
    comma as it is, so that such a text fails again in the same way. *)
Theorem safeJsonParse_repair_deletes_only_commas `{Runtime}
    (str : jsstring) (w : World) :
  exists repaired,
    solidText repaired = solidText str
    /\ (length repaired <= length str)%nat
    /\ (existsb isComma str = false -> repaired = str)
    /\ safeJsonParse str w
       = match JSON_parse str with
         | Ok v => (Ok v, withEvents w [EvJsonParse str])
         | Throw _ =>
             (JSON_parse repaired,
              withEvents w [EvJsonParse str; EvJsonParse repaired])
         end.
Proof.
  exists (dropCommaBefore 93 0 (dropCommaBefore 125 0 str)).
  destruct (dropCommaBefore_solid_upto 125 (length str) eq_refl eq_refl str
              ltac:(lia)) as [H1 L1].
  destruct (dropCommaBefore_solid_upto 93 _ eq_refl eq_refl
              (dropCommaBefore 125 0 str) (Nat.le_refl _)) as [H2 L2].
  split; [rewrite H2; exact H1|].
  split; [lia|].
  split.
  - intros Hno. rewrite (dropCommaBefore_no_comma 125 str Hno).
    apply dropCommaBefore_no_comma. exact Hno.
  - apply safeJsonParse_strict_first.
Qed.

(** ** Category normalisation, once more *)

Lemma cleaned_app (s t : jsstring) :
  removeOutside isLowerAZ (toLowerCase (s ++ t))
  = removeOutside isLowerAZ (toLowerCase s) ++ removeOutside isLowerAZ (toLowerCase t).
Proof.
  unfold removeOutside, toLowerCase. rewrite flat_map_app. apply List.filter_app.
Qed.

Lemma cleaned_separator (c : N) :
  isSeparator c = true -> removeOutside isLowerAZ (toLowerCase [c]) = [].
Proof.
  unfold isSeparator, removeOutside, toLowerCase. cbn [flat_map].
  rewrite app_nil_r. generalize (lowerUnit c) as l.
  induction l as [|d l IH]; [reflexivity|].
  cbn. destruct (isLowerAZ d); cbn; [discriminate | exact IH].
Qed.

Lemma cleaned_capital (s : jsstring) :
  toLowerCase (map capital s) = toLowerCase s.
Proof.
  unfold toLowerCase. induction s as [|c s IH]; [reflexivity|].
  cbn [map flat_map]. rewrite IH. f_equal.
  unfold capital, lowerUnit, isLowerAZ.
  destruct ((97 <=? c) && (c <=? 122)) eqn:Hlow; [|reflexivity].
  apply andb_true_iff in Hlow as [H1 H2].
  apply N.leb_le in H1, H2.
  assert (Hup : (65 <=? c - 32) && (c - 32 <=? 90) = true).
  { apply andb_true_iff. split; apply N.leb_le; lia. }
  rewrite Hup.
  assert (Hnot : (65 <=? c) && (c <=? 90) = false).
  { apply andb_false_iff. right. apply N.leb_gt. lia. }
  rewrite Hnot.
  assert (H304 : (c =? 304) = false) by (apply N.eqb_neq; lia).
  assert (H8490 : (c =? 8490) = false) by (apply N.eqb_neq; lia).
  rewrite H304, H8490. f_equal. lia.
Qed.

(** X24. [normalizeCategory] on strings looks only at the letters: a
    code unit that is no letter (a space, a dash, a digit, an
    underscore) can be put in or taken out anywhere, and the ASCII
    letters can be written as capitals, without changing the result.
    And it is idempotent: each result is a tag that it maps to
    itself. *)
Theorem normalizeCategory_reads_letters_only :
  (forall (s t : jsstring) (c : N),
      isSeparator c = true ->
      normalizeCategory (VString (s ++ c :: t)) = normalizeCategory (VString (s ++ t)))
  /\ (forall s : jsstring,
        normalizeCategory (VString (map capital s)) = normalizeCategory (VString s))
  /\ (forall s : jsstring,
        exists tag, normalizeCategory (VString s) = Ok tag
                    /\ normalizeCategory (VString tag) = Ok tag).
Proof.
  split; [|split].
  - intros s t c Hc. rewrite !normalizeCategory_table.
    change (c :: t) with ([c] ++ t).
    rewrite !cleaned_app, (cleaned_separator c Hc). reflexivity.
  - intros s. rewrite !normalizeCategory_table, cleaned_capital. reflexivity.
  - intros s. rewrite normalizeCategory_table. eexists. split; [reflexivity|].
    pose proof (categoryTable_tag (removeOutside isLowerAZ (toLowerCase s))) as Htag.
    unfold categoryTags in Htag. cbn [In] in Htag.
    destruct Htag as [<- | [<- | [<- | [<- | [<- | []]]]]]; reflexivity.
Qed.

(** ** Nutrition values, once more *)

Lemma digitsAndDots_idempotent (s : jsstring) :
  digitsAndDots (digitsAndDots s) = digitsAndDots s.
Proof.
  unfold digitsAndDots, removeOutside. induction s as [|c s IH]; [reflexivity|].
  cbn. destruct (isDigit c || isDot c) eqn:Hc; [|exact IH].
  cbn. rewrite Hc, IH. reflexivity.
Qed.

Lemma parseNutrition_string `{Runtime} (s : jsstring) :
  parseNutrition (VString s)
  = Ok (if isNaN (parseFloat (digitsAndDots s)) then posZero
        else parseFloat (toFixed (parseFloat (digitsAndDots s)) 2)).
Proof.
  rewrite parseNutrition_cases. destruct s as [|c s]; reflexivity.
Qed.

(** X25. Of a string, [parseNutrition] reads the digits and dots only,
    in their order: two strings with the same digits and dots give the
    same value.  So a minus sign in front is ignored (a negative
    quantity is stored as a positive one), and so is any text without
    digits and dots around or inside the number: a unit, spaces, a
    thousands separator. *)
Theorem parseNutrition_reads_digits_and_dots `{Runtime} :
  (forall s t : jsstring,
      digitsAndDots s = digitsAndDots t ->
      parseNutrition (VString s) = parseNutrition (VString t))
  /\ (forall s : jsstring,
        parseNutrition (VString (js "-" ++ s)) = parseNutrition (VString s))
  /\ (forall s u t : jsstring,
        digitsAndDots u = [] ->
        parseNutrition (VString (s ++ u ++ t)) = parseNutrition (VString (s ++ t))).
Proof.
  assert (Hsame : forall s t : jsstring,
             digitsAndDots s = digitsAndDots t ->
             parseNutrition (VString s) = parseNutrition (VString t)).
  { intros s t Hst. rewrite !parseNutrition_string, Hst. reflexivity. }
  split; [exact Hsame|]. split.
  - intros s. apply Hsame. reflexivity.
  - intros s u t Hu. apply Hsame.
    unfold digitsAndDots, removeOutside in *.
    rewrite !List.filter_app, Hu. reflexivity.
Qed.

(** ** The order of the routes *)

(** X26. A GET of one segment: the route [/:id] fits every such path,
    the path recipe-saved included.  Because [/recipe-saved] is
    registered before it, that path (in any capitals) reaches
    [getSavedRecipes], behind the guard; every other segment reaches
    [getRecipeById] as the identifier, without the guard. *)
Theorem saved_route_precedes_id_route (seg : jsstring) :
  seg <> [] ->
  matchPath (routePath byIdRoute) [seg] = Some (Some seg)
  /\ dispatch GET [seg]
     = if sameIgnoringCase (js "recipe-saved") seg
       then Some (savedRoute, None)
       else Some (byIdRoute, Some seg).
Proof.
  intros Hne. destruct seg as [|c seg]; [congruence|].
  split; [reflexivity|].
  unfold dispatch, router. cbn [firstMatch routeMethod routePath].
  cbn [bool_decide decide_rel Method_eq_dec Method_rec Method_rect matchPath].
  destruct (sameIgnoringCase (js "recipe-saved") (c :: seg)); reflexivity.
Qed.

(** ** A store without duplicates stays so *)

Lemma sampleWorld_duplicateFree : duplicateFree sampleWorld.
Proof.
  split.
  - intros uid u Hu. unfold sampleWorld in Hu. cbn [users] in Hu.
    apply lookup_singleton_Some in Hu as [_ <-]. constructor.
  - intros rid r Hr. unfold sampleWorld in Hr. cbn [recipes] in Hr.
    apply lookup_singleton_Some in Hr as [_ <-]. constructor.
Qed.

(** * Worked instances, continued *)

Lemma creation_outcome :
  createRecipe (H := riceBowlRuntime) sampleEnv createRequest sampleWorld
  = (Ok createdResponse, createdWorld).
Proof. vm_compute. reflexivity. Qed.

Lemma creation_adds_instance :
  exists n recipe,
    createdResponse = recipeCreated recipe
    /\ recipes sampleWorld !! n = None
    /\ recipes createdWorld = <[n := recipe]> (recipes sampleWorld)
    /\ users createdWorld = users sampleWorld
    /\ getRecipeById (withId createRequest n) createdWorld
       = (Ok (recipeFound recipe), createdWorld)
    /\ exists docs docs',
         getAllRecipes createRequest sampleWorld = (Ok (recipesListed docs), sampleWorld)
         /\ getAllRecipes createRequest createdWorld
            = (Ok (recipesListed docs'), createdWorld)
         /\ docs' ≡ₚ (n, recipe) :: docs.
Proof.
  apply (creation_adds_one_fresh_document (H := riceBowlRuntime)
           sampleEnv createRequest sampleWorld createdWorld createdResponse).
  - exact creation_outcome.
  - vm_compute. reflexivity.
Defined.

(** The scenario of the specification: the stored category is
    ["vegetarian"]. *)
Lemma created_shape_instance :
  exists recipe,
    createdResponse = recipeCreated recipe
    /\ recipes createdWorld !! fresh (dom (recipes sampleWorld)) = Some recipe
    /\ category recipe = VArray [VString (js "vegetarian")]
    /\ schemaDefaults recipe
    /\ arrayOfStrings (ingredients recipe).
Proof.
  destruct (created_document_shape (H := riceBowlRuntime)
              sampleEnv createRequest sampleWorld createdWorld createdResponse)
    as (prompt & response & aiText & parsedRecipe & recipe & _ & _ & _
        & Hresp & Hstore & Hdef & (tag & Htag & Hcat & _) & Hstr & _).
  - exact creation_outcome.
  - vm_compute. reflexivity.
  - exists recipe. split; [exact Hresp|]. split; [exact Hstore|].
    split; [|split; [exact Hdef | exact Hstr]].
    rewrite Hcat. vm_compute in Htag. injection Htag as <-. reflexivity.
Defined.

(** A request without ingredients. *)
Lemma creation_without_ingredients_instance :
  createRecipe (H := riceBowlRuntime) sampleEnv
    (requestFor 1 (VObject [(js "portionSize", VString (js "4"))])) sampleWorld
  = (Ok (createFailed TypeError), sampleWorld).
Proof.
  apply (creation_without_ingredient_array (H := riceBowlRuntime)).
  - vm_compute. reflexivity.
  - reflexivity.
Defined.

(** A request whose category is the number 5. *)
Lemma creation_numeric_category_instance :
  exists resp w',
    createRecipe (H := riceBowlRuntime) sampleEnv
      (requestFor 1 (VObject [(js "ingredients", VArray [VString (js "rice")]);
                              (js "category", num 5)])) sampleWorld
    = (Ok resp, w')
    /\ status resp = 500%Z
    /\ recipes w' = recipes sampleWorld /\ users w' = users sampleWorld.
Proof.
  apply (creation_with_non_string_category (H := riceBowlRuntime)).
  - vm_compute. reflexivity.
  - vm_compute. reflexivity.
  - reflexivity.
Defined.

(** The model is out of quota; and the store refuses the document. *)
Lemma creation_failures_instance :
  createRecipe (H := stubRuntime (Throw (AiError (js "quota exceeded"))) noParse true)
    sampleEnv createRequest sampleWorld
  = (Ok (createFailed (AiError (js "quota exceeded"))),
     withEvents sampleWorld [EvGenerate (js "gemini-1.5-flash") createPrompt])
  /\ exists w',
       createRecipe (H := stubRuntime (textAnswer fencedRiceBowl) parseRiceBowl false)
         sampleEnv createRequest sampleWorld
       = (Ok (createFailed SaveError), w')
       /\ recipes w' = recipes sampleWorld /\ users w' = users sampleWorld.
Proof.
  split.
  - apply (creation_reports_failures
             (H := stubRuntime (Throw (AiError (js "quota exceeded"))) noParse true)
             sampleEnv createRequest sampleWorld createPrompt).
    + vm_compute. reflexivity.
    + reflexivity.
    + vm_compute. reflexivity.
    + reflexivity.
  - destruct (creation_reports_failures
                (H := stubRuntime (textAnswer fencedRiceBowl) parseRiceBowl false)
                sampleEnv createRequest sampleWorld createPrompt)
      as (_ & _ & Hrefused).
    + vm_compute. reflexivity.
    + reflexivity.
    + vm_compute. reflexivity.
    + apply (Hrefused {| responseText := Ok fencedRiceBowl; candidates := Some [] |}
               fencedRiceBowl riceBowlValue
               match assembleRecipe
                       (H := stubRuntime (textAnswer fencedRiceBowl) parseRiceBowl false)
                       riceBowlValue (field (body createRequest) "portionSize")
                       (field (body createRequest) "category")
                       (field (body createRequest) "difficulty") with
               | Ok r => r
               | Throw _ => sampleRecipe
               end).
      * reflexivity.
      * reflexivity.
      * vm_compute. reflexivity.
      * vm_compute. reflexivity.
      * reflexivity.
Defined.

Lemma deletion_instance :
  let req := requestFor 1 VUndefined in
  let w' := withoutRecipe sampleWorld 1 in
  deleteRecipe req sampleWorld = (Ok recipeDeleted, w')
  /\ getRecipeById req w' = (Ok recipeMissing, w')
  /\ deleteRecipe req w' = (Ok recipeNotFound, w')
  /\ saveRecipe (H := imageRuntime) req w' = (Ok saveNotFound, w')
  /\ generateRecipeImage (H := imageRuntime) sampleEnv req w' = (Ok recipeNotFound, w').
Proof.
  cbv zeta.
  destruct (deleted_recipe_is_gone_everywhere (H := imageRuntime)
              (requestFor 1 VUndefined) sampleWorld 1 sampleRecipe eq_refl eq_refl)
    as (Hdel & _ & _ & _ & _ & Hread & Hagain & _ & Hsave & Himage).
  split; [exact Hdel|]. split; [exact Hread|]. split; [exact Hagain|].
  split; [exact Hsave|]. apply Himage. vm_compute. reflexivity.
Defined.

(** User 7 has saved recipe 1; after the deletion of recipe 1 the user
    still lists it. *)
Lemma deletion_dangling_instance :
  exists resp w',
    deleteRecipe (requestFor 1 VUndefined) savedWorld = (Ok resp, w')
    /\ status resp = 200%Z /\ recipes w' !! 1 = None
    /\ exists u', users w' !! 7 = Some u' /\ 1 ∈ savedOf u'.
Proof.
  destruct (deletion_leaves_saved_references (H := imageRuntime)
              (requestFor 1 VUndefined) savedWorld)
    as (resp & w' & Hrun & _ & _ & _ & Hdangling).
  exists resp, w'. split; [exact Hrun|].
  apply (Hdangling 1 7 (userWithSaved sampleUser 1)).
  - reflexivity.
  - eexists. vm_compute. reflexivity.
  - vm_compute. reflexivity.
  - apply list_elem_of_singleton. reflexivity.
Defined.

Lemma update_twice_instance :
  let r' := set_category (VArray [VString (js "vegan")]) sampleRecipe in
  updateRecipe (H := imageRuntime) veganUpdate (withRecipe sampleWorld 1 r')
  = (Ok (recipeUpdated r'), withRecipe sampleWorld 1 r').
Proof.
  cbv zeta.
  apply (update_twice_is_update_once (H := imageRuntime) veganUpdate sampleWorld).
  - vm_compute. reflexivity.
  - reflexivity.
Defined.

Lemma update_bad_requests_instance :
  updateRecipe (H := imageRuntime) (requestFor 1 VUndefined) sampleWorld
  = (Ok (updateFailed TypeError), sampleWorld)
  /\ updateRecipe (H := imageRuntime)
       {| params_id := Malformed; body := VObject []; user_id := 7 |} sampleWorld
     = (Ok (updateFailed CastError), sampleWorld).
Proof.
  split.
  - apply (update_rejects_bad_requests (H := imageRuntime)). reflexivity.
  - apply (update_rejects_bad_requests (H := imageRuntime)); reflexivity.
Defined.

Lemma update_read_back_instance :
  exists r',
    recipeUpdated (set_category (VArray [VString (js "vegan")]) sampleRecipe)
    = recipeUpdated r'
    /\ getRecipeById veganUpdate
         (withRecipe sampleWorld 1
            (set_category (VArray [VString (js "vegan")]) sampleRecipe))
       = (Ok (recipeFound r'),
          withRecipe sampleWorld 1
            (set_category (VArray [VString (js "vegan")]) sampleRecipe)).
Proof.
  apply (updated_recipe_is_read_back (H := imageRuntime) veganUpdate sampleWorld).
  - vm_compute. reflexivity.
  - reflexivity.
Defined.

Lemma save_frame_instance :
  exists resp w',
    saveRecipe (H := imageRuntime) (requestFor 1 VUndefined) sampleWorld = (Ok resp, w')
    /\ savedListsGrew 7 1 sampleWorld w'.
Proof.
  apply (save_changes_only_the_two_lists (H := imageRuntime)
           (requestFor 1 VUndefined) sampleWorld 1).
  reflexivity.
Defined.

Lemma save_unknown_instance :
  saveRecipe (H := imageRuntime)
    {| params_id := Malformed; body := VUndefined; user_id := 7 |} sampleWorld
  = (Ok (saveFailed CastError), sampleWorld)
  /\ saveRecipe (H := imageRuntime) (requestFor 2 VUndefined) sampleWorld
     = (Ok saveNotFound, sampleWorld)
  /\ saveRecipe (H := imageRuntime)
       {| params_id := Oid 1; body := VUndefined; user_id := 8 |} sampleWorld
     = (Ok (saveFailed TypeError), sampleWorld).
Proof.
  split; [|split].
  - apply (save_rejects_unknown_ids (H := imageRuntime)). reflexivity.
  - apply (save_rejects_unknown_ids (H := imageRuntime) _ _) with (rid := 2);
      reflexivity.
  - apply (save_rejects_unknown_ids (H := imageRuntime) _ _) with (rid := 1).
    + reflexivity.
    + eexists. reflexivity.
    + reflexivity.
Defined.

Lemma save_retry_instance :
  saveRecipe (H := imageRuntime) (requestFor 1 VUndefined) halfSavedWorld
  = (Ok (recipeSaved (userWithSaved sampleUser 1)), savedWorld)
  /\ linked savedWorld 7 1
  /\ users savedWorld = users halfSavedWorld.
Proof.
  apply (save_retry_completes_the_link (H := imageRuntime)
           (requestFor 1 VUndefined) halfSavedWorld 1
           (userWithSaved sampleUser 1) sampleRecipe).
  - reflexivity.
  - vm_compute. reflexivity.
  - reflexivity.
  - apply list_elem_of_singleton. reflexivity.
  - apply not_elem_of_nil.
  - reflexivity.
Defined.

Lemma halfSavedWorld_halfLinked : halfLinked halfSavedWorld 7 1.
Proof.
  exists (userWithSaved sampleUser 1), sampleRecipe.
  split; [vm_compute; reflexivity|]. split; [reflexivity|].
  split; [apply list_elem_of_singleton; reflexivity | apply not_elem_of_nil].
Qed.

Lemma savedWorld_consistent : consistent savedWorld.
Proof.
  intros uid u rid r Hu Hr. cbn in Hu, Hr.
  apply lookup_insert_Some in Hu as [[<- <-] | [Hne Hu]].
  - apply lookup_insert_Some in Hr as [[<- <-] | [Hne Hr]].
    + cbn. split; intros _; apply list_elem_of_singleton; reflexivity.
    + apply lookup_singleton_Some in Hr as [<- _]. congruence.
  - apply lookup_singleton_Some in Hu as [<- _]. congruence.
Qed.

(** In the linked store the listing for user 7 holds recipe 1; in the
    store where only the user's side was written it does not. *)
Lemma saved_listing_instance :
  (forall n r, (n, r) ∈ savedDocs (requestFor 1 VUndefined) savedWorld
               <-> recipes savedWorld !! n = Some r
                   /\ n ∈ savedOf (userWithSaved sampleUser 1))
  /\ (forall r, (1, r) ∉ savedDocs (requestFor 1 VUndefined) halfSavedWorld).
Proof.
  split.
  - destruct (saved_listing_follows_savedBy (requestFor 1 VUndefined) savedWorld)
      as (_ & _ & _ & Hcons & _).
    apply Hcons; [exact savedWorld_consistent | vm_compute; reflexivity].
  - destruct (saved_listing_follows_savedBy (requestFor 1 VUndefined) halfSavedWorld)
      as (_ & _ & _ & _ & Hhalf).
    apply Hhalf. exact halfSavedWorld_halfLinked.
Defined.

Lemma saved_listed_instance :
  exists rid r',
    params_id (requestFor 1 VUndefined) = Oid rid
    /\ recipes savedWorld !! rid = Some r'
    /\ (rid, r') ∈ savedDocs (requestFor 1 VUndefined) savedWorld
    /\ getSavedRecipes (requestFor 1 VUndefined) savedWorld
       = (Ok (savedListed (savedDocs (requestFor 1 VUndefined) savedWorld)), savedWorld)
    /\ (forall n, (exists r, (n, r) ∈ savedDocs (requestFor 1 VUndefined) sampleWorld) ->
                  exists r, (n, r) ∈ savedDocs (requestFor 1 VUndefined) savedWorld).
Proof.
  apply (saved_recipe_is_listed (H := imageRuntime)
           (requestFor 1 VUndefined) sampleWorld savedWorld
           (recipeSaved (userWithSaved sampleUser 1))).
  - vm_compute. reflexivity.
  - reflexivity.
Defined.

Lemma duplicateFree_instance :
  saveRecipe (H := imageRuntime) (requestFor 1 VUndefined) sampleWorld
  = (Ok (recipeSaved (userWithSaved sampleUser 1)), savedWorld)
  /\ duplicateFree sampleWorld
  /\ duplicateFree savedWorld.
Proof.
  assert (Hrun : saveRecipe (H := imageRuntime) (requestFor 1 VUndefined) sampleWorld
                 = (Ok (recipeSaved (userWithSaved sampleUser 1)), savedWorld))
    by (vm_compute; reflexivity).
  split; [exact Hrun|]. split; [exact sampleWorld_duplicateFree|].
  exact (saveRecipe_keeps_duplicateFree (H := imageRuntime) _ _ _ _ Hrun
           sampleWorld_duplicateFree).
Defined.

Lemma image_only_instance :
  exists n recipe prompt response cs imageBase64,
    params_id (requestFor 1 VUndefined) = Oid n
    /\ recipes sampleWorld !! n = Some recipe
    /\ imagePrompt (H := imageRuntime) (title recipe) = Ok prompt
    /\ generateContent (Runtime := imageRuntime)
         (js "gemini-2.5-flash-image-preview") prompt = Ok response
    /\ candidates response = Some cs
    /\ In imageBase64 (inlinePayloads cs) /\ imageBase64 <> []
    /\ let recipe' := set_image (dataUri imageBase64) recipe in
       imageGenerated twoImagesStored = imageGenerated recipe'
       /\ recipes (withRecipe
                     (withEvents sampleWorld
                        [EvGenerate (js "gemini-2.5-flash-image-preview") imagePromptText])
                     1 twoImagesStored)
          = <[n := recipe']> (recipes sampleWorld)
       /\ users (withRecipe
                   (withEvents sampleWorld
                      [EvGenerate (js "gemini-2.5-flash-image-preview") imagePromptText])
                   1 twoImagesStored)
          = users sampleWorld
       /\ image recipe' = VString (js "data:image/png;base64," ++ imageBase64)
       /\ exceptImage recipe' = exceptImage recipe
       /\ getRecipeById (requestFor 1 VUndefined)
            (withRecipe
               (withEvents sampleWorld
                  [EvGenerate (js "gemini-2.5-flash-image-preview") imagePromptText])
               1 twoImagesStored)
          = (Ok (recipeFound recipe'),
             withRecipe
               (withEvents sampleWorld
                  [EvGenerate (js "gemini-2.5-flash-image-preview") imagePromptText])
               1 twoImagesStored).
Proof.
  apply (image_generation_changes_only_the_image (H := imageRuntime)
           sampleEnv (requestFor 1 VUndefined) sampleWorld).
  - vm_compute. reflexivity.
  - reflexivity.
Defined.

Lemma stripFences_instance :
  stripFences riceBowlText = riceBowlText.
Proof.
  destruct (stripFences_leaves_no_fence riceBowlText) as (_ & Hsame & _).
  apply Hsame. vm_compute. reflexivity.
Defined.

Lemma cleaning_instance :
  trim (stripFences fencedRiceBowl) = trim riceBowlText.
Proof.
  destruct (cleaning_recovers_fenced_text riceBowlText) as [Hjson _].
  - vm_compute. reflexivity.
  - exact Hjson.
Defined.

Lemma separators_instance :
  normalizeCategory (VString (js "non" ++ 45 :: js "veg"))
  = normalizeCategory (VString (js "non" ++ js "veg")).
Proof.
  destruct normalizeCategory_reads_letters_only as (Hsep & _ & _).
  apply (Hsep (js "non") (js "veg") 45). reflexivity.
Defined.

(** The minus sign and the unit are not read. *)
Lemma nutrition_sign_instance :
  parseNutrition (H := imageRuntime) (VString (js "-5 g"))
  = parseNutrition (H := imageRuntime) (VString (js "5")).
Proof.
  destruct (parseNutrition_reads_digits_and_dots (H := imageRuntime)) as (Hsame & _).
  apply Hsame. vm_compute. reflexivity.
Defined.

Lemma empty_credential_instance :
  createRecipe (H := riceBowlRuntime)
    {[ "GOOGLE_API_KEY"%string := [] ]} createRequest sampleWorld
  = (Ok keyNotFound, sampleWorld)
  /\ generateRecipeImage (H := riceBowlRuntime)
       {[ "GOOGLE_API_KEY"%string := [] ]} createRequest sampleWorld
     = (Ok keyNotFound, sampleWorld).
Proof.
  apply (empty_credential_short_circuits (H := riceBowlRuntime)).
  vm_compute. reflexivity.
Defined.

Lemma saved_route_instance :
  matchPath (routePath byIdRoute) [js "Recipe-Saved"] = Some (Some (js "Recipe-Saved"))
  /\ dispatch GET [js "Recipe-Saved"] = Some (savedRoute, None).
Proof.
  destruct (saved_route_precedes_id_route (js "Recipe-Saved")) as [Hfits Hgoes].
  - discriminate.
  - split; [exact Hfits|]. rewrite Hgoes. reflexivity.
Defined.
